(** * Coyote HMM driver (driver/LEGACY/hmm/fpga_hmm.c): page migration,
      device-private page allocator and TLB mapping.

    The driver code is embedded as functions over an explicit machine state:
    the device's bookkeeping (free list, chunks, residency list, per-page
    zone data), a table standing for the accelerator TLB, and the log of
    the calls made to the kernel and to the rest of the driver.  A run ends
    with a returned value or with an [Oops] (NULL dereference, access
    outside a buffer, BUG_ON, a loop that never ends). *)

From Stdlib Require Import ZArith List Bool Lia String.
From stdpp Require Import base option list gmap relations.

Open Scope Z_scope.

(** ** Machine integers *)

Definition u64 (z : Z) : Z := z mod 2 ^ 64.
Definition u32 (z : Z) : Z := z mod 2 ^ 32.
Definition s32 (z : Z) : Z := (z + 2 ^ 31) mod 2 ^ 32 - 2 ^ 31.

(** ** Kernel constants (errno.h, migrate.h of a kernel that still has
       MIGRATE_PFN_LOCKED) *)

Definition ENOMEM : Z := 12.
Definition EFAULT : Z := 14.
Definition EBUSY : Z := 16.
Definition EINVAL : Z := 22.

Definition MIGRATE_PFN_VALID : Z := 1.
Definition MIGRATE_PFN_MIGRATE : Z := 2.
Definition MIGRATE_PFN_LOCKED : Z := 4.
Definition MIGRATE_PFN_WRITE : Z := 8.
Definition MIGRATE_PFN_SHIFT : Z := 6.

Definition MIGRATE_VMA_SELECT_SYSTEM : Z := 1.
Definition MIGRATE_VMA_SELECT_DEVICE_PRIVATE : Z := 2.

Definition DEVMEM_CHUNK_SIZE : Z := 256 * 1024 * 1024.

(** Macros of the driver's headers, which are not part of this file: they
    are parameters of the development. *)
Class hmm_defs := {
  PAGE_SHIFT : Z;
  MAX_N_MAP_PAGES : Z;
  HOST_ACCESS : Z;
  CARD_ACCESS : Z;
  STRM_ACCESS : Z;
}.

(** ** Data *)

(** A [struct page] is named by its page frame number; a NULL page pointer
    is [None]. *)
Definition page := Z.

Definition page_to_pfn (p : page) : Z := p.
Definition pfn_to_page (pfn : Z) : page := pfn.

Definition migrate_pfn (pfn : Z) : Z :=
  Z.lor (Z.shiftl pfn MIGRATE_PFN_SHIFT) MIGRATE_PFN_VALID.

Definition migrate_pfn_to_page (mpfn : Z) : option page :=
  if Z.land mpfn MIGRATE_PFN_VALID =? 0 then None
  else Some (pfn_to_page (Z.shiftr mpfn MIGRATE_PFN_SHIFT)).

Record tlb_metadata := {
  page_shift : Z;
  page_size : Z;
  page_mask : Z;
}.

Record bus_driver_data := {
  n_pages_in_huge : Z;
  dif_order_page_shift : Z;
  ltlb_meta : tlb_metadata;
  stlb_meta : tlb_metadata;
}.

Record hmm_prvt_info := {
  pi_ctid : Z;
  pi_huge : bool;
  card_address : Z;
}.

#[global] Instance hmm_prvt_info_eq_dec : EqDecision hmm_prvt_info.
Proof. solve_decision. Defined.

Record hmm_prvt_chunk := {
  range_start : Z;
  range_end : Z;
}.

Definition range_len (c : hmm_prvt_chunk) : Z := range_end c - range_start c + 1.

Record cyt_migrate := {
  ctid : Z;
  hpid : Z;
  vaddr : Z;
  hugepages : bool;
  n_pages : Z;
}.

(** One entry of the accelerator TLB, as the arguments of
    [create_tlb_mapping] give it: the table (large or small pages), the
    virtual page, the physical address, the access direction, the context
    and the host process. *)
Record tlb_entry := {
  te_huge : bool;
  te_vaddr : Z;
  te_paddr : Z;
  te_host : Z;
  te_ctid : Z;
  te_hpid : Z;
}.

#[global] Instance tlb_entry_eq_dec : EqDecision tlb_entry.
Proof. solve_decision. Defined.

Inductive lock :=
  | mmu_lock | sync_lock | offload_lock | page_lock | sections_lock.

#[global] Instance lock_eq_dec : EqDecision lock.
Proof. solve_decision. Defined.

Inductive waitqueue := waitqueue_invldt | waitqueue_sync | waitqueue_offload.

(** The calls a run makes, in program order. *)
Inductive event :=
  | EvPrErr (msg : string)
  | EvPrWarn (msg : string)
  | EvMutexLock (l : lock)
  | EvMutexTrylock (l : lock) (taken : bool)
  | EvMutexUnlock (l : lock)
  | EvSpinLock (l : lock)
  | EvSpinUnlock (l : lock)
  | EvChangeTlbLock
  | EvMmget
  | EvMmput
  | EvMmapReadLock
  | EvMmapReadUnlock
  | EvCreateTlbMapping (e : tlb_entry)
  | EvCreateTlbUnmapping (huge : bool) (va hp : Z)
  | EvInvalidateTlbEntry (va n hp : Z) (last : bool)
  | EvMigrateVmaSetup (start end_ flags : Z)
  | EvMigrateVmaPages (dst : list Z) (cpages : Z)
  | EvMigrateVmaFinalize
  | EvAllocPageVma (addr : Z) (r : option page)
  | EvAllocPagesVma (order addr : Z) (r : option page)
  | EvGetPage (p : page)
  | EvPutPage (p : page)
  | EvGetUserPagesRemote (addr : Z) (r : option page)
  | EvLockPage (p : page)
  | EvUnlockPage (p : page)
  | EvAllocCardMemory (n : Z) (huge : bool) (r : option (list Z))
  | EvFreeCardMemory (addrs : list Z) (n : Z) (huge : bool)
  | EvWaitEvent (q : waitqueue)
  | EvTriggerDmaSync (host card : list Z) (n : Z) (huge : bool)
  | EvTriggerDmaOffload (host card : list Z) (n : Z) (huge : bool)
  | EvMmuIntervalSetSeq (seq : Z)
  | EvMmuIntervalReadBegin (seq : Z)
  | EvHmmRangeFault (start end_ ret : Z)
  | EvMmuIntervalReadRetry (stale : bool)
  | EvKzallocDevmem (ok : bool)
  | EvRequestFreeMemRegion (r : option Z)
  | EvMemremapPages (ok : bool)
  | EvReleaseMemRegion (start len : Z)
  | EvKfreeDevmem
  | EvListAdd (info : hmm_prvt_info)
  | EvListDel (info : hmm_prvt_info).

(** What one attempt to grow the pool meets: does [kzalloc] give the
    management struct, where does [request_free_mem_region] put the region
    (if it does), does [memremap_pages] succeed. *)
Record grow_env := {
  kzalloc_ok : bool;
  region : option Z;
  memremap_ok : bool;
}.

(** What one turn of the host-fault loop meets. *)
Record fault_env := {
  fe_time_after : bool;
  fe_seq : Z;
  fe_fault_ret : Z;
  fe_pfns : list Z;
  fe_read_retry : bool;
}.

(** The buffers a migration allocates with [vmalloc(n, size)].  The macro
    is declared outside this file; the loops below read slots they never
    wrote and compare them with 0 or NULL, so the buffer is taken as
    zero-filled. *)
Inductive buffer :=
  | BufArgs | BufSrc | BufDst | BufSpages | BufDpages
  | BufHostAddress | BufCardAddress | BufCalloc | BufPfns | BufNewEntry.

(** Where the page table walk of [host_ptw] ends: at a device-private page,
    or at one of its six exits. *)
Inductive ptw_exit := at_pgd | at_p4d | at_pud | at_pmd | at_pte | at_swp.
Inductive ptw_result :=
  | PtwPage (p : page)
  | PtwExit (l : ptw_exit).

(** The answers of the kernel that do not depend on the order of the
    calls. *)
Record kernel := {
  k_vmalloc : buffer -> bool;
  k_find_vma_intersection : Z -> Z -> bool;
  (* migrate_vma_setup: return value, src array, cpages, npages *)
  k_migrate_vma_setup : Z -> Z -> Z -> Z * list Z * Z * Z;
  k_alloc_page_vma : Z -> option page;
  k_alloc_pages_vma : Z -> Z -> option page;
  (* the page tables of a host process, as host_ptw walks them *)
  k_page_tables : Z -> Z -> ptw_result;
  k_alloc_card_memory : Z -> bool -> option (list Z);
  (* find_vma and vma_lookup at an address: is the result a vma, not NULL *)
  k_find_vma : Z -> bool;
  k_vma_lookup : Z -> bool;
  (* get_user_pages_remote of one page: the page it pins, if it pins one;
     how the kernel gets at the page is not part of the machine *)
  k_get_user_pages_remote : Z -> option page;
  k_is_transparent_hugepage : page -> bool;
  k_pid_task : Z -> bool;
  k_mutex_trylock : lock -> bool;
  (* hpid_ctid_map: is a notifier registered for this host process *)
  k_notifier : Z -> bool;
}.

(** The machine. *)
Record machine := {
  bd_data : bus_driver_data;
  free_pages : list page;
  mem_sections : list hmm_prvt_chunk;
  zone_device_data : gmap Z hmm_prvt_info;
  migrated_pages : list hmm_prvt_info;
  tlb : list tlb_entry;
  grow_script : list grow_env;
  fault_script : list fault_env;
  trace : list event;
}.

Inductive crash := NullDeref | OutOfBounds | BugOn | Hang.

Inductive outcome (A : Type) :=
  | Done (a : A)
  | Oops (c : crash).
Arguments Done {A} a.
Arguments Oops {A} c.

(** ** The monad of driver code: state, log and Oops *)

Definition M (A : Type) : Type := machine -> outcome A * machine.

#[global] Instance M_ret : MRet M := fun A a m => (Done a, m).
#[global] Instance M_bind : MBind M := fun A B f c m =>
  match c m with
  | (Done a, m') => f a m'
  | (Oops e, m') => (Oops e, m')
  end.

Definition oops {A} (c : crash) : M A := fun m => (Oops c, m).
Definition gets {A} (f : machine -> A) : M A := fun m => (Done (f m), m).
Definition modify (f : machine -> machine) : M unit := fun m => (Done tt, f m).

Definition set_trace (t : list event) (m : machine) : machine :=
  {| bd_data := bd_data m; free_pages := free_pages m;
     mem_sections := mem_sections m; zone_device_data := zone_device_data m;
     migrated_pages := migrated_pages m; tlb := tlb m;
     grow_script := grow_script m; fault_script := fault_script m;
     trace := t |}.
Definition set_tlb (t : list tlb_entry) (m : machine) : machine :=
  {| bd_data := bd_data m; free_pages := free_pages m;
     mem_sections := mem_sections m; zone_device_data := zone_device_data m;
     migrated_pages := migrated_pages m; tlb := t;
     grow_script := grow_script m; fault_script := fault_script m;
     trace := trace m |}.
Definition set_free_pages (l : list page) (m : machine) : machine :=
  {| bd_data := bd_data m; free_pages := l;
     mem_sections := mem_sections m; zone_device_data := zone_device_data m;
     migrated_pages := migrated_pages m; tlb := tlb m;
     grow_script := grow_script m; fault_script := fault_script m;
     trace := trace m |}.
Definition set_mem_sections (l : list hmm_prvt_chunk) (m : machine) : machine :=
  {| bd_data := bd_data m; free_pages := free_pages m;
     mem_sections := l; zone_device_data := zone_device_data m;
     migrated_pages := migrated_pages m; tlb := tlb m;
     grow_script := grow_script m; fault_script := fault_script m;
     trace := trace m |}.
Definition set_zone_device_data (z : gmap Z hmm_prvt_info) (m : machine) : machine :=
  {| bd_data := bd_data m; free_pages := free_pages m;
     mem_sections := mem_sections m; zone_device_data := z;
     migrated_pages := migrated_pages m; tlb := tlb m;
     grow_script := grow_script m; fault_script := fault_script m;
     trace := trace m |}.
Definition set_migrated_pages (l : list hmm_prvt_info) (m : machine) : machine :=
  {| bd_data := bd_data m; free_pages := free_pages m;
     mem_sections := mem_sections m; zone_device_data := zone_device_data m;
     migrated_pages := l; tlb := tlb m;
     grow_script := grow_script m; fault_script := fault_script m;
     trace := trace m |}.
Definition set_grow_script (l : list grow_env) (m : machine) : machine :=
  {| bd_data := bd_data m; free_pages := free_pages m;
     mem_sections := mem_sections m; zone_device_data := zone_device_data m;
     migrated_pages := migrated_pages m; tlb := tlb m;
     grow_script := l; fault_script := fault_script m;
     trace := trace m |}.
Definition set_fault_script (l : list fault_env) (m : machine) : machine :=
  {| bd_data := bd_data m; free_pages := free_pages m;
     mem_sections := mem_sections m; zone_device_data := zone_device_data m;
     migrated_pages := migrated_pages m; tlb := tlb m;
     grow_script := grow_script m; fault_script := l;
     trace := trace m |}.

Definition emit (e : event) : M unit :=
  modify (fun m => set_trace (trace m ++ [e]) m).

Definition pr_err (msg : string) : M unit := emit (EvPrErr msg).

(** Buffers: [a[i]] and [a[i] = v] with the index checked. *)
Definition rd {A} (a : list A) (i : Z) : M A :=
  if i <? 0 then oops OutOfBounds
  else match a !! Z.to_nat i with
       | Some v => mret v
       | None => oops OutOfBounds
       end.

Definition wr {A} (a : list A) (i : Z) (v : A) : M (list A) :=
  if (0 <=? i) && (i <? Z.of_nat (length a)) then mret (<[Z.to_nat i := v]> a)
  else oops OutOfBounds.

Definition zeroed {A} (z : A) (n : Z) : list A := replicate (Z.to_nat n) z.

Section Driver.

Context `{K : hmm_defs} (k : kernel).

(** ** The accelerator TLB *)

Definition tlb_meta_of (bd : bus_driver_data) (huge : bool) : tlb_metadata :=
  if huge then ltlb_meta bd else stlb_meta bd.

Definition tlb_slot (huge : bool) (va hp : Z) (e : tlb_entry) : bool :=
  Bool.eqb (te_huge e) huge && (te_vaddr e =? va) && (te_hpid e =? hp).

(** Modelled from the spec: [create_tlb_mapping] is defined in another file
    of the driver.  The spec keeps at most one entry per (context, host
    process, virtual page), so the new entry takes the place of an entry
    with that key in the same table. *)
Definition create_tlb_mapping (huge : bool) (va pa host ct hp : Z) : M unit :=
  let e := {| te_huge := huge; te_vaddr := va; te_paddr := pa;
              te_host := host; te_ctid := ct; te_hpid := hp |} in
  emit (EvCreateTlbMapping e) ;;
  modify (fun m =>
    set_tlb (e :: List.filter
                    (fun x => negb (tlb_slot huge va hp x && (te_ctid x =? ct)))
                    (tlb m)) m).

(** Modelled from the spec: [create_tlb_unmapping] is defined in another
    file of the driver.  It takes no context: the entries of the host
    process at the virtual page leave the table, and a page with no entry
    is left as it is. *)
Definition create_tlb_unmapping (huge : bool) (va hp : Z) : M unit :=
  emit (EvCreateTlbUnmapping huge va hp) ;;
  modify (fun m =>
    set_tlb (List.filter (fun x => negb (tlb_slot huge va hp x)) (tlb m)) m).

(** [invalidate_tlb_entry] sends a command to the accelerator; the table is
    not touched. *)
Definition invalidate_tlb_entry (va n hp : Z) (last : bool) : M unit :=
  emit (EvInvalidateTlbEntry va n hp last).

(** [for (i = 0; (i < n_map_pages) && (i < MAX_N_MAP_PAGES); i += pg_inc)]
    with [int i] against the [uint32_t] bound and stride.  The loops of this
    section get [n_map_pages] turns of fuel, enough whenever the stride is
    not 0 and the counter does not wrap; a loop that wants more is a
    [Hang]. *)
Fixpoint tlb_map_loop (fuel : nat) (huge : bool) (pg_inc n_map_pages : Z)
    (paddr : list Z) (host ct hp : Z) (i tmp_vaddr : Z) : M unit :=
  if (u32 i <? n_map_pages) && (i <? MAX_N_MAP_PAGES) then
    match fuel with
    | O => oops Hang
    | S fuel' =>
        p ← rd paddr i;
        if p =? 0 then
          tlb_map_loop fuel' huge pg_inc n_map_pages paddr host ct hp
            (s32 (i + pg_inc)) tmp_vaddr
        else
          create_tlb_mapping huge tmp_vaddr p host ct hp ;;
          tlb_map_loop fuel' huge pg_inc n_map_pages paddr host ct hp
            (s32 (i + pg_inc)) (u64 (tmp_vaddr + pg_inc))
    end
  else mret tt.

Definition tlb_map_hmm (vaddr : Z) (paddr : list Z) (n_pages : Z)
    (host ct hp : Z) (huge : bool) : M unit :=
  bd ← gets bd_data;
  let pg_inc := u32 (if huge then n_pages_in_huge bd else 1) in
  let n_map_pages :=
    u32 (if huge then Z.shiftr (u32 n_pages) (dif_order_page_shift bd)
         else u32 n_pages) in
  tlb_map_loop (Z.to_nat n_map_pages) huge pg_inc n_map_pages paddr host ct hp
    0 (u64 vaddr).

Fixpoint tlb_unmap_loop (fuel : nat) (huge : bool) (pg_inc n_map_pages hp : Z)
    (i tmp_vaddr : Z) : M unit :=
  if u32 i <? n_map_pages then
    match fuel with
    | O => oops Hang
    | S fuel' =>
        create_tlb_unmapping huge tmp_vaddr hp ;;
        tlb_unmap_loop fuel' huge pg_inc n_map_pages hp
          (s32 (i + pg_inc)) (u64 (tmp_vaddr + pg_inc))
    end
  else mret tt.

Fixpoint tlb_invalidate_loop (fuel : nat) (pg_inc n_map_pages hp : Z)
    (i tmp_vaddr : Z) : M unit :=
  if u32 i <? n_map_pages then
    match fuel with
    | O => oops Hang
    | S fuel' =>
        invalidate_tlb_entry tmp_vaddr pg_inc hp
          (u32 i =? u32 (n_map_pages - pg_inc)) ;;
        tlb_invalidate_loop fuel' pg_inc n_map_pages hp
          (s32 (i + pg_inc)) (u64 (tmp_vaddr + pg_inc))
    end
  else mret tt.

Definition tlb_unmap_hmm (vaddr n_pages hp : Z) (huge : bool) : M unit :=
  bd ← gets bd_data;
  let pg_inc := u32 (if huge then n_pages_in_huge bd else 1) in
  let n_map_pages :=
    u32 (if huge then Z.shiftr (u32 n_pages) (dif_order_page_shift bd)
         else u32 n_pages) in
  tlb_unmap_loop (Z.to_nat n_map_pages) huge pg_inc n_map_pages hp 0 (u64 vaddr) ;;
  tlb_invalidate_loop (Z.to_nat n_map_pages) pg_inc n_map_pages hp 0 (u64 vaddr).

(** ** The device-private page allocator *)

Definition page_in_chunk (p : page) (c : hmm_prvt_chunk) : bool :=
  (Z.shiftr (range_start c) PAGE_SHIFT <=? p)
  && (p <? Z.shiftr (range_start c) PAGE_SHIFT + Z.shiftr (range_len c) PAGE_SHIFT).

(** The free list is threaded through [page->zone_device_data]; the field
    [free_pages] of the machine is the chain of links read from
    [d->free_pages]: page after page, up to the page that links to NULL or,
    when the chain runs into a page it has already passed, up to that page
    met for the second time.  A list without a repetition is a chain that
    ends in NULL; a list whose last page occurs before is a chain that
    closes into a cycle there.

    [chain_to p l] is the chain [l] up to its first [p], the whole of [l]
    when [p] is not on it. *)
Fixpoint chain_to (p : page) (l : list page) : list page :=
  match l with
  | [] => []
  | q :: l' => if q =? p then [q] else q :: chain_to p l'
  end.

(** [page->zone_device_data = d->free_pages; d->free_pages = page]: the page
    becomes the head and links to the old head; the link takes the place of
    what the field held, a [hmm_prvt_info] or an older link.  For a page
    that is not on the chain the old chain follows it.  For a page that is
    on the chain the write redirects its link: from the new head the chain
    runs through the pages that were before the page and is back at the
    page, and the pages that were behind it cannot be reached any more. *)
Definition push_free_page (p : page) (m : machine) : machine :=
  set_free_pages (p :: chain_to p (free_pages m))
    (set_zone_device_data (delete p (zone_device_data m)) m).

(** [page->pgmap] is the pagemap of the chunk the page was carved from; for
    a page of no chunk the field holds something else and the
    [container_of] walks off. *)
Definition cpu_free_private_page (p : page) : M unit :=
  secs ← gets mem_sections;
  if existsb (page_in_chunk p) secs then
    emit (EvSpinLock page_lock) ;;
    modify (push_free_page p) ;;
    emit (EvSpinUnlock page_lock)
  else oops NullDeref.

(** Modelled from the spec: [put_page] is the kernel's.  It gives back a
    reference to the page.  The driver registers [cpu_free_private_page] as
    the [page_free] of its chunks ([cyt_devmem_ops]; [devmem->pagemap.ops]
    in [alloc_new_prvt_pages]): it is "the release callback the host memory
    manager calls when it reclaims a device-private page through its own
    page lifecycle".  The one reference the driver takes on a device page is
    the [get_page] of the staging loop, on a page fresh from the free list;
    the [put_page] that gives it back releases the page, and the kernel
    calls [page_free].  A page of no chunk is a page of the host: what its
    release does is the kernel's own. *)
Definition put_page (p : page) : M unit :=
  emit (EvPutPage p) ;;
  secs ← gets mem_sections;
  if existsb (page_in_chunk p) secs then cpu_free_private_page p else mret tt.

(** [is_thp]: [get_user_pages_remote(vma->vm_mm, addr, 1, 1, pages, NULL,
    locked)] pins the page at the address, [is_transparent_hugepage] looks
    at it and [put_page] lets it go.  The vma is dereferenced unchecked, and
    so is [pages[0]], which holds whatever the stack held when the call
    pinned no page: both are faults. *)
Definition is_thp (vma : bool) (addr : Z) : M bool :=
  if negb vma then oops NullDeref
  else
    let r := k_get_user_pages_remote k addr in
    emit (EvGetUserPagesRemote addr r) ;;
    match r with
    | None => oops NullDeref
    | Some p =>
        let res := k_is_transparent_hugepage k p in
        put_page p ;;
        mret res
    end.

(** [for (i = 0; i < n_pages; i++) { ...; page++; }] *)
Fixpoint push_chunk_pages (n : nat) (p : page) (m : machine) : machine :=
  match n with
  | O => m
  | S n' => push_chunk_pages n' (p + 1) (push_free_page p m)
  end.

(** A script that has run out stands for a machine that has run out of
    memory. *)
Definition no_memory : grow_env :=
  {| kzalloc_ok := false; region := None; memremap_ok := false |}.

Definition alloc_new_prvt_pages : M Z :=
  let ret_val := 0 in
  s ← gets grow_script;
  let g := List.hd no_memory s in
  modify (set_grow_script (List.tl s)) ;;
  emit (EvKzallocDevmem (kzalloc_ok g)) ;;
  if negb (kzalloc_ok g) then
    pr_err "Cannot allocate devmem mngmt struct" ;;
    mret (- ENOMEM)
  else
    emit (EvRequestFreeMemRegion (region g)) ;;
    match region g with
    | None =>
        pr_err "cannot obtain private pages memory" ;;
        emit EvKfreeDevmem ;;
        mret (- ENOMEM)
    | Some start =>
        let devmem := {| range_start := start;
                         range_end := start + DEVMEM_CHUNK_SIZE - 1 |} in
        emit (EvMemremapPages (memremap_ok g)) ;;
        if negb (memremap_ok g) then
          pr_err "cannot remap private pages" ;;
          emit (EvReleaseMemRegion (range_start devmem) (range_len devmem)) ;;
          emit EvKfreeDevmem ;;
          mret ret_val
        else
          emit (EvSpinLock sections_lock) ;;
          modify (fun m => set_mem_sections (devmem :: mem_sections m) m) ;;
          emit (EvSpinUnlock sections_lock) ;;
          let p := pfn_to_page (Z.shiftr (range_start devmem) PAGE_SHIFT) in
          let n_pages := Z.shiftr (range_len devmem) PAGE_SHIFT in
          emit (EvSpinLock page_lock) ;;
          modify (push_chunk_pages (Z.to_nat n_pages) p) ;;
          emit (EvSpinUnlock page_lock) ;;
          mret ret_val
    end.

Definition alloc_private_page : M (option page) :=
  fp ← gets free_pages;
  ret_val ← (match fp with
             | [] => alloc_new_prvt_pages
             | _ => mret 0
             end);
  if negb (ret_val =? 0) then
    emit (EvSpinUnlock page_lock) ;;
    pr_err "cannot allocate additional device private pages" ;;
    mret None
  else
    emit (EvSpinLock page_lock) ;;
    fp ← gets free_pages;
    match fp with
    | [] => oops NullDeref
    | dpage :: rest =>
        modify (set_free_pages rest) ;;
        modify (fun m => set_zone_device_data (delete dpage (zone_device_data m)) m) ;;
        emit (EvSpinUnlock page_lock) ;;
        mret (Some dpage)
    end.

(** ** The notifier callback *)

Record mmu_notifier_range := {
  r_vma : bool;             (* range->vma != NULL *)
  r_start : Z;
  r_end : Z;
  r_event_migrate : bool;   (* range->event == MMU_NOTIFY_MIGRATE *)
  r_owner_dev : bool;       (* range->owner == d *)
  r_blockable : bool;
}.

Definition cyt_interval_invalidate (p_hpid : Z) (range : mmu_notifier_range)
    (cur_seq : Z) : M bool :=
  huge ← is_thp (r_vma range) (r_start range);
  bd ← gets bd_data;
  let order := tlb_meta_of bd huge in
  let start := Z.land (u64 (r_start range)) (page_mask order) in
  let end_ := Z.land (u64 (r_end range + page_size order - 1)) (page_mask order) in
  if r_event_migrate range && r_owner_dev range then mret true
  else
    taken ← (if r_blockable range then emit (EvMutexLock mmu_lock) ;; mret true
             else
               let t := k_mutex_trylock k mmu_lock in
               emit (EvMutexTrylock mmu_lock t) ;; mret t);
    if negb taken then mret false
    else
      emit (EvMmuIntervalSetSeq cur_seq) ;;
      let first := Z.shiftr start PAGE_SHIFT in
      let last := Z.shiftr end_ PAGE_SHIFT in
      let n_pages := u32 (last - first) in
      tlb_unmap_hmm (u64 (Z.shiftl start PAGE_SHIFT)) n_pages p_hpid huge ;;
      emit (EvMutexUnlock mmu_lock) ;;
      mret true.

(** ** Host fault *)

(** The retry loop: the value is [ret_val] and whether the loop was left by
    [break] (the mapping follows) or by [goto out]; the array is the pfn
    array as the last fault left it. *)
Fixpoint host_fault_loop (script : list fault_env) (start end_ : Z)
    (pfns : list Z) : M (Z * bool * list Z) :=
  match script with
  | [] => oops Hang
  | e :: script' =>
      if fe_time_after e then mret (- EBUSY, false, pfns)
      else
        emit (EvMmuIntervalReadBegin (fe_seq e)) ;;
        emit (EvHmmRangeFault start end_ (fe_fault_ret e)) ;;
        if negb (fe_fault_ret e =? 0) then
          if fe_fault_ret e =? - EBUSY then
            host_fault_loop script' start end_ (fe_pfns e)
          else
            emit (EvPrWarn "range fault failed with code %d") ;;
            mret (fe_fault_ret e, false, fe_pfns e)
        else
          emit (EvMmuIntervalReadRetry (fe_read_retry e)) ;;
          if fe_read_retry e then host_fault_loop script' start end_ (fe_pfns e)
          else mret (0, true, fe_pfns e)
  end.

Definition fpga_do_host_fault (args : cyt_migrate) : M Z :=
  let start := u64 (vaddr args) in
  let n_pages := u32 (n_pages args) in
  let hpid := hpid args in
  let end_ := u64 (start + u32 (Z.shiftl n_pages PAGE_SHIFT)) in
  if negb (k_notifier k hpid) then mret (- EINVAL)
  else if negb (k_vmalloc k BufPfns) then mret (- ENOMEM)
  else
    script ← gets fault_script;
    '(ret_val, leave, pfns) ← host_fault_loop script start end_ (zeroed 0 n_pages);
    if leave : bool then
      tlb_map_hmm (u64 (Z.shiftl start PAGE_SHIFT)) pfns n_pages STRM_ACCESS
        (ctid args) hpid (hugepages args) ;;
      mret ret_val
    else mret ret_val.

(** ** Migration *)

Definition ptw_message (l : ptw_exit) : string :=
  match l with
  | at_pgd => "ptw exit at pgd"
  | at_p4d => "ptw exit at p4d"
  | at_pud => "ptw exit at pud"
  | at_pmd => "ptw exit at pmd"
  | at_pte => "ptw exit at pte"
  | at_swp => "ptw exit at swp"
  end.

Definition host_ptw (va hp : Z) : M (option page) :=
  match k_page_tables k va hp with
  | PtwPage p => mret (Some p)
  | PtwExit l => pr_err (ptw_message l) ;; mret None
  end.

(** The arrays a migration works on: [mig_args.dst], [spages], [dpages],
    and the flag [dpages_fail]. *)
Record staging := {
  dst : list Z;
  spages : list (option page);
  dpages : list (option page);
  dpages_fail : bool;
}.

Definition staged_dst (s : Z) (p : page) : Z :=
  let d := Z.lor (migrate_pfn (page_to_pfn p)) MIGRATE_PFN_LOCKED in
  if Z.land s MIGRATE_PFN_WRITE =? 0 then d else Z.lor d MIGRATE_PFN_WRITE.

(** The inner loop of the huge branch of [fpga_migrate_to_host]:
    [for (j = 0; j < n_pages_in_huge; i++)] steps [i], not [j]. *)
Fixpoint to_host_huge_block (fuel : nat) (src : list Z) (n_in_huge : Z)
    (i : Z) (tmp_dpages : page) (st : staging) : M (Z * staging) :=
  let j := 0 in
  if j <? n_in_huge then
    match fuel with
    | O => oops Hang
    | S fuel' =>
        s ← rd src (i + j);
        sp ← wr (spages st) (i + j) (migrate_pfn_to_page s);
        dp ← wr (dpages st) (i + j) (Some tmp_dpages);
        (if negb (j =? 0) then emit (EvGetPage tmp_dpages) else mret tt) ;;
        emit (EvLockPage tmp_dpages) ;;
        d ← wr (dst st) (i + j) (staged_dst s tmp_dpages);
        to_host_huge_block fuel' src n_in_huge (i + 1) (tmp_dpages + 1)
          {| dst := d; spages := sp; dpages := dp; dpages_fail := dpages_fail st |}
    end
  else mret (i, st).

Fixpoint to_host_stage (fuel : nat) (args : cyt_migrate) (bd : bus_driver_data)
    (src : list Z) (npages pg_inc : Z) (i : Z) (st : staging) : M staging :=
  let start := u64 (vaddr args) in
  if i <? npages then
    match fuel with
    | O => oops Hang
    | S fuel' =>
        s ← rd src i;
        if Z.land s MIGRATE_PFN_MIGRATE =? 0 then
          p ← host_ptw (u64 (start + s32 (Z.shiftl i PAGE_SHIFT))) (hpid args);
          dp ← wr (dpages st) i p;
          to_host_stage fuel' args bd src npages pg_inc (i + pg_inc)
            {| dst := dst st; spages := spages st; dpages := dp;
               dpages_fail := dpages_fail st |}
        else if hugepages args then
          let r := k_alloc_pages_vma k (dif_order_page_shift bd) (u64 (start + i)) in
          emit (EvAllocPagesVma (dif_order_page_shift bd) (u64 (start + i)) r) ;;
          match r with
          | None =>
              to_host_stage fuel' args bd src npages pg_inc (i + pg_inc)
                {| dst := dst st; spages := spages st; dpages := dpages st;
                   dpages_fail := true |}
          | Some tmp_dpages =>
              '(i', st') ← to_host_huge_block (S (length src)) src
                             (n_pages_in_huge bd) i tmp_dpages st;
              to_host_stage fuel' args bd src npages pg_inc (i' + pg_inc) st'
          end
        else
          sp ← wr (spages st) i (migrate_pfn_to_page s);
          let r := k_alloc_page_vma k (u64 (start + i)) in
          emit (EvAllocPageVma (u64 (start + i)) r) ;;
          dp ← wr (dpages st) i r;
          match r with
          | None =>
              to_host_stage fuel' args bd src npages pg_inc (i + pg_inc)
                {| dst := dst st; spages := sp; dpages := dp; dpages_fail := true |}
          | Some p =>
              emit (EvLockPage p) ;;
              d ← wr (dst st) i (staged_dst s p);
              to_host_stage fuel' args bd src npages pg_inc (i + pg_inc)
                {| dst := d; spages := sp; dpages := dp;
                   dpages_fail := dpages_fail st |}
          end
    end
  else mret st.

(** The undo block, the same text in both directions. *)
Fixpoint undo_staging (n : nat) (i : Z) (dp : list (option page)) (d : list Z)
    : M (list Z) :=
  match n with
  | O => mret d
  | S n' =>
      p ← rd dp i;
      match p with
      | None => undo_staging n' (i + 1) dp d
      | Some pg =>
          di ← rd d i;
          if di =? 0 then undo_staging n' (i + 1) dp d
          else
            emit (EvUnlockPage pg) ;;
            put_page pg ;;
            cpu_free_private_page pg ;;
            d' ← wr d i 0;
            undo_staging n' (i + 1) dp d'
      end
  end.

(** [((struct hmm_prvt_info * )(page->zone_device_data))->...] *)
Definition zone_info (p : page) : M hmm_prvt_info :=
  zd ← gets zone_device_data;
  match zd !! p with
  | Some info => mret info
  | None => oops NullDeref
  end.

Fixpoint list_del (info : hmm_prvt_info) (l : list hmm_prvt_info) : list hmm_prvt_info :=
  match l with
  | [] => []
  | x :: l' => if decide (x = info) then l' else x :: list_del info l'
  end.

(** "set physical addresses" of [fpga_migrate_to_host]. *)
Fixpoint to_host_addresses (n : nat) (i : Z) (st : staging)
    (host_address card_addr : list Z) : M (list Z * list Z) :=
  match n with
  | O => mret (host_address, card_addr)
  | S n' =>
      sp ← rd (spages st) i;
      ha ← (match sp with
            | Some p => info ← zone_info p; wr host_address i (card_address info)
            | None => mret host_address
            end);
      dp ← rd (dpages st) i;
      ca ← (match dp with
            | Some p => wr card_addr i (page_to_pfn p)
            | None => mret card_addr
            end);
      to_host_addresses n' (i + 1) st ha ca
  end.

(** "free card memory": the card addresses of the source pages are
    gathered and their residency entries unlinked. *)
Fixpoint vacate_card_memory (n : nat) (i j : Z) (sp : list (option page))
    (calloc : list Z) : M (list Z) :=
  match n with
  | O => mret calloc
  | S n' =>
      p ← rd sp i;
      match p with
      | Some pg =>
          info ← zone_info pg;
          c ← wr calloc j (card_address info);
          emit (EvListDel info) ;;
          modify (fun m => set_migrated_pages (list_del info (migrated_pages m)) m) ;;
          vacate_card_memory n' (i + 1) (j + 1) sp c
      | None => vacate_card_memory n' (i + 1) j sp calloc
      end
  end.

(** [migrate_vma_setup], [migrate_vma_pages] and [migrate_vma_finalize] are
    the kernel's: the log records each call with what it is given ([dst]
    and [cpages] for the swap).  What the kernel does to the pages inside
    them (the update of the page tables, and the release of the pages that
    were left) is not part of the machine. *)
Definition fpga_migrate_to_host (args : cyt_migrate) : M Z :=
  bd ← gets bd_data;
  let start := u64 (vaddr args) in
  let end_ := u64 (vaddr args + u64 (Z.shiftl (n_pages args) PAGE_SHIFT)) in
  let pg_inc := u32 (if hugepages args then n_pages_in_huge bd else 1) in
  if negb (k_vmalloc k BufSrc) then
    pr_err "failed to allocate source resources" ;; mret (- ENOMEM)
  else if negb (k_vmalloc k BufDst) then
    pr_err "failed to allocate destination resources" ;; mret (- ENOMEM)
  else if negb (k_vmalloc k BufSpages) then
    pr_err "failed to allocate source pages array" ;; mret (- ENOMEM)
  else if negb (k_vmalloc k BufDpages) then
    pr_err "failed to allocate destination pages array" ;; mret (- ENOMEM)
  else if negb (k_find_vma_intersection k start end_) then
    pr_err "failed to match vma" ;; mret (- EFAULT)
  else
    let '(ret_val, src, cpages, npages) :=
      k_migrate_vma_setup k start end_ MIGRATE_VMA_SELECT_DEVICE_PRIVATE in
    emit (EvMigrateVmaSetup start end_ MIGRATE_VMA_SELECT_DEVICE_PRIVATE) ;;
    if negb (ret_val =? 0) then
      pr_err "failed to setup migration" ;; mret ret_val
    else
      tlb_unmap_hmm (Z.shiftr start PAGE_SHIFT) npages (hpid args) (hugepages args) ;;
      st ← to_host_stage (Z.to_nat npages) args bd src npages pg_inc 0
             {| dst := zeroed 0 (n_pages args);
                spages := zeroed None (n_pages args);
                dpages := zeroed None (n_pages args);
                dpages_fail := false |};
      if dpages_fail st then
        pr_err "invalidating all destination page entries" ;;
        d ← undo_staging (Z.to_nat (n_pages args)) 0 (dpages st) (dst st);
        pr_err "restoring original page table" ;;
        emit (EvMigrateVmaPages d 0) ;;
        emit EvMigrateVmaFinalize ;;
        mret (- ENOMEM)
      else if negb (k_vmalloc k BufHostAddress) then
        pr_err "failed to allocate host address array" ;; mret (- ENOMEM)
      else if negb (k_vmalloc k BufCardAddress) then
        pr_err "failed to allocate card address array" ;; mret (- ENOMEM)
      else
        '(host_address, card_addr) ←
          to_host_addresses (Z.to_nat (n_pages args)) 0 st
            (zeroed 0 npages) (zeroed 0 npages);
        (if 0 <? cpages then
           if negb (k_vmalloc k BufCalloc) then oops BugOn
           else
             calloc ← vacate_card_memory (Z.to_nat npages) 0 0 (spages st)
                        (zeroed 0 cpages);
             emit (EvFreeCardMemory calloc cpages (hugepages args))
         else mret tt) ;;
        emit (EvWaitEvent waitqueue_invldt) ;;
        (if 0 <? cpages then
           emit (EvMutexLock sync_lock) ;;
           emit (EvTriggerDmaSync host_address card_addr npages (hugepages args)) ;;
           emit (EvWaitEvent waitqueue_sync) ;;
           emit (EvMutexUnlock sync_lock)
         else mret tt) ;;
        emit (EvMigrateVmaPages (dst st) cpages) ;;
        emit EvMigrateVmaFinalize ;;
        tlb_map_hmm (Z.shiftr start PAGE_SHIFT) host_address npages STRM_ACCESS
          (ctid args) (hpid args) (hugepages args) ;;
        mret ret_val.

Fixpoint to_card_stage (n : nat) (args : cyt_migrate) (src : list Z) (i : Z)
    (st : staging) : M staging :=
  let start := u64 (vaddr args) in
  match n with
  | O => mret st
  | S n' =>
      s ← rd src i;
      if Z.land s MIGRATE_PFN_MIGRATE =? 0 then
        p ← host_ptw (u64 (start + s32 (Z.shiftl i PAGE_SHIFT))) (hpid args);
        dp ← wr (dpages st) i p;
        to_card_stage n' args src (i + 1)
          {| dst := dst st; spages := spages st; dpages := dp;
             dpages_fail := dpages_fail st |}
      else
        sp ← wr (spages st) i (migrate_pfn_to_page s);
        r ← alloc_private_page;
        dp ← wr (dpages st) i r;
        match r with
        | None =>
            pr_err "failed to allocate a device private page" ;;
            to_card_stage n' args src (i + 1)
              {| dst := dst st; spages := sp; dpages := dp; dpages_fail := true |}
        | Some p =>
            emit (EvGetPage p) ;;
            emit (EvLockPage p) ;;
            d ← wr (dst st) i (staged_dst s p);
            to_card_stage n' args src (i + 1)
              {| dst := d; spages := sp; dpages := dp;
                 dpages_fail := dpages_fail st |}
        end
  end.

(** [while(!dpages[j] || mig_args.dst[i] == 0) j++;] *)
Fixpoint zone_seek (fuel : nat) (st : staging) (i j : Z) : M (Z * page) :=
  match fuel with
  | O => oops Hang
  | S fuel' =>
      dp ← rd (dpages st) j;
      match dp with
      | None => zone_seek fuel' st i (j + 1)
      | Some p =>
          di ← rd (dst st) i;
          if di =? 0 then zone_seek fuel' st i (j + 1) else mret (j, p)
      end
  end.

(** "zone setup" of [fpga_migrate_to_card]. *)
Fixpoint zone_setup (n : nat) (args : cyt_migrate) (st : staging)
    (calloc : list Z) (i j : Z) : M unit :=
  match n with
  | O => mret tt
  | S n' =>
      if negb (k_vmalloc k BufNewEntry) then oops BugOn
      else
        c ← rd calloc i;
        let new_entry := {| pi_ctid := ctid args; pi_huge := hugepages args;
                            card_address := c |} in
        '(j', p) ← zone_seek (S (length (dpages st))) st i j;
        emit (EvListAdd new_entry) ;;
        modify (fun m => set_migrated_pages (new_entry :: migrated_pages m) m) ;;
        modify (fun m =>
          set_zone_device_data (<[p := new_entry]> (zone_device_data m)) m) ;;
        zone_setup n' args st calloc (i + 1) j'
  end.

(** "set physical addresses" of [fpga_migrate_to_card]. *)
Fixpoint to_card_addresses (n : nat) (i : Z) (st : staging)
    (host_address card_addr : list Z) : M (list Z * list Z) :=
  match n with
  | O => mret (host_address, card_addr)
  | S n' =>
      sp ← rd (spages st) i;
      ha ← (match sp with
            | Some p => wr host_address i (page_to_pfn p)
            | None => mret host_address
            end);
      dp ← rd (dpages st) i;
      ca ← (match dp with
            | Some p => info ← zone_info p; wr card_addr i (card_address info)
            | None => mret card_addr
            end);
      to_card_addresses n' (i + 1) st ha ca
  end.

Definition fpga_migrate_to_card (args : cyt_migrate) : M Z :=
  let start := u64 (vaddr args) in
  let end_ := u64 (vaddr args + u64 (Z.shiftl (n_pages args) PAGE_SHIFT)) in
  if negb (k_vmalloc k BufSrc) then
    pr_err "failed to allocate source resources" ;; mret (- ENOMEM)
  else if negb (k_vmalloc k BufDst) then
    pr_err "failed to allocate destination resources" ;; mret (- ENOMEM)
  else if negb (k_vmalloc k BufSpages) then
    pr_err "failed to allocate source pages array" ;; mret (- ENOMEM)
  else if negb (k_vmalloc k BufDpages) then
    pr_err "failed to allocate destination pages array" ;; mret (- ENOMEM)
  else if negb (k_find_vma_intersection k start end_) then
    pr_err "failed to match vma" ;; mret (- EFAULT)
  else
    let '(ret_val, src, cpages, npages) :=
      k_migrate_vma_setup k start end_ MIGRATE_VMA_SELECT_SYSTEM in
    emit (EvMigrateVmaSetup start end_ MIGRATE_VMA_SELECT_SYSTEM) ;;
    if negb (ret_val =? 0) then
      pr_err "failed to setup migration" ;; mret ret_val
    else
      tlb_unmap_hmm (Z.shiftr start PAGE_SHIFT) npages (hpid args) (hugepages args) ;;
      st ← to_card_stage (Z.to_nat npages) args src 0
             {| dst := zeroed 0 (n_pages args);
                spages := zeroed None (n_pages args);
                dpages := zeroed None (n_pages args);
                dpages_fail := false |};
      if dpages_fail st then
        pr_err "invalidating all destination page entries" ;;
        d ← undo_staging (Z.to_nat (n_pages args)) 0 (dpages st) (dst st);
        pr_err "restoring original page table" ;;
        emit (EvMigrateVmaPages d 0) ;;
        emit EvMigrateVmaFinalize ;;
        mret (- ENOMEM)
      else if negb (k_vmalloc k BufHostAddress) then
        pr_err "failed to allocate host address array" ;; mret (- ENOMEM)
      else if negb (k_vmalloc k BufCardAddress) then
        pr_err "failed to allocate card address array" ;; mret (- ENOMEM)
      else
        calloc ← (if 0 <? cpages then
                    if negb (k_vmalloc k BufCalloc) then oops BugOn
                    else
                      let r := k_alloc_card_memory k cpages (hugepages args) in
                      emit (EvAllocCardMemory cpages (hugepages args) r) ;;
                      mret r
                  else mret (Some []));
        match calloc with
        | None => pr_err "could not allocate card pages" ;; mret (- ENOMEM)
        | Some calloc =>
            zone_setup (Z.to_nat cpages) args st calloc 0 0 ;;
            '(host_address, card_addr) ←
              to_card_addresses (Z.to_nat (n_pages args)) 0 st
                (zeroed 0 npages) (zeroed 0 npages);
            emit (EvWaitEvent waitqueue_invldt) ;;
            (if 0 <? cpages then
               emit (EvMutexLock offload_lock) ;;
               emit (EvTriggerDmaOffload host_address card_addr npages (hugepages args)) ;;
               emit (EvWaitEvent waitqueue_offload) ;;
               emit (EvMutexUnlock offload_lock)
             else mret tt) ;;
            emit (EvMigrateVmaPages (dst st) cpages) ;;
            emit EvMigrateVmaFinalize ;;
            tlb_map_hmm (Z.shiftr start PAGE_SHIFT) card_addr npages CARD_ACCESS
              (ctid args) (hpid args) (hugepages args) ;;
            mret ret_val
        end.

(** ** User migration *)

Definition with_hugepages (args : cyt_migrate) (h : bool) : cyt_migrate :=
  {| ctid := ctid args; hpid := hpid args; vaddr := vaddr args;
     hugepages := h; n_pages := n_pages args |}.

Definition user_migrate_to_host (args : cyt_migrate) : M Z :=
  huge ← is_thp (k_find_vma k (vaddr args)) (vaddr args);
  let args := with_hugepages args huge in
  emit (EvMutexLock mmu_lock) ;;
  emit EvChangeTlbLock ;;
  emit EvMmget ;;
  emit EvMmapReadLock ;;
  ret_val ← fpga_migrate_to_host args;
  emit EvMmapReadUnlock ;;
  emit EvMmput ;;
  emit EvChangeTlbLock ;;
  emit (EvMutexUnlock mmu_lock) ;;
  mret ret_val.

Definition user_migrate_to_card (args : cyt_migrate) : M Z :=
  huge ← is_thp (k_find_vma k (vaddr args)) (vaddr args);
  let args := with_hugepages args huge in
  emit (EvMutexLock mmu_lock) ;;
  emit EvChangeTlbLock ;;
  emit EvMmget ;;
  emit EvMmapReadLock ;;
  ret_val ← fpga_migrate_to_card args;
  emit EvMmapReadUnlock ;;
  emit EvMmput ;;
  emit EvChangeTlbLock ;;
  emit (EvMutexUnlock mmu_lock) ;;
  mret ret_val.

(** ** The fault handler *)

(** The [args] struct [mmu_handler_hmm] fills in. *)
Definition mmu_handler_args (bd : bus_driver_data) (va len ct hp : Z)
    (huge : bool) : cyt_migrate :=
  let tlb_meta := tlb_meta_of bd huge in
  let first := Z.shiftr (Z.land (u64 va) (page_mask tlb_meta)) PAGE_SHIFT in
  let last :=
    Z.shiftr (Z.land (u64 (va + len - 1)) (page_mask tlb_meta)) PAGE_SHIFT in
  let n := u64 (last - first + 1) in
  let n := if huge then u64 (n * n_pages_in_huge bd) else n in
  {| ctid := ct; hpid := hp; vaddr := u64 (Z.shiftl first PAGE_SHIFT);
     hugepages := huge; n_pages := n |}.

Definition mmu_handler_hmm (va len ct stream hp : Z) : M Z :=
  if negb (k_vmalloc k BufArgs) then mret (- ENOMEM)
  else if negb (k_pid_task k hp) then oops BugOn
  else
    bd ← gets bd_data;
    huge ← is_thp (k_vma_lookup k va) va;
    emit EvMmget ;;
    emit EvMmapReadLock ;;
    let args := mmu_handler_args bd va len ct hp huge in
    ret_val ← (if stream =? HOST_ACCESS then fpga_migrate_to_host args
               else if stream =? CARD_ACCESS then fpga_migrate_to_card args
               else pr_err "access not supported, vFPGA %d" ;; mret (- EINVAL));
    emit EvMmapReadUnlock ;;
    emit EvMmput ;;
    mret ret_val.

End Driver.

(** ** CPU page fault on a device-private page *)

(** [VM_FAULT_SIGBUS] of mm_types.h; the handler returns a [vm_fault_t], an
    unsigned int. *)
Definition VM_FAULT_SIGBUS : Z := 2.

(** What the handler reads of its [struct vm_fault]. *)
Record vm_fault := {
  vmf_address : Z;
  vmf_page : page;
}.

Section CpuFault.

Context `{K : hmm_defs} (k : kernel).

(** [d->pid_array], and what a [struct page] reads as when the handler
    takes the page pointer itself for a [hmm_prvt_info] and reads its
    [card_address] ("set physical addresses" casts [spages[i]], not
    [spages[i]->zone_device_data]). *)
Context (pid_array : list Z) (page_word : page -> Z).

(** [for(i = 0; i < bd_data->n_pages_in_huge; i++)] of the huge branch. *)
Fixpoint cpu_huge_block (n : nat) (src : list Z) (i : Z) (tmp_dpages : page)
    (st : staging) : M staging :=
  match n with
  | O => mret st
  | S n' =>
      s ← rd src i;
      sp ← wr (spages st) i (migrate_pfn_to_page s);
      dp ← wr (dpages st) i (Some tmp_dpages);
      (if negb (i =? 0) then emit (EvGetPage tmp_dpages) else mret tt) ;;
      emit (EvLockPage tmp_dpages) ;;
      d ← wr (dst st) i (staged_dst s tmp_dpages);
      cpu_huge_block n' src (i + 1) (tmp_dpages + 1)
        {| dst := d; spages := sp; dpages := dp; dpages_fail := dpages_fail st |}
  end.

(** The undo block of the handler: it skips a slot on [!dpages[i]] alone. *)
Fixpoint cpu_undo_staging (n : nat) (i : Z) (dp : list (option page))
    (d : list Z) : M (list Z) :=
  match n with
  | O => mret d
  | S n' =>
      p ← rd dp i;
      match p with
      | None => cpu_undo_staging n' (i + 1) dp d
      | Some pg =>
          emit (EvUnlockPage pg) ;;
          put_page pg ;;
          cpu_free_private_page pg ;;
          d' ← wr d i 0;
          cpu_undo_staging n' (i + 1) dp d'
      end
  end.

(** "set physical addresses" of the handler. *)
Fixpoint cpu_addresses (n : nat) (i : Z) (st : staging)
    (host_address card_addr : list Z) : M (list Z * list Z) :=
  match n with
  | O => mret (host_address, card_addr)
  | S n' =>
      sp ← rd (spages st) i;
      ha ← (match sp with
            | Some p => wr host_address i (page_word p)
            | None => mret host_address
            end);
      dp ← rd (dpages st) i;
      ca ← (match dp with
            | Some p => wr card_addr i (page_to_pfn p)
            | None => mret card_addr
            end);
      cpu_addresses n' (i + 1) st ha ca
  end.

Definition cpu_migrate_to_host (vmf : vm_fault) : M Z :=
  zone_data ← zone_info (vmf_page vmf);
  let hugepages := pi_huge zone_data in
  bd ← gets bd_data;
  let order := tlb_meta_of bd hugepages in
  let start := Z.land (u64 (vmf_address vmf)) (page_mask order) in
  let end_ := u64 (start + page_size order) in
  let n_pages := u32 (if hugepages then n_pages_in_huge bd else 1) in
  hpid ← rd pid_array (pi_ctid zone_data);
  if negb (k_vmalloc k BufSrc) then
    pr_err "failed to allocate src array" ;; mret VM_FAULT_SIGBUS
  else if negb (k_vmalloc k BufDst) then
    pr_err "could not allocate dst array" ;; mret VM_FAULT_SIGBUS
  else if negb (k_vmalloc k BufSpages) then
    pr_err "failed to allocate source pages array" ;; mret VM_FAULT_SIGBUS
  else if negb (k_vmalloc k BufDpages) then
    pr_err "failed to allocate destination pages array" ;; mret VM_FAULT_SIGBUS
  else
    let '(ret_val, src, cpages, npages) :=
      k_migrate_vma_setup k start end_ MIGRATE_VMA_SELECT_DEVICE_PRIVATE in
    emit (EvMigrateVmaSetup start end_ MIGRATE_VMA_SELECT_DEVICE_PRIVATE) ;;
    if negb (ret_val =? 0) then
      pr_err "failed to setup migration" ;; mret VM_FAULT_SIGBUS
    else
      tlb_unmap_hmm (Z.shiftr start PAGE_SHIFT) npages hpid hugepages ;;
      s0 ← rd src 0;
      if Z.land s0 MIGRATE_PFN_MIGRATE =? 0 then
        pr_err "migration not possible" ;; mret 0
      else
        let st0 := {| dst := zeroed 0 n_pages; spages := zeroed None n_pages;
                      dpages := zeroed None n_pages; dpages_fail := false |} in
        st ← (if hugepages then
                let r := k_alloc_pages_vma k (dif_order_page_shift bd) start in
                emit (EvAllocPagesVma (dif_order_page_shift bd) start r) ;;
                match r with
                | None =>
                    mret {| dst := dst st0; spages := spages st0;
                            dpages := dpages st0; dpages_fail := true |}
                | Some tmp_dpages =>
                    cpu_huge_block (Z.to_nat (n_pages_in_huge bd)) src 0
                      tmp_dpages st0
                end
              else
                sp ← wr (spages st0) 0 (migrate_pfn_to_page s0);
                let r := k_alloc_page_vma k start in
                emit (EvAllocPageVma start r) ;;
                dp ← wr (dpages st0) 0 r;
                match r with
                | None =>
                    mret {| dst := dst st0; spages := sp; dpages := dp;
                            dpages_fail := true |}
                | Some p =>
                    emit (EvLockPage p) ;;
                    d ← wr (dst st0) 0 (staged_dst s0 p);
                    mret {| dst := d; spages := sp; dpages := dp;
                            dpages_fail := false |}
                end);
        if dpages_fail st then
          pr_err "invalidating all destination page entries" ;;
          d ← cpu_undo_staging (Z.to_nat n_pages) 0 (dpages st) (dst st);
          pr_err "restoring original page table" ;;
          emit (EvMigrateVmaPages d 0) ;;
          emit EvMigrateVmaFinalize ;;
          mret (u32 (- ENOMEM))
        else if negb (k_vmalloc k BufHostAddress) then
          pr_err "failed to allocate host address array" ;; mret (u32 (- ENOMEM))
        else if negb (k_vmalloc k BufCardAddress) then
          pr_err "failed to allocate card address array" ;; mret (u32 (- ENOMEM))
        else
          '(host_address, card_addr) ←
            cpu_addresses (Z.to_nat npages) 0 st (zeroed 0 npages) (zeroed 0 npages);
          (if 0 <? cpages then
             if negb (k_vmalloc k BufCalloc) then oops BugOn
             else
               calloc ← vacate_card_memory (Z.to_nat npages) 0 0 (spages st)
                          (zeroed 0 cpages);
               emit (EvFreeCardMemory calloc cpages hugepages)
           else mret tt) ;;
          emit (EvWaitEvent waitqueue_invldt) ;;
          emit (EvMutexLock sync_lock) ;;
          emit (EvTriggerDmaSync host_address card_addr n_pages hugepages) ;;
          emit (EvWaitEvent waitqueue_sync) ;;
          emit (EvMutexUnlock sync_lock) ;;
          emit (EvMigrateVmaPages (dst st) cpages) ;;
          emit EvMigrateVmaFinalize ;;
          mret 0.

End CpuFault.

(** ** Teardown *)

(** The body of [list_for_each_entry_safe] in [free_card_mem], over the
    entries of the context's list as they stand when the walk starts. *)
Fixpoint free_card_entries (l : list hmm_prvt_info) : M unit :=
  match l with
  | [] => mret tt
  | info :: l' =>
      emit (EvFreeCardMemory [card_address info] 1 (pi_huge info)) ;;
      emit (EvListDel info) ;;
      modify (fun m => set_migrated_pages (list_del info (migrated_pages m)) m) ;;
      free_card_entries l'
  end.

(** [migrated_pages[d->id][ctid]]: the residency entries are kept in one
    list, newest first; the list of a context is made of the entries that
    carry its id, as "zone setup" links them. *)
Definition free_card_mem (ct : Z) : M unit :=
  l ← gets migrated_pages;
  free_card_entries (List.filter (fun info => pi_ctid info =? ct) l).

(** The calls [free_mem_regions] makes. *)
Inductive region_call :=
  | MemunmapPages (c : hmm_prvt_chunk)
  | ReleaseMemRegion (start len : Z)
  | KfreeChunk (c : hmm_prvt_chunk).

(** The inner loop, [list_for_each_entry_safe] over [d->mem_sections]: the
    chunk at the head of what is left of the list is unmapped, its region
    released, and the chunk unlinked and freed.  The region is released at
    [tmp_entry->resource->start]; [alloc_new_prvt_pages], the only place
    that links a chunk, sets [pagemap.range.start = res->start] and
    [resource = res], so this is the [range_start] of the chunk. *)
Fixpoint free_dev_sections (secs : list hmm_prvt_chunk) (d : machine)
    : list region_call * machine :=
  match secs with
  | [] => ([], d)
  | c :: secs' =>
      let d1 := set_mem_sections secs' d in
      let '(calls, d2) := free_dev_sections secs' d1 in
      ([MemunmapPages c; ReleaseMemRegion (range_start c) (range_len c);
        KfreeChunk c] ++ calls, d2)
  end.

(** [for (i = 0; i < bd_data->n_fpga_reg; i++)] over [bd_data->vfpga_dev],
    each device with its own chunks. *)
Fixpoint free_mem_regions_from (n : nat) (i : Z) (devs : list machine)
    : outcome (list machine) * list region_call :=
  match n with
  | O => (Done devs, [])
  | S n' =>
      if i <? 0 then (Oops OutOfBounds, [])
      else
        match devs !! Z.to_nat i with
        | None => (Oops OutOfBounds, [])
        | Some d =>
            let '(calls, d') := free_dev_sections (mem_sections d) d in
            let '(o, calls') :=
              free_mem_regions_from n' (i + 1) (<[Z.to_nat i := d']> devs) in
            (o, calls ++ calls')
        end
  end.

Definition free_mem_regions (n_fpga_reg : Z) (devs : list machine)
    : outcome (list machine) * list region_call :=
  free_mem_regions_from (Z.to_nat n_fpga_reg) 0 devs.

(** ** Observations on runs *)

(** The events a run added to the log. *)
Definition new_events (m m' : machine) : list event :=
  drop (length (trace m)) (trace m').

(** How many times more a lock was taken than released along a log, and
    whether it was never released more often than taken and is free at the
    end. *)
Definition lock_step (l : lock) (e : event) (depth : Z) : Z :=
  match e with
  | EvMutexLock l' | EvSpinLock l' | EvMutexTrylock l' true =>
      if decide (l' = l) then depth + 1 else depth
  | EvMutexUnlock l' | EvSpinUnlock l' =>
      if decide (l' = l) then depth - 1 else depth
  | _ => depth
  end.

Fixpoint lock_balanced_from (l : lock) (depth : Z) (t : list event) : bool :=
  match t with
  | [] => depth =? 0
  | e :: t' =>
      let depth' := lock_step l e depth in
      (0 <=? depth') && lock_balanced_from l depth' t'
  end.

Definition lock_balanced (l : lock) (t : list event) : bool :=
  lock_balanced_from l 0 t.

(** Is the lock free at every blocking wait of the log. *)
Fixpoint waits_outside_lock_from (l : lock) (depth : Z) (t : list event) : bool :=
  match t with
  | [] => true
  | EvWaitEvent _ :: t' => (depth <=? 0) && waits_outside_lock_from l depth t'
  | e :: t' => waits_outside_lock_from l (lock_step l e depth) t'
  end.

Definition waits_outside_lock (l : lock) (t : list event) : bool :=
  waits_outside_lock_from l 0 t.

Definition is_wait (e : event) : bool :=
  match e with EvWaitEvent _ => true | _ => false end.

Definition on_lock (l : lock) (e : event) : bool :=
  match e with
  | EvMutexLock l' | EvSpinLock l' | EvMutexTrylock l' _
  | EvMutexUnlock l' | EvSpinUnlock l' => bool_decide (l' = l)
  | _ => false
  end.

Definition is_tlb_mapping (e : event) : bool :=
  match e with EvCreateTlbMapping _ => true | _ => false end.

Definition is_range_fault (e : event) : bool :=
  match e with EvHmmRangeFault _ _ _ => true | _ => false end.

(** Does the log fault again after a sequence number was found stale. *)
Fixpoint faults_after_stale (t : list event) : bool :=
  match t with
  | [] => false
  | EvMmuIntervalReadRetry true :: t' => existsb is_range_fault t'
  | _ :: t' => faults_after_stale t'
  end.

(** The page count in the words of the spec: the regular pages, or the huge
    pages times their constituent regular pages, that the range
    [vaddr, vaddr + len) spans. *)
Definition pages_spanned (shift va len : Z) : Z :=
  Z.shiftr (va + len - 1) shift - Z.shiftr va shift + 1.

Definition granule_page_count `{K : hmm_defs} (bd : bus_driver_data)
    (va len : Z) (huge : bool) : Z :=
  if huge then pages_spanned (page_shift (ltlb_meta bd)) va len * n_pages_in_huge bd
  else pages_spanned PAGE_SHIFT va len.

(** ** A sample platform: 4 KiB pages, 2 MiB huge pages *)

Module Sample.

Definition x86_64 : hmm_defs :=
  {| PAGE_SHIFT := 12; MAX_N_MAP_PAGES := 128;
     HOST_ACCESS := 0; CARD_ACCESS := 1; STRM_ACCESS := 0 |}.

Definition stlb : tlb_metadata :=
  {| page_shift := 12; page_size := 4096; page_mask := 2 ^ 64 - 4096 |}.
Definition ltlb : tlb_metadata :=
  {| page_shift := 21; page_size := 2 ^ 21; page_mask := 2 ^ 64 - 2 ^ 21 |}.
Definition bd : bus_driver_data :=
  {| n_pages_in_huge := 512; dif_order_page_shift := 9;
     ltlb_meta := ltlb; stlb_meta := stlb |}.

Definition machine0 : machine :=
  {| bd_data := bd; free_pages := []; mem_sections := [];
     zone_device_data := ∅; migrated_pages := []; tlb := [];
     grow_script := []; fault_script := []; trace := [] |}.

(** A kernel where every buffer allocation succeeds, the range has a vma,
    [get_user_pages_remote] pins the host page 0x55, no page is huge, and
    [migrate_vma_setup] reports the given [src]. *)
Definition kernel_with (src : list Z) (cpages : Z)
    (alloc_page : Z -> option page) : kernel :=
  {| k_vmalloc := fun _ => true;
     k_find_vma_intersection := fun _ _ => true;
     k_migrate_vma_setup := fun _ _ _ => (0, src, cpages, Z.of_nat (length src));
     k_alloc_page_vma := alloc_page;
     k_alloc_pages_vma := fun _ _ => None;
     k_page_tables := fun _ _ => PtwExit at_pte;
     k_alloc_card_memory := fun _ _ => None;
     k_find_vma := fun _ => true;
     k_vma_lookup := fun _ => true;
     k_get_user_pages_remote := fun _ => Some 0x55;
     k_is_transparent_hugepage := fun _ => false;
     k_pid_task := fun _ => true;
     k_mutex_trylock := fun _ => true;
     k_notifier := fun _ => true |}.

Definition small_entry (va pa host : Z) : tlb_entry :=
  {| te_huge := false; te_vaddr := va; te_paddr := pa; te_host := host;
     te_ctid := 3; te_hpid := 42 |}.
Definition huge_entry (va pa host : Z) : tlb_entry :=
  {| te_huge := true; te_vaddr := va; te_paddr := pa; te_host := host;
     te_ctid := 3; te_hpid := 42 |}.

(** A movable source page: pfn, MIGRATE_PFN_VALID | MIGRATE_PFN_MIGRATE. *)
Definition movable (pfn : Z) : Z := Z.lor (migrate_pfn pfn) MIGRATE_PFN_MIGRATE.

(** One device page, pfn 0x900, resident for context 3 at card address
    0x5000; the process 42 asks for its virtual page 0x10 back. *)
Definition resident_info : hmm_prvt_info :=
  {| pi_ctid := 3; pi_huge := false; card_address := 0x5000 |}.
Definition machine_resident : machine :=
  {| bd_data := bd; free_pages := []; mem_sections := [];
     zone_device_data := {[ 0x900 := resident_info ]};
     migrated_pages := [resident_info];
     tlb := [small_entry 0x10 0x5000 1];
     grow_script := []; fault_script := []; trace := [] |}.
Definition kernel_resident : kernel :=
  kernel_with [movable 0x900] 1 (fun _ => Some 0x77).
Definition args_resident : cyt_migrate :=
  {| ctid := 3; hpid := 42; vaddr := 0x10000; hugepages := false; n_pages := 1 |}.

(** A device with one chunk at 4 GiB and two free pages of it left; the pool
    cannot grow.  The process has three pages mapped at 0x20..0x22. *)
Definition chunk0 : hmm_prvt_chunk :=
  {| range_start := 0x100000000; range_end := 0x100000000 + DEVMEM_CHUNK_SIZE - 1 |}.
Definition machine_exhausted : machine :=
  {| bd_data := bd; free_pages := [0x100000; 0x100001]; mem_sections := [chunk0];
     zone_device_data := ∅; migrated_pages := [];
     tlb := [small_entry 0x20 0x300 0; small_entry 0x21 0x301 0;
             small_entry 0x22 0x302 0];
     grow_script := []; fault_script := []; trace := [] |}.
Definition kernel_three : kernel :=
  kernel_with [movable 0x300; movable 0x301; movable 0x302] 3 (fun _ => None).
Definition args_three : cyt_migrate :=
  {| ctid := 3; hpid := 42; vaddr := 0x20000; hugepages := false; n_pages := 3 |}.

(** Two device pages of the chunk, 0x100000 and 0x100001, resident for
    context 3 at the card addresses 0x5000 and 0x6000; the process 42 asks
    for its virtual pages 0x10 and 0x11 back, and the kernel has one host
    page to give, pfn 0x77, for the first of them. *)
Definition resident_a : hmm_prvt_info :=
  {| pi_ctid := 3; pi_huge := false; card_address := 0x5000 |}.
Definition resident_b : hmm_prvt_info :=
  {| pi_ctid := 3; pi_huge := false; card_address := 0x6000 |}.
Definition machine_two_resident : machine :=
  {| bd_data := bd; free_pages := []; mem_sections := [chunk0];
     zone_device_data := {[ 0x100000 := resident_a; 0x100001 := resident_b ]};
     migrated_pages := [resident_b; resident_a];
     tlb := [small_entry 0x10 0x5000 1; small_entry 0x11 0x6000 1];
     grow_script := []; fault_script := []; trace := [] |}.
Definition kernel_one_host_page : kernel :=
  kernel_with [movable 0x100000; movable 0x100001] 2
    (fun addr => if addr =? 0x10000 then Some 0x77 else None).
Definition args_two : cyt_migrate :=
  {| ctid := 3; hpid := 42; vaddr := 0x10000; hugepages := false; n_pages := 2 |}.

(** A pool that finds its region but cannot remap it. *)
Definition grow_no_remap : grow_env :=
  {| kzalloc_ok := true; region := Some 0x100000000; memremap_ok := false |}.

(** An invalidation of the one page at 0x1000, which may block. *)
Definition range_one_page : mmu_notifier_range :=
  {| r_vma := true; r_start := 0x1000; r_end := 0x2000; r_event_migrate := false;
     r_owner_dev := false; r_blockable := true |}.

(** Two turns of the host-fault loop: the fault succeeds but the sequence
    number is stale, then the fault succeeds on a current one. *)
Definition turn (stale : bool) : fault_env :=
  {| fe_time_after := false; fe_seq := 5; fe_fault_ret := 0;
     fe_pfns := [0x77]; fe_read_retry := stale |}.

End Sample.

(** ** The host-fault loop as a state machine

    The three states of the spec, with the transitions the loop takes: a
    turn first checks the clock, then reads the sequence number and faults
    ([FaultAndFence]); what the fault and the sequence check report decides
    between another turn and leaving ([RetryOrCommit]).  Both retries go
    back to [FaultAndFence]. *)
Inductive fault_state :=
  | FaultAndFence (script : list fault_env) (pfns : list Z)
  | RetryOrCommit (e : fault_env) (script : list fault_env)
  | Leave (ret_val : Z) (commit : bool) (pfns : list Z).

Inductive fault_step (start end_ : Z) :
    fault_state * list event -> fault_state * list event -> Prop :=
  | step_timeout e s pfns t :
      fe_time_after e = true ->
      fault_step start end_ (FaultAndFence (e :: s) pfns, t)
        (Leave (- EBUSY) false pfns, t)
  | step_fault e s pfns t :
      fe_time_after e = false ->
      fault_step start end_ (FaultAndFence (e :: s) pfns, t)
        (RetryOrCommit e s,
         t ++ [EvMmuIntervalReadBegin (fe_seq e);
               EvHmmRangeFault start end_ (fe_fault_ret e)])
  | step_contention e s t :
      fe_fault_ret e = - EBUSY ->
      fault_step start end_ (RetryOrCommit e s, t)
        (FaultAndFence s (fe_pfns e), t)
  | step_error e s t :
      fe_fault_ret e <> 0 -> fe_fault_ret e <> - EBUSY ->
      fault_step start end_ (RetryOrCommit e s, t)
        (Leave (fe_fault_ret e) false (fe_pfns e),
         t ++ [EvPrWarn "range fault failed with code %d"])
  | step_stale e s t :
      fe_fault_ret e = 0 -> fe_read_retry e = true ->
      fault_step start end_ (RetryOrCommit e s, t)
        (FaultAndFence s (fe_pfns e), t ++ [EvMmuIntervalReadRetry true])
  | step_commit e s t :
      fe_fault_ret e = 0 -> fe_read_retry e = false ->
      fault_step start end_ (RetryOrCommit e s, t)
        (Leave 0 true (fe_pfns e), t ++ [EvMmuIntervalReadRetry false]).

(** ** Reasoning about runs *)

(** [emits P c]: every event a run of [c] adds to the log satisfies [P]. *)
Definition emits (P : event -> Prop) {A} (c : M A) : Prop :=
  forall m, exists t, trace (c m).2 = trace m ++ t /\ Forall P t.

(** [wp c m Q]: the run of [c] from [m] adds some events [t] to the log and
    its outcome, final machine and [t] satisfy [Q]. *)
Definition wp {A} (c : M A) (m : machine)
    (Q : outcome A -> machine -> list event -> Prop) : Prop :=
  exists t, trace (c m).2 = trace m ++ t /\ Q (c m).1 (c m).2 t.

(** A failed allocation of a destination page, as the log shows it: the
    kernel allocator of the host direction returns NULL, or the card
    direction reports that [alloc_private_page] did. *)
Definition alloc_failure (e : event) : bool :=
  match e with
  | EvAllocPageVma _ None | EvAllocPagesVma _ _ None => true
  | EvPrErr msg => String.eqb msg "failed to allocate a device private page"
  | _ => false
  end.

Definition is_lock_page (e : event) : bool :=
  match e with EvLockPage _ => true | _ => false end.

(** The events of the helpers every path shares: no operation on the
    migration lock, no TLB mapping, no failed destination allocation, no
    page lock. *)
Definition benign (e : event) : bool :=
  negb (on_lock mmu_lock e) && negb (is_tlb_mapping e)
  && negb (alloc_failure e) && negb (is_lock_page e).

Definition quiet (e : event) : Prop := on_lock mmu_lock e = false.

(** Is the lock held at every blocking wait of the log. *)
Fixpoint waits_under_lock_from (l : lock) (depth : Z) (t : list event) : bool :=
  match t with
  | [] => true
  | EvWaitEvent _ :: t' => (1 <=? depth) && waits_under_lock_from l depth t'
  | e :: t' => waits_under_lock_from l (lock_step l e depth) t'
  end.

Definition waits_under_lock (l : lock) (t : list event) : bool :=
  waits_under_lock_from l 0 t.

(** The walk of [tlb_map_hmm] and [tlb_unmap_hmm] over [n] pages ends and
    its counter does not wrap: the stride is positive and the bound plus one
    stride fits a C int. *)
Definition tlb_walk_ok (bd : bus_driver_data) (n : Z) (huge : bool) : Prop :=
  let pg_inc := u32 (if huge then n_pages_in_huge bd else 1) in
  let n_map_pages :=
    u32 (if huge then Z.shiftr (u32 n) (dif_order_page_shift bd) else u32 n) in
  1 <= pg_inc /\ n_map_pages + pg_inc <= 2 ^ 31.

(** What a helper that only touches the TLB leaves alone. *)
Definition same_pool (m m' : machine) : Prop :=
  free_pages m' = free_pages m /\ mem_sections m' = mem_sections m
  /\ grow_script m' = grow_script m /\ bd_data m' = bd_data m.

(** The pool of device pages is in order: every free page was carved from a
    registered chunk, and no attempt to grow the pool stops at the remap
    (the path where [alloc_new_prvt_pages] returns 0 with no page added). *)
Definition in_chunks `{K : hmm_defs} (m : machine) (p : page) : Prop :=
  existsb (page_in_chunk p) (mem_sections m) = true.

Definition grow_fair (g : grow_env) : Prop :=
  kzalloc_ok g = true -> is_Some (region g) -> memremap_ok g = true.

Definition pool_ok `{K : hmm_defs} (m : machine) : Prop :=
  Forall (in_chunks m) (free_pages m) /\ Forall grow_fair (grow_script m).

(** What a helper that only allocates and frees device pages leaves alone:
    the TLB and the configuration; chunks are only added. *)
Definition pool_step `{K : hmm_defs} (m m' : machine) : Prop :=
  tlb m' = tlb m /\ bd_data m' = bd_data m
  /\ forall p, in_chunks m p -> in_chunks m' p.

(** The staging arrays are in order: they have one length, and a slot
    with a destination entry holds a destination page of a chunk. *)
Definition staged_ok `{K : hmm_defs} (m : machine) (st : staging) : Prop :=
  length (spages st) = length (dst st)
  /\ length (dpages st) = length (dst st)
  /\ forall j v, dst st !! j = Some v -> v <> 0 ->
       exists p, dpages st !! j = Some (Some p) /\ in_chunks m p.

(** What the staging loop of the card direction has done when it is at slot
    [i]: the pool and the arrays are still in order, the slots below [i] are
    as they were, [dpages_fail] tells whether an allocation failed, and
    every page the loop locked sits in [dpages] with a destination entry. *)
Definition stage_post `{K : hmm_defs} (i : nat) (st : staging) (m : machine)
    (o : outcome staging) (m' : machine) (t : list event) : Prop :=
  exists st', o = Done st' /\ pool_ok m' /\ pool_step m m' /\ staged_ok m' st'
    /\ length (dst st') = length (dst st)
    /\ (forall j, (j < i)%nat ->
          dst st' !! j = dst st !! j /\ dpages st' !! j = dpages st !! j)
    /\ dpages_fail st' = dpages_fail st || existsb alloc_failure t
    /\ (forall p, In (EvLockPage p) t ->
          exists j v, (i <= j)%nat /\ dpages st' !! j = Some (Some p)
                      /\ dst st' !! j = Some v /\ v <> 0).

(** What the undo block has done when it has walked the slots from [i] to
    [i + n]: those slots of [dst] are cleared, the slots below are as they
    were, every page staged in them was unlocked and released, and the TLB
    and the chunks are untouched.  A staged page is pushed on the free list
    twice, by the release under [put_page] and by the call of
    [cpu_free_private_page] that follows it: either no slot was staged and
    the free list is as it was, or the free list is one page that links to
    itself. *)
Definition undo_post (i n : nat) (dp : list (option page)) (d : list Z)
    (m : machine) (o : outcome (list Z)) (m' : machine) (t : list event) : Prop :=
  exists d', o = Done d' /\ length d' = length d
    /\ (forall j, (i <= j < i + n)%nat -> d' !! j = Some 0)
    /\ (forall j, (j < i)%nat -> d' !! j = d !! j)
    /\ tlb m' = tlb m /\ mem_sections m' = mem_sections m
    /\ (forall j p v, (i <= j < i + n)%nat ->
          dp !! j = Some (Some p) -> d !! j = Some v -> v <> 0 ->
          In (EvUnlockPage p) t /\ In (EvPutPage p) t)
    /\ ((free_pages m' = free_pages m
         /\ forall j p v, (i <= j < i + n)%nat ->
              dp !! j = Some (Some p) -> d !! j = Some v -> v = 0)
        \/ exists p, In (EvPutPage p) t /\ free_pages m' = [p; p]).

(** The kernel lets a migration of [args] reach its staging loop: the four
    arrays are allocated, the range has a vma, and [migrate_vma_setup]
    succeeds with one [src] entry per page of the request. *)
Definition staging_ready `{K : hmm_defs} (k : kernel) (args : cyt_migrate)
    (flags : Z) (src : list Z) (cpages : Z) : Prop :=
  let start := u64 (vaddr args) in
  let end_ := u64 (vaddr args + u64 (Z.shiftl (n_pages args) PAGE_SHIFT)) in
  k_vmalloc k BufSrc = true /\ k_vmalloc k BufDst = true
  /\ k_vmalloc k BufSpages = true /\ k_vmalloc k BufDpages = true
  /\ k_find_vma_intersection k start end_ = true
  /\ k_migrate_vma_setup k start end_ flags = (0, src, cpages, n_pages args)
  /\ Z.of_nat (length src) = n_pages args.

(** What a failed allocation means for a migration to card: the value is
    [-ENOMEM], no TLB mapping was installed and the TLB is as the invalidate
    step left it, every page the call locked was unlocked and released, and
    the run ends by finishing the staged migration with [cpages = 0] and a
    cleared [dst].  When the call had locked a page, the free list it
    leaves is one released page that links to itself. *)
Definition card_abort `{K : hmm_defs} (args : cyt_migrate) (m : machine)
    (o : outcome Z) (m' : machine) (t : list event) : Prop :=
  existsb alloc_failure t = true ->
  o = Done (- ENOMEM)
  /\ existsb is_tlb_mapping t = false
  /\ tlb m' = tlb (tlb_unmap_hmm (Z.shiftr (u64 (vaddr args)) PAGE_SHIFT)
                     (n_pages args) (hpid args) (hugepages args) m).2
  /\ (forall p, In (EvLockPage p) t ->
        In (EvUnlockPage p) t /\ In (EvPutPage p) t)
  /\ ((exists p, In (EvLockPage p) t) ->
      exists p, In (EvPutPage p) t /\ free_pages m' = [p; p])
  /\ exists t0 d,
       t = t0 ++ [EvPrErr "restoring original page table";
                  EvMigrateVmaPages d 0; EvMigrateVmaFinalize]
       /\ Forall (fun v => v = 0) d.

(** The TLB mappings the install loop may write for the array [paddr]: the
    entry stems from a slot below the cap that holds a physical address. *)
Definition from_capped_slot `{K : hmm_defs} (paddr : list Z) (e : event) : Prop :=
  exists i te, e = EvCreateTlbMapping te /\ 0 <= i < MAX_N_MAP_PAGES
    /\ paddr !! Z.to_nat i = Some (te_paddr te) /\ te_paddr te <> 0.

(** ** Observations on the TLB walks *)

(** The entries an install of the array [pa] at virtual page [v] writes when
    no slot is skipped: slot [j] at page [v + j]. *)
Definition tlb_installs (huge : bool) (v host ct hp : Z) (pa : list Z)
    : list event :=
  imap (fun j p =>
          EvCreateTlbMapping
            {| te_huge := huge; te_vaddr := u64 (v + Z.of_nat j); te_paddr := p;
               te_host := host; te_ctid := ct; te_hpid := hp |}) pa.

(** The commands a removal of [n] regular pages at virtual page [v] sends:
    the unmappings, then the invalidations, the last one flagged. *)
Definition tlb_unmaps (v n hp : Z) : list event :=
  (fun j => EvCreateTlbUnmapping false (u64 (v + j)) hp) <$> seqZ 0 n.

Definition tlb_invalidates (v n hp : Z) : list event :=
  (fun j => EvInvalidateTlbEntry (u64 (v + j)) 1 hp (j =? n - 1)) <$> seqZ 0 n.

(** The entry lies in the range of [n] regular pages of the host process
    [hp] at virtual page [v]. *)
Definition in_small_range (v n hp : Z) (e : tlb_entry) : Prop :=
  te_huge e = false /\ te_hpid e = hp
  /\ exists j, 0 <= j < n /\ te_vaddr e = u64 (v + j).

(** The TLB [l'] is [l] without the small-page entries of the host process
    [hp] inside the [n] pages at [v]. *)
Definition small_range_cleared (v n hp : Z) (l l' : list tlb_entry) : Prop :=
  forall e, In e l' <-> In e l /\ ~ in_small_range v n hp e.

(** ** Observations on the pool *)

(** One attempt to grow the pool that goes through: the management struct
    is allocated, a region is found at [start] and it is remapped. *)
Definition grows_at (g : grow_env) (start : Z) : Prop :=
  kzalloc_ok g = true /\ region g = Some start /\ memremap_ok g = true.

(** The pages of a chunk of [DEVMEM_CHUNK_SIZE] bytes. *)
Definition chunk_pages `{K : hmm_defs} : Z := Z.shiftr DEVMEM_CHUNK_SIZE PAGE_SHIFT.

(** What a call leaves of the device's bookkeeping when it only writes to
    the log (and, for the pool, consumes one answer of the grow script). *)
Definition same_device (m m' : machine) : Prop :=
  free_pages m' = free_pages m /\ mem_sections m' = mem_sections m
  /\ zone_device_data m' = zone_device_data m
  /\ migrated_pages m' = migrated_pages m /\ tlb m' = tlb m
  /\ bd_data m' = bd_data m.

(** What a failed attempt to grow the pool gives back. *)
Definition growth_undone (g : grow_env) (t : list event) : Prop :=
  (kzalloc_ok g = true -> In EvKfreeDevmem t)
  /\ (forall start, kzalloc_ok g = true -> region g = Some start ->
        In (EvReleaseMemRegion start DEVMEM_CHUNK_SIZE) t).

(** ** Observations on the host fault *)

(** [range.end] of [fpga_do_host_fault]. *)
Definition host_fault_end `{K : hmm_defs} (args : cyt_migrate) : Z :=
  u64 (u64 (vaddr args) + u32 (Z.shiftl (u32 (n_pages args)) PAGE_SHIFT)).

(** The virtual page [fpga_do_host_fault] hands to [tlb_map_hmm]:
    [start << PAGE_SHIFT], of the byte address [start]. *)
Definition host_fault_vpage `{K : hmm_defs} (args : cyt_migrate) : Z :=
  u64 (Z.shiftl (u64 (vaddr args)) PAGE_SHIFT).

(** A turn of the host-fault loop that ends in a retry: the clock is not
    past the timeout, and the fault call reports [-EBUSY] or succeeds on a
    sequence number that has gone stale. *)
Definition retries (e : fault_env) : Prop :=
  fe_time_after e = false
  /\ (fe_fault_ret e = - EBUSY
      \/ (fe_fault_ret e = 0 /\ fe_read_retry e = true)).

(** ** Observations on [is_thp] *)

(** The calls of [put_page]: the release of a page of a chunk goes through
    [cpu_free_private_page]; and the device it leaves. *)
Definition put_page_calls `{K : hmm_defs} (m : machine) (p : page) : list event :=
  EvPutPage p ::
  (if existsb (page_in_chunk p) (mem_sections m)
   then [EvSpinLock page_lock; EvSpinUnlock page_lock] else []).

Definition released `{K : hmm_defs} (m : machine) (p : page) : machine :=
  if existsb (page_in_chunk p) (mem_sections m) then push_free_page p m else m.

(** The calls of [is_thp] at [addr] when it pins the page [p]. *)
Definition is_thp_calls `{K : hmm_defs} (m : machine) (addr : Z) (p : page)
    : list event :=
  EvGetUserPagesRemote addr (Some p) :: put_page_calls m p.

(** The machine [is_thp] leaves when it pins the page [p]. *)
Definition after_is_thp `{K : hmm_defs} (m : machine) (addr : Z) (p : page)
    : machine :=
  set_trace (trace m ++ is_thp_calls m addr p) (released m p).

(** ** Observations on the callers of the TLB and of the migrations *)

(** The commands of a TLB removal. *)
Definition is_tlb_removal (e : event) : bool :=
  match e with
  | EvCreateTlbUnmapping _ _ _ | EvInvalidateTlbEntry _ _ _ _ => true
  | _ => false
  end.

(** The notifier callback has no work to do for the range: the invalidation
    stems from a migration of the device itself. *)
Definition own_migration (range : mmu_notifier_range) : bool :=
  r_event_migrate range && r_owner_dev range.

(** How the callback takes the migration lock when it gets it. *)
Definition lock_taken (range : mmu_notifier_range) : event :=
  if r_blockable range then EvMutexLock mmu_lock
  else EvMutexTrylock mmu_lock true.

(** A TLB mapping of the log is one for the given access direction,
    context, host process and page size. *)
Definition mapping_for (host ct hp : Z) (huge : bool) (e : event) : Prop :=
  forall te, e = EvCreateTlbMapping te ->
    te_host te = host /\ te_ctid te = ct /\ te_hpid te = hp /\ te_huge te = huge.

(** The DMA calls: the trigger of a transfer and the wait for it. *)
Definition is_dma (e : event) : bool :=
  match e with
  | EvTriggerDmaSync _ _ _ _ | EvTriggerDmaOffload _ _ _ _
  | EvWaitEvent waitqueue_sync | EvWaitEvent waitqueue_offload => true
  | _ => false
  end.

(** The calls the steps of a migration make around its DMA and its final
    TLB install: messages, TLB removal, the migrate_vma API, pages and card
    memory, the residency list, the wait for the invalidation, and the pool
    with its spin locks. *)
Definition plain_event (e : event) : bool :=
  match e with
  | EvPrErr _
  | EvCreateTlbUnmapping _ _ _ | EvInvalidateTlbEntry _ _ _ _
  | EvMigrateVmaSetup _ _ _ | EvMigrateVmaPages _ _ | EvMigrateVmaFinalize
  | EvAllocPageVma _ _ | EvAllocPagesVma _ _ _
  | EvGetPage _ | EvPutPage _ | EvLockPage _ | EvUnlockPage _
  | EvAllocCardMemory _ _ _ | EvFreeCardMemory _ _ _
  | EvWaitEvent waitqueue_invldt
  | EvKzallocDevmem _ | EvRequestFreeMemRegion _ | EvMemremapPages _
  | EvReleaseMemRegion _ _ | EvKfreeDevmem
  | EvListAdd _ | EvListDel _ => true
  | EvSpinLock l | EvSpinUnlock l =>
      bool_decide (l = page_lock) || bool_decide (l = sections_lock)
  | _ => false
  end.

(** Is the lock held at every DMA call of the log. *)
Fixpoint dma_under_lock_from (l : lock) (depth : Z) (t : list event) : bool :=
  match t with
  | [] => true
  | e :: t' =>
      (if is_dma e then 1 <=? depth else true)
      && dma_under_lock_from l (lock_step l e depth) t'
  end.

(** An event that is neither an operation on the lock [l] nor a DMA call. *)
Definition dma_free (l : lock) (e : event) : Prop :=
  on_lock l e = false /\ is_dma e = false.

(** The DMA discipline from a point where the lock is held [depth] times. *)
Definition dma_locked_from (l : lock) (depth : Z) (o : outcome Z)
    (t : list event) : Prop :=
  dma_under_lock_from l depth t = true
  /\ (forall r, o = Done r -> lock_balanced_from l depth t = true).

(** The DMA discipline of a call: every DMA call of its log is made with
    the lock [l] held, and a run that returns has released the lock as
    often as it took it. *)
Definition dma_locked (l : lock) (o : outcome Z) (t : list event) : Prop :=
  dma_under_lock_from l 0 t = true
  /\ (forall r, o = Done r -> lock_balanced l t = true).

(** The calls a migration makes: messages, the TLB, the migrate_vma API,
    pages and card memory, the DMA with its lock and waits, the pool with
    its spin locks.  Not among them: the migration lock, the reference and
    the lock on the mm, [get_user_pages_remote], and the range-fault API of
    the host-fault path. *)
Definition migration_event (e : event) : bool :=
  match e with
  | EvMutexLock l | EvMutexUnlock l =>
      bool_decide (l = sync_lock) || bool_decide (l = offload_lock)
  | EvSpinLock l | EvSpinUnlock l =>
      bool_decide (l = page_lock) || bool_decide (l = sections_lock)
  | EvMutexTrylock _ _ | EvChangeTlbLock
  | EvMmget | EvMmput | EvMmapReadLock | EvMmapReadUnlock
  | EvGetUserPagesRemote _ _
  | EvMmuIntervalSetSeq _ | EvMmuIntervalReadBegin _
  | EvHmmRangeFault _ _ _ | EvMmuIntervalReadRetry _ | EvPrWarn _ => false
  | _ => true
  end.

Definition in_migration (e : event) : Prop := migration_event e = true.

(** The kernel stops a migration of [args] before its invalidate step: one
    of the four arrays cannot be allocated, the range has no vma, or
    [migrate_vma_setup] fails. *)
Definition staging_denied `{K : hmm_defs} (k : kernel) (args : cyt_migrate)
    (flags : Z) : Prop :=
  let start := u64 (vaddr args) in
  let end_ := u64 (vaddr args + u64 (Z.shiftl (n_pages args) PAGE_SHIFT)) in
  k_vmalloc k BufSrc = false \/ k_vmalloc k BufDst = false
  \/ k_vmalloc k BufSpages = false \/ k_vmalloc k BufDpages = false
  \/ k_find_vma_intersection k start end_ = false
  \/ (k_migrate_vma_setup k start end_ flags).1.1.1 <> 0.

(** What a migration stopped before its invalidate step has done: it
    returns an error and has sent no command to the TLB; the device's
    bookkeeping is as before. *)
Definition denied_post (m : machine) (o : outcome Z) (m' : machine)
    (t : list event) : Prop :=
  (exists r, o = Done r /\ r <> 0) /\ same_device m m'
  /\ existsb is_tlb_removal t = false /\ existsb is_tlb_mapping t = false.

(** A call that returns an error has installed no TLB mapping. *)
Definition maps_only_on_success (o : outcome Z) (t : list event) : Prop :=
  forall r, o = Done r -> existsb is_tlb_mapping t = true -> r = 0.

(** ** Observations on the CPU fault handler *)

(** The range the handler migrates: the page of the faulting address. *)
Definition cpu_fault_start (m : machine) (zd : hmm_prvt_info) (vmf : vm_fault) : Z :=
  Z.land (u64 (vmf_address vmf))
    (page_mask (tlb_meta_of (bd_data m) (pi_huge zd))).

Definition cpu_fault_end (m : machine) (zd : hmm_prvt_info) (vmf : vm_fault) : Z :=
  u64 (cpu_fault_start m zd vmf
       + page_size (tlb_meta_of (bd_data m) (pi_huge zd))).

(** The handler can start: the faulting page carries residency data [zd]
    and the context named there has the host process [hp]. *)
Definition cpu_fault_ready (pid_array : list Z) (vmf : vm_fault) (m : machine)
    (zd : hmm_prvt_info) (hp : Z) : Prop :=
  zone_device_data m !! vmf_page vmf = Some zd
  /\ 0 <= pi_ctid zd /\ pid_array !! Z.to_nat (pi_ctid zd) = Some hp.

(** The kernel stops the handler before its invalidate step. *)
Definition cpu_fault_denied (k : kernel) (m : machine) (zd : hmm_prvt_info)
    (vmf : vm_fault) : Prop :=
  k_vmalloc k BufSrc = false \/ k_vmalloc k BufDst = false
  \/ k_vmalloc k BufSpages = false \/ k_vmalloc k BufDpages = false
  \/ (k_migrate_vma_setup k (cpu_fault_start m zd vmf) (cpu_fault_end m zd vmf)
        MIGRATE_VMA_SELECT_DEVICE_PRIVATE).1.1.1 <> 0.

(** The handler reaches its staging step for a regular page: it can start,
    the four arrays are allocated, and [migrate_vma_setup] succeeds with
    the given [src], [cpages] and [npages]; [s0] is [src[0]]. *)
Definition cpu_fault_staged (k : kernel) (pid_array : list Z) (vmf : vm_fault)
    (m : machine) (zd : hmm_prvt_info) (hp s0 : Z) (src : list Z)
    (cpages npages : Z) : Prop :=
  cpu_fault_ready pid_array vmf m zd hp /\ pi_huge zd = false
  /\ k_vmalloc k BufSrc = true /\ k_vmalloc k BufDst = true
  /\ k_vmalloc k BufSpages = true /\ k_vmalloc k BufDpages = true
  /\ k_migrate_vma_setup k (cpu_fault_start m zd vmf) (cpu_fault_end m zd vmf)
       MIGRATE_VMA_SELECT_DEVICE_PRIVATE = (0, src, cpages, npages)
  /\ 0 <= npages < 2 ^ 31 /\ src !! 0%nat = Some s0.

(** The log of the handler up to its staging step. *)
Definition cpu_fault_prologue `{K : hmm_defs} (m : machine) (zd : hmm_prvt_info)
    (vmf : vm_fault) (hp npages : Z) : list event :=
  let start := cpu_fault_start m zd vmf in
  [EvMigrateVmaSetup start (cpu_fault_end m zd vmf)
     MIGRATE_VMA_SELECT_DEVICE_PRIVATE]
  ++ tlb_unmaps (Z.shiftr start PAGE_SHIFT) npages hp
  ++ tlb_invalidates (Z.shiftr start PAGE_SHIFT) npages hp.

(** What the handler has done when [src[0]] is not marked for migration. *)
Definition cpu_not_possible_post `{K : hmm_defs} (m : machine)
    (zd : hmm_prvt_info) (vmf : vm_fault) (hp npages : Z)
    (o : outcome Z) (m' : machine) (t : list event) : Prop :=
  o = Done 0
  /\ t = cpu_fault_prologue m zd vmf hp npages
         ++ [EvPrErr "migration not possible"]
  /\ small_range_cleared (Z.shiftr (cpu_fault_start m zd vmf) PAGE_SHIFT)
       npages hp (tlb m) (tlb m')
  /\ migrated_pages m' = migrated_pages m /\ free_pages m' = free_pages m.

(** What the handler has done when the host page cannot be allocated. *)
Definition cpu_alloc_fails_post `{K : hmm_defs} (m : machine)
    (zd : hmm_prvt_info) (vmf : vm_fault) (hp npages : Z)
    (o : outcome Z) (m' : machine) (t : list event) : Prop :=
  o = Done (u32 (- ENOMEM))
  /\ t = cpu_fault_prologue m zd vmf hp npages
         ++ [EvAllocPageVma (cpu_fault_start m zd vmf) None;
             EvPrErr "invalidating all destination page entries";
             EvPrErr "restoring original page table";
             EvMigrateVmaPages [0] 0; EvMigrateVmaFinalize]
  /\ small_range_cleared (Z.shiftr (cpu_fault_start m zd vmf) PAGE_SHIFT)
       npages hp (tlb m) (tlb m')
  /\ migrated_pages m' = migrated_pages m /\ free_pages m' = free_pages m.

(** What the handler has done when it has moved one regular page: the
    device page with residency entry [info] to the host page [p]. *)
Definition cpu_moved_post `{K : hmm_defs} (m : machine)
    (zd : hmm_prvt_info) (vmf : vm_fault) (hp s0 : Z) (p : page)
    (info : hmm_prvt_info)
    (o : outcome Z) (m' : machine) (t : list event) : Prop :=
  o = Done 0
  /\ (exists host_address card_addr,
        t = cpu_fault_prologue m zd vmf hp 1
            ++ [EvAllocPageVma (cpu_fault_start m zd vmf) (Some p);
                EvLockPage p;
                EvListDel info;
                EvFreeCardMemory [card_address info] 1 false;
                EvWaitEvent waitqueue_invldt;
                EvMutexLock sync_lock;
                EvTriggerDmaSync host_address card_addr 1 false;
                EvWaitEvent waitqueue_sync;
                EvMutexUnlock sync_lock;
                EvMigrateVmaPages [staged_dst s0 p] 1;
                EvMigrateVmaFinalize])
  /\ small_range_cleared (Z.shiftr (cpu_fault_start m zd vmf) PAGE_SHIFT)
       1 hp (tlb m) (tlb m')
  /\ migrated_pages m' = list_del info (migrated_pages m).

(** What the handler has done when the kernel stops it before the
    invalidate step. *)
Definition cpu_denied_post (m : machine) (o : outcome Z) (m' : machine)
    (t : list event) : Prop :=
  o = Done VM_FAULT_SIGBUS /\ same_device m m'
  /\ existsb is_tlb_removal t = false /\ existsb is_tlb_mapping t = false.

(** A fault of process 42 (context 3) on its resident page. *)
Definition pid_array_sample : list Z := [0; 0; 0; 42].
Definition vmf_resident : vm_fault :=
  {| vmf_address := 0x10234; vmf_page := 0x900 |}.

(** ** Observations on the teardown *)

(** The calls [free_card_mem] makes for one residency entry. *)
Definition card_entry_freed (info : hmm_prvt_info) : list event :=
  [EvFreeCardMemory [card_address info] 1 (pi_huge info); EvListDel info].

Definition of_ctid (ct : Z) (info : hmm_prvt_info) : bool := pi_ctid info =? ct.

(** The calls [free_mem_regions] makes for one chunk. *)
Definition chunk_freed (c : hmm_prvt_chunk) : list region_call :=
  [MemunmapPages c; ReleaseMemRegion (range_start c) (range_len c); KfreeChunk c].

(** A device whose chunks have all been released. *)
Definition without_chunks (d : machine) : machine := set_mem_sections [] d.

Definition chunks_freed (d : machine) : list region_call :=
  flat_map chunk_freed (mem_sections d).

(** ** Observations on a migration to card of one page *)

(** The residency entry "zone setup" makes for the card address [c]. *)
Definition card_entry (args : cyt_migrate) (c : Z) : hmm_prvt_info :=
  {| pi_ctid := ctid args; pi_huge := hugepages args; card_address := c |}.

(** What a migration to card has done when it has moved one regular page:
    the host page [sp] to the device page [p], resident at the card address
    [c]; [rest] is the free list behind [p]. *)
Definition card_moved_post `{K : hmm_defs} (args : cyt_migrate) (m : machine)
    (s0 : Z) (p sp : page) (c : Z) (rest : list page)
    (o : outcome Z) (m' : machine) (t : list event) : Prop :=
  let start := u64 (vaddr args) in
  let end_ := u64 (vaddr args + u64 (Z.shiftl (n_pages args) PAGE_SHIFT)) in
  let vpage := Z.shiftr start PAGE_SHIFT in
  o = Done 0
  /\ t = [EvMigrateVmaSetup start end_ MIGRATE_VMA_SELECT_SYSTEM]
         ++ tlb_unmaps vpage 1 (hpid args) ++ tlb_invalidates vpage 1 (hpid args)
         ++ [EvSpinLock page_lock; EvSpinUnlock page_lock;
             EvGetPage p; EvLockPage p;
             EvAllocCardMemory 1 false (Some [c]);
             EvListAdd (card_entry args c);
             EvWaitEvent waitqueue_invldt;
             EvMutexLock offload_lock;
             EvTriggerDmaOffload [page_to_pfn sp] [c] 1 false;
             EvWaitEvent waitqueue_offload;
             EvMutexUnlock offload_lock;
             EvMigrateVmaPages [staged_dst s0 p] 1;
             EvMigrateVmaFinalize]
         ++ tlb_installs false vpage CARD_ACCESS (ctid args) (hpid args) [c]
  /\ free_pages m' = rest
  /\ migrated_pages m' = card_entry args c :: migrated_pages m
  /\ zone_device_data m'
     = <[p := card_entry args c]> (delete p (zone_device_data m)).

(** The kernel and the pool let a migration to card of one regular page go
    through. *)
Definition card_move_ready `{K : hmm_defs} (k : kernel) (args : cyt_migrate)
    (m : machine) (s0 : Z) (p sp : page) (c : Z) (rest : list page) : Prop :=
  staging_ready k args MIGRATE_VMA_SELECT_SYSTEM [s0] 1
  /\ hugepages args = false
  /\ Z.land s0 MIGRATE_PFN_MIGRATE <> 0 /\ migrate_pfn_to_page s0 = Some sp
  /\ free_pages m = p :: rest
  /\ k_vmalloc k BufHostAddress = true /\ k_vmalloc k BufCardAddress = true
  /\ k_vmalloc k BufCalloc = true /\ k_vmalloc k BufNewEntry = true
  /\ k_alloc_card_memory k 1 false = Some [c]
  /\ c <> 0 /\ 1 <= MAX_N_MAP_PAGES.

(** * Properties *)

Import Sample.

(** ** Machine integers *)

Lemma u32_small z : 0 <= z < 2 ^ 32 -> u32 z = z.
Proof. intros H. unfold u32. by apply Z.mod_small. Qed.

Lemma s32_small z : 0 <= z < 2 ^ 31 -> s32 z = z.
Proof.
  intros H. unfold s32.
  rewrite Z.mod_small; [lia |].
  change (2 ^ 32) with (2 ^ 31 + 2 ^ 31). lia.
Qed.

(** ** Logs *)

Section Emits.
Context (P : event -> Prop).

Lemma emits_ret {A} (a : A) : emits P (mret a).
Proof. intros m. exists []. simpl. rewrite app_nil_r. auto. Qed.

Lemma emits_oops {A} c : emits P (@oops A c).
Proof. intros m. exists []. simpl. rewrite app_nil_r. auto. Qed.

Lemma emits_gets {A} (f : machine -> A) : emits P (gets f).
Proof. intros m. exists []. simpl. rewrite app_nil_r. auto. Qed.

Lemma emits_modify f : (forall m, trace (f m) = trace m) -> emits P (modify f).
Proof. intros H m. exists []. simpl. rewrite H, app_nil_r. auto. Qed.

Lemma emits_emit e : P e -> emits P (emit e).
Proof. intros H m. exists [e]. simpl. auto. Qed.

Lemma emits_bind {A B} (c : M A) (f : A -> M B) :
  emits P c -> (forall a, emits P (f a)) -> emits P (c ≫= f).
Proof.
  intros Hc Hf m. unfold mbind, M_bind.
  destruct (Hc m) as [t [Ht HP]].
  destruct (c m) as [[a | e] m1]; simpl in *.
  - destruct (Hf a m1) as [t' [Ht' HP']].
    exists (t ++ t'). rewrite Ht', Ht, app_assoc. split; [done | by apply Forall_app].
  - exists t. auto.
Qed.

End Emits.

Lemma emits_weaken (P Q : event -> Prop) {A} (c : M A) :
  (forall e, P e -> Q e) -> emits P c -> emits Q c.
Proof.
  intros HPQ Hc m. destruct (Hc m) as [t [Ht HP]].
  exists t. split; [done |]. eapply Forall_impl; eauto.
Qed.

Create HintDb emits discriminated.

Ltac emits_step :=
  first
    [ solve [auto 3 with emits nocore]
    | apply emits_ret | apply emits_oops | apply emits_gets
    | apply emits_emit;
      first [ reflexivity | assumption | solve [auto 3 with emits nocore] ]
    | apply emits_modify; intros; reflexivity
    | apply emits_bind; [| intros ]
    | match goal with
      | |- emits _ (if ?b then _ else _) => destruct b
      | |- emits _ (match ?x with _ => _ end) => destruct x
      end ].

Ltac emits_go := repeat emits_step.

Lemma push_chunk_pages_trace n p m : trace (push_chunk_pages n p m) = trace m.
Proof. revert p m. induction n; intros; simpl; [done |]. by rewrite IHn. Qed.

#[local] Hint Resolve emits_modify push_chunk_pages_trace : emits.

(** The helpers of every path emit benign events only. *)
Section Benign.
Context `{K : hmm_defs} (k : kernel).
Context (P : event -> Prop) (HP : forall e, benign e = true -> P e).

Ltac benign := apply HP; reflexivity.
#[local] Hint Extern 1 (P _) => benign : emits.

Lemma rd_emits {A} (a : list A) i : emits P (rd a i).
Proof. unfold rd. emits_go. Qed.

Lemma wr_emits {A} (a : list A) i v : emits P (wr a i v).
Proof. unfold wr. emits_go. Qed.

Lemma zone_info_emits p : emits P (zone_info p).
Proof. unfold zone_info. emits_go. Qed.

Lemma host_ptw_emits va hp : emits P (host_ptw k va hp).
Proof.
  unfold host_ptw, pr_err. emits_go.
  apply emits_emit, HP. by destruct l.
Qed.

Lemma tlb_unmap_loop_emits fuel huge pg n hp i v :
  emits P (tlb_unmap_loop fuel huge pg n hp i v).
Proof.
  revert i v. induction fuel; intros; simpl; unfold create_tlb_unmapping; emits_go.
Qed.

Lemma tlb_invalidate_loop_emits fuel pg n hp i v :
  emits P (tlb_invalidate_loop fuel pg n hp i v).
Proof.
  revert i v. induction fuel; intros; simpl; unfold invalidate_tlb_entry; emits_go.
Qed.

#[local] Hint Resolve tlb_unmap_loop_emits tlb_invalidate_loop_emits : emits.

Lemma tlb_unmap_hmm_emits v n hp huge : emits P (tlb_unmap_hmm v n hp huge).
Proof. unfold tlb_unmap_hmm. emits_go. Qed.

Lemma cpu_free_private_page_emits p : emits P (cpu_free_private_page p).
Proof. unfold cpu_free_private_page. emits_go. Qed.

Lemma alloc_new_prvt_pages_emits : emits P alloc_new_prvt_pages.
Proof. unfold alloc_new_prvt_pages, pr_err. emits_go. Qed.

#[local] Hint Resolve alloc_new_prvt_pages_emits : emits.

Lemma alloc_private_page_emits : emits P alloc_private_page.
Proof. unfold alloc_private_page, pr_err. emits_go. Qed.

#[local] Hint Resolve rd_emits wr_emits zone_info_emits cpu_free_private_page_emits : emits.

Lemma put_page_emits p : emits P (put_page p).
Proof. unfold put_page. emits_go. Qed.

#[local] Hint Resolve put_page_emits : emits.

Lemma undo_staging_emits n i dp d : emits P (undo_staging n i dp d).
Proof. revert i d. induction n; intros; simpl; emits_go. Qed.

Lemma to_host_addresses_emits n i st ha ca :
  emits P (to_host_addresses n i st ha ca).
Proof. revert i ha ca. induction n; intros; simpl; emits_go. Qed.

Lemma vacate_card_memory_emits n i j sp c :
  emits P (vacate_card_memory n i j sp c).
Proof. revert i j c. induction n; intros; simpl; emits_go. Qed.

Lemma zone_seek_emits fuel st i j : emits P (zone_seek fuel st i j).
Proof. revert j. induction fuel; intros; simpl; emits_go. Qed.

#[local] Hint Resolve zone_seek_emits : emits.

Lemma zone_setup_emits n args st c i j : emits P (zone_setup k n args st c i j).
Proof. revert i j. induction n; intros; simpl; emits_go. Qed.

Lemma to_card_addresses_emits n i st ha ca :
  emits P (to_card_addresses n i st ha ca).
Proof. revert i ha ca. induction n; intros; simpl; emits_go. Qed.

End Benign.

#[local] Hint Resolve rd_emits wr_emits zone_info_emits host_ptw_emits
  tlb_unmap_hmm_emits cpu_free_private_page_emits alloc_private_page_emits
  put_page_emits undo_staging_emits to_host_addresses_emits vacate_card_memory_emits
  zone_seek_emits zone_setup_emits to_card_addresses_emits : emits.

Lemma benign_spec e :
  benign e = true ->
  on_lock mmu_lock e = false /\ is_tlb_mapping e = false
  /\ alloc_failure e = false /\ is_lock_page e = false.
Proof.
  unfold benign. rewrite !andb_true_iff, !negb_true_iff. tauto.
Qed.

(** The staging loops lock pages and may fail to allocate; they install no
    mapping and leave the migration lock alone. *)
Section Stages.
Context `{K : hmm_defs} (k : kernel).
Context (P : event -> Prop)
  (HP : forall e, on_lock mmu_lock e = false -> is_tlb_mapping e = false -> P e).

Lemma stage_benign e : benign e = true -> P e.
Proof. intros H. apply benign_spec in H. apply HP; tauto. Qed.

#[local] Hint Resolve stage_benign : emits.
#[local] Hint Extern 1 (P _) => apply HP; reflexivity : emits.

Lemma to_host_huge_block_emits fuel src n i tmp st :
  emits P (to_host_huge_block fuel src n i tmp st).
Proof. revert i tmp st. induction fuel; intros; simpl; emits_go. Qed.

#[local] Hint Resolve to_host_huge_block_emits : emits.

Lemma to_host_stage_emits fuel args bd src npages pg i st :
  emits P (to_host_stage k fuel args bd src npages pg i st).
Proof. revert i st. induction fuel; intros; simpl; emits_go. Qed.

Lemma to_card_stage_emits n args src i st :
  emits P (to_card_stage k n args src i st).
Proof. revert i st. induction n; intros; simpl; unfold pr_err; emits_go. Qed.

End Stages.

(** [tlb_map_hmm] installs mappings and does nothing else. *)
Section Mapping.
Context `{K : hmm_defs}.
Context (P : event -> Prop)
  (HP : forall e, on_lock mmu_lock e = false -> alloc_failure e = false -> P e).

Lemma mapping_benign e : benign e = true -> P e.
Proof. intros H. apply benign_spec in H. apply HP; tauto. Qed.

#[local] Hint Resolve mapping_benign : emits.
#[local] Hint Extern 1 (P _) => apply HP; reflexivity : emits.

Lemma tlb_map_loop_emits fuel huge pg n pa host ct hp i v :
  emits P (tlb_map_loop fuel huge pg n pa host ct hp i v).
Proof.
  revert i v. induction fuel; intros; simpl; unfold create_tlb_mapping; emits_go.
Qed.

#[local] Hint Resolve tlb_map_loop_emits : emits.

Lemma tlb_map_hmm_emits v pa n host ct hp huge :
  emits P (tlb_map_hmm v pa n host ct hp huge).
Proof. unfold tlb_map_hmm. emits_go. Qed.

End Mapping.

(** Neither migration touches the migration lock. *)
Section Quiet.
Context `{K : hmm_defs} (k : kernel).

Lemma benign_quiet e : benign e = true -> quiet e.
Proof. intros H. apply benign_spec in H. unfold quiet. tauto. Qed.

#[local] Hint Resolve benign_quiet : emits.
#[local] Hint Extern 1 (quiet _) => reflexivity : emits.
#[local] Hint Resolve to_host_stage_emits to_card_stage_emits tlb_map_hmm_emits : emits.
#[local] Hint Extern 2 (forall e, _ -> _ -> quiet e) => (intros; assumption) : emits.

Lemma fpga_migrate_to_host_quiet args : emits quiet (fpga_migrate_to_host k args).
Proof. unfold fpga_migrate_to_host, pr_err. emits_go. Qed.

Lemma fpga_migrate_to_card_quiet args : emits quiet (fpga_migrate_to_card k args).
Proof. unfold fpga_migrate_to_card, pr_err. emits_go. Qed.

End Quiet.

Lemma quiet_lock_step e d : quiet e -> lock_step mmu_lock e d = d.
Proof.
  unfold quiet. destruct e; simpl; try done;
    try (case_bool_decide; [done |]; case_decide; done).
  destruct taken; case_bool_decide; try done; case_decide; done.
Qed.

Lemma waits_under_lock_cons l d e t :
  waits_under_lock_from l d (e :: t) =
  if is_wait e then (1 <=? d) && waits_under_lock_from l d t
  else waits_under_lock_from l (lock_step l e d) t.
Proof. destruct e; reflexivity. Qed.

Lemma waits_under_lock_quiet t t' d :
  Forall quiet t -> 1 <= d ->
  waits_under_lock_from mmu_lock d (t ++ t') = waits_under_lock_from mmu_lock d t'.
Proof.
  induction 1 as [| e t He Ht IH]; intros Hd; [done |].
  rewrite <- app_comm_cons, waits_under_lock_cons, (quiet_lock_step _ _ He), IH by done.
  destruct (is_wait e); [| done].
  destruct (Z.leb_spec 1 d); [done | lia].
Qed.

Lemma lock_balanced_quiet t t' d :
  Forall quiet t -> 0 <= d ->
  lock_balanced_from mmu_lock d (t ++ t') = lock_balanced_from mmu_lock d t'.
Proof.
  induction 1 as [| e t He Ht IH]; intros Hd; simpl; [done |].
  rewrite (quiet_lock_step _ _ He), IH by done.
  destruct (Z.leb_spec 0 d); [done | lia].
Qed.

Lemma new_events_app m m' t : trace m' = trace m ++ t -> new_events m m' = t.
Proof. intros H. unfold new_events. rewrite H. apply drop_app_length. Qed.

(** ** Runs *)

Lemma wp_ret {A} (a : A) m Q : Q (Done a) m [] -> wp (mret a) m Q.
Proof. intros H. exists []. simpl. by rewrite app_nil_r. Qed.

Lemma wp_oops {A} c m (Q : outcome A -> _) : Q (Oops c) m [] -> wp (oops c) m Q.
Proof. intros H. exists []. simpl. by rewrite app_nil_r. Qed.

Lemma wp_gets {A} (f : machine -> A) m Q : Q (Done (f m)) m [] -> wp (gets f) m Q.
Proof. intros H. exists []. simpl. by rewrite app_nil_r. Qed.

Lemma wp_modify f m Q :
  trace (f m) = trace m -> Q (Done tt) (f m) [] -> wp (modify f) m Q.
Proof. intros Ht H. exists []. simpl. by rewrite Ht, app_nil_r. Qed.

Lemma wp_emit e m Q :
  Q (Done tt) (set_trace (trace m ++ [e]) m) [e] -> wp (emit e) m Q.
Proof. intros H. exists [e]. done. Qed.

Lemma wp_bind {A B} (c : M A) (f : A -> M B) m Q :
  wp c m (fun o m1 t1 =>
    match o with
    | Done a => wp (f a) m1 (fun o' m' t2 => Q o' m' (t1 ++ t2))
    | Oops e => Q (Oops e) m1 t1
    end) ->
  wp (c ≫= f) m Q.
Proof.
  intros [t1 [Ht1 H]]. unfold wp, mbind, M_bind in *.
  destruct (c m) as [[a | e] m1]; simpl in *.
  - destruct H as [t2 [Ht2 H]]. exists (t1 ++ t2).
    rewrite Ht2, Ht1, app_assoc. done.
  - exists t1. done.
Qed.

Lemma wp_mono {A} (c : M A) m (Q Q' : outcome A -> machine -> list event -> Prop) :
  wp c m Q -> (forall o m' t, Q o m' t -> Q' o m' t) -> wp c m Q'.
Proof. intros [t [Ht H]] HQ. exists t. auto. Qed.

Lemma wp_and {A} (c : M A) m (Q Q' : outcome A -> machine -> list event -> Prop) :
  wp c m Q -> wp c m Q' -> wp c m (fun o m' t => Q o m' t /\ Q' o m' t).
Proof.
  intros [t [Ht H]] [t' [Ht' H']]. exists t. split; [done |].
  rewrite Ht in Ht'. apply app_inv_head in Ht'. subst. done.
Qed.

Lemma wp_run {A} (c : M A) m Q :
  wp c m Q -> Q (c m).1 (c m).2 (new_events m (c m).2).
Proof.
  intros [t [Ht H]]. unfold new_events. rewrite Ht, drop_app_length. done.
Qed.

Lemma emits_wp P {A} (c : M A) m : emits P c -> wp c m (fun _ _ t => Forall P t).
Proof. intros H. destruct (H m) as [t [Ht HP]]. exists t. done. Qed.

Lemma wp_bind_ret {A B} (a : A) (f : A -> M B) m Q :
  wp (f a) m Q -> wp (mret a ≫= f) m Q.
Proof. intros H. apply wp_bind, wp_ret. eapply wp_mono; [exact H | done]. Qed.

Lemma wp_bind_gets {A B} (g : machine -> A) (f : A -> M B) m Q :
  wp (f (g m)) m Q -> wp (gets g ≫= f) m Q.
Proof. intros H. exact H. Qed.

Lemma wp_bind_modify {B} g (f : unit -> M B) m Q :
  trace (g m) = trace m -> wp (f tt) (g m) Q -> wp (modify g ≫= f) m Q.
Proof.
  intros Ht [t [Ht' H]]. exists t. unfold mbind, M_bind, modify. simpl.
  rewrite Ht', Ht. done.
Qed.

Lemma wp_bind_emit {B} e (f : unit -> M B) m Q :
  wp (f tt) (set_trace (trace m ++ [e]) m) (fun o m' t => Q o m' (e :: t)) ->
  wp (emit e ≫= f) m Q.
Proof.
  intros [t [Ht H]]. exists (e :: t). unfold mbind, M_bind, emit, modify. simpl.
  rewrite Ht. simpl. rewrite <- app_assoc. done.
Qed.

Lemma wp_bind_rd {A B} (a : list A) i v (f : A -> M B) m Q :
  a !! i = Some v -> wp (f v) m Q -> wp (rd a (Z.of_nat i) ≫= f) m Q.
Proof.
  intros Hv H. unfold rd.
  destruct (Z.ltb_spec (Z.of_nat i) 0); [lia |].
  rewrite Nat2Z.id, Hv. by apply wp_bind_ret.
Qed.

Lemma wp_bind_wr {A B} (a : list A) i v (f : list A -> M B) m Q :
  (i < length a)%nat -> wp (f (<[i := v]> a)) m Q ->
  wp (wr a (Z.of_nat i) v ≫= f) m Q.
Proof.
  intros Hi H. unfold wr.
  destruct (Z.leb_spec 0 (Z.of_nat i)); [| lia].
  destruct (Z.ltb_spec (Z.of_nat i) (Z.of_nat (length a))); [| lia].
  simpl. rewrite Nat2Z.id. by apply wp_bind_ret.
Qed.

Lemma wp_bind_eq {A B} (c : M A) (f : A -> M B) m a m1 t1 Q :
  c m = (Done a, m1) -> trace m1 = trace m ++ t1 ->
  wp (f a) m1 (fun o m' t => Q o m' (t1 ++ t)) -> wp (c ≫= f) m Q.
Proof.
  intros Hc Ht [t [Ht' H]]. exists (t1 ++ t). unfold mbind, M_bind.
  rewrite Hc. by rewrite Ht', Ht, app_assoc.
Qed.

Ltac machine_simpl :=
  cbn [trace tlb free_pages mem_sections zone_device_data migrated_pages
       grow_script fault_script bd_data set_trace set_tlb set_free_pages
       set_mem_sections set_zone_device_data set_migrated_pages
       set_grow_script set_fault_script push_free_page].

Ltac wp_step :=
  lazymatch goal with
  | |- wp (mret _) _ _ => apply wp_ret
  | |- wp (oops _) _ _ => apply wp_oops
  | |- wp (emit _) _ _ => apply wp_emit
  | |- wp (pr_err _) _ _ => apply wp_emit
  | |- wp (gets _) _ _ => apply wp_gets
  | |- wp (modify _) _ _ => apply wp_modify; [reflexivity |]
  | |- wp (mbind _ (mret _)) _ _ => apply wp_bind_ret
  | |- wp (mbind _ (emit _)) _ _ => apply wp_bind_emit
  | |- wp (mbind _ (pr_err _)) _ _ => apply wp_bind_emit
  | |- wp (mbind _ (gets _)) _ _ => apply wp_bind_gets
  | |- wp (mbind _ (modify _)) _ _ => apply wp_bind_modify; [reflexivity |]
  end; machine_simpl.

(** ** The TLB walks end *)

Lemma same_pool_refl m : same_pool m m.
Proof. done. Qed.

Lemma tlb_unmap_loop_done huge pg n hp fuel : forall i v m,
  0 <= i < 2 ^ 31 -> 1 <= pg -> n + pg <= 2 ^ 31 -> n - i <= Z.of_nat fuel ->
  wp (tlb_unmap_loop fuel huge pg n hp i v) m
    (fun o m' _ => o = Done tt /\ same_pool m m').
Proof.
  induction fuel as [| fuel IH]; intros i v m Hi Hpg Hn Hf; simpl;
    rewrite (u32_small i) by lia.
  - destruct (Z.ltb_spec i n); [lia |]. by apply wp_ret.
  - destruct (Z.ltb_spec i n); [| by apply wp_ret].
    unfold create_tlb_unmapping. apply wp_bind, wp_bind_emit, wp_modify; [done |].
    simpl. rewrite s32_small by lia.
    eapply wp_mono; [apply IH; lia |]. simpl. intros o m' t [-> Hs]. done.
Qed.

Lemma tlb_invalidate_loop_done pg n hp fuel : forall i v m,
  0 <= i < 2 ^ 31 -> 1 <= pg -> n + pg <= 2 ^ 31 -> n - i <= Z.of_nat fuel ->
  wp (tlb_invalidate_loop fuel pg n hp i v) m
    (fun o m' _ => o = Done tt /\ same_pool m m').
Proof.
  induction fuel as [| fuel IH]; intros i v m Hi Hpg Hn Hf; simpl;
    rewrite (u32_small i) by lia.
  - destruct (Z.ltb_spec i n); [lia |]. by apply wp_ret.
  - destruct (Z.ltb_spec i n); [| by apply wp_ret].
    unfold invalidate_tlb_entry. apply wp_bind_emit.
    rewrite s32_small by lia.
    eapply wp_mono; [apply IH; lia |]. simpl. intros o m' t [-> Hs]. done.
Qed.

Lemma tlb_unmap_hmm_done v n hp huge m :
  tlb_walk_ok (bd_data m) n huge ->
  wp (tlb_unmap_hmm v n hp huge) m (fun o m' _ => o = Done tt /\ same_pool m m').
Proof.
  unfold tlb_walk_ok, tlb_unmap_hmm. intros [Hpg Hn].
  apply wp_bind_gets.
  set (pg := u32 _) in *. set (nm := u32 _) in *.
  assert (0 <= nm) by (apply Z.mod_pos_bound; lia).
  apply wp_bind.
  eapply wp_mono; [apply tlb_unmap_loop_done; lia |]. simpl.
  intros o m1 t [-> Hs].
  eapply wp_mono; [apply tlb_invalidate_loop_done; lia |]. simpl.
  intros o m2 t2 [-> Hs2]. split; [done |].
  unfold same_pool in *. intuition congruence.
Qed.

(** ** The allocator keeps the pool in order *)

Section Pool.
Context `{K : hmm_defs}.

Lemma In_chain_to p q l : In q (chain_to p l) -> In q l.
Proof.
  induction l as [| x l IH]; simpl; [done |].
  destruct (x =? p); simpl; intros [H | H]; auto. destruct H.
Qed.

Lemma chain_to_fresh p l : ~ In p l -> chain_to p l = l.
Proof.
  induction l as [| x l IH]; simpl; [done |]. intros H.
  destruct (Z.eqb_spec x p) as [-> | _]; [tauto |]. f_equal. tauto.
Qed.

Lemma push_chunk_pages_nonempty n : forall p m,
  free_pages m <> [] -> free_pages (push_chunk_pages n p m) <> [].
Proof. induction n as [| n IH]; intros p m H; simpl; [done |]. by apply IH. Qed.

Lemma push_chunk_pages_spec n : forall p m,
  let m' := push_chunk_pages n p m in
  mem_sections m' = mem_sections m /\ grow_script m' = grow_script m
  /\ tlb m' = tlb m /\ bd_data m' = bd_data m
  /\ (forall q, In q (free_pages m') ->
                In q (free_pages m) \/ p <= q < p + Z.of_nat n)
  /\ (n <> O -> free_pages m' <> []).
Proof.
  induction n as [| n IH]; intros p m; simpl.
  - repeat split; try done. auto.
  - destruct (IH (p + 1) (push_free_page p m)) as (H1 & H2 & H3 & H4 & H5 & H6).
    repeat split; try done.
    + intros q Hq. apply H5 in Hq. simpl in Hq.
      destruct Hq as [[<- | Hq] | Hq]; [right; lia | | right; lia].
      left. by apply In_chain_to in Hq.
    + intros _. by apply push_chunk_pages_nonempty.
Qed.

(** What freeing and releasing a page do. *)
Lemma cpu_free_private_page_run p m :
  in_chunks m p ->
  cpu_free_private_page p m
  = (Done tt, set_trace (trace m ++ [EvSpinLock page_lock; EvSpinUnlock page_lock])
                (push_free_page p m)).
Proof.
  unfold in_chunks, cpu_free_private_page, mbind, M_bind, gets. intros ->.
  unfold emit, modify. simpl. unfold set_trace. simpl. by rewrite <- app_assoc.
Qed.

Lemma put_page_run p m :
  put_page p m
  = if existsb (page_in_chunk p) (mem_sections m) then
      (Done tt, set_trace (trace m ++ [EvPutPage p; EvSpinLock page_lock;
                                       EvSpinUnlock page_lock])
                  (push_free_page p m))
    else (Done tt, set_trace (trace m ++ [EvPutPage p]) m).
Proof.
  unfold put_page, cpu_free_private_page, mbind, M_bind, gets, emit, modify. simpl.
  destruct (existsb _ _) eqn:E; simpl; [| done].
  rewrite E. unfold set_trace. simpl. by rewrite <- !app_assoc.
Qed.

Lemma is_thp_run k vma addr m :
  is_thp k vma addr m
  = if negb vma then (Oops NullDeref, m)
    else match k_get_user_pages_remote k addr with
         | None =>
             (Oops NullDeref,
              set_trace (trace m ++ [EvGetUserPagesRemote addr None]) m)
         | Some p => (Done (k_is_transparent_hugepage k p), after_is_thp m addr p)
         end.
Proof.
  unfold is_thp. destruct vma; [| done]. cbn [negb].
  destruct (k_get_user_pages_remote k addr) as [p |]; [| done].
  unfold mbind at 1, M_bind at 1. cbn [emit modify].
  unfold mbind, M_bind. rewrite put_page_run. machine_simpl.
  unfold after_is_thp, is_thp_calls, put_page_calls, released.
  destruct (existsb _ _); unfold set_trace; simpl; by rewrite <- app_assoc.
Qed.

Lemma is_thp_bind_run {B} k vma addr (f : bool -> M B) m :
  (is_thp k vma addr ≫= f) m
  = if negb vma then (Oops NullDeref, m)
    else match k_get_user_pages_remote k addr with
         | None =>
             (Oops NullDeref,
              set_trace (trace m ++ [EvGetUserPagesRemote addr None]) m)
         | Some p => f (k_is_transparent_hugepage k p) (after_is_thp m addr p)
         end.
Proof.
  unfold mbind at 1, M_bind at 1. rewrite is_thp_run.
  destruct vma; [| done]. cbn [negb].
  by destruct (k_get_user_pages_remote k addr).
Qed.

Lemma is_thp_calls_waits m addr p d t :
  waits_under_lock_from mmu_lock d (is_thp_calls m addr p ++ t)
  = waits_under_lock_from mmu_lock d t.
Proof. unfold is_thp_calls, put_page_calls. by destruct (existsb _ _). Qed.

Lemma is_thp_calls_quiet m addr p : Forall quiet (is_thp_calls m addr p).
Proof.
  unfold is_thp_calls, put_page_calls.
  destruct (existsb _ _); repeat constructor.
Qed.

Lemma trace_after_is_thp m addr p :
  trace (after_is_thp m addr p) = trace m ++ is_thp_calls m addr p.
Proof. reflexivity. Qed.

Lemma after_is_thp_fields m addr p :
  tlb (after_is_thp m addr p) = tlb m
  /\ bd_data (after_is_thp m addr p) = bd_data m
  /\ mem_sections (after_is_thp m addr p) = mem_sections m
  /\ migrated_pages (after_is_thp m addr p) = migrated_pages m.
Proof. unfold after_is_thp, released. by destruct (existsb _ _). Qed.

Lemma in_chunks_cons m p c l :
  mem_sections m = c :: l ->
  in_chunks m p <-> page_in_chunk p c = true \/ existsb (page_in_chunk p) l = true.
Proof. intros H. unfold in_chunks. rewrite H. simpl. apply orb_true_iff. Qed.

Lemma chunk_pages_pos : 0 <= PAGE_SHIFT <= 28 ->
  1 <= Z.shiftr DEVMEM_CHUNK_SIZE PAGE_SHIFT.
Proof.
  intros H. rewrite Z.shiftr_div_pow2 by lia.
  change DEVMEM_CHUNK_SIZE with (2 ^ 28).
  assert (0 < 2 ^ PAGE_SHIFT) by (apply Z.pow_pos_nonneg; lia).
  assert (2 ^ PAGE_SHIFT <= 2 ^ 28) by (apply Z.pow_le_mono_r; lia).
  apply Z.div_le_lower_bound; lia.
Qed.

Lemma alloc_private_page_spec m :
  0 <= PAGE_SHIFT <= 28 -> pool_ok m ->
  wp alloc_private_page m (fun o m' _ =>
    exists r, o = Done r /\ pool_ok m' /\ pool_step m m'
      /\ match r with Some p => in_chunks m' p | None => True end).
Proof.
  intros HPS [Hfree Hgrow]. unfold alloc_private_page.
  apply wp_bind_gets. destruct (free_pages m) as [| p rest] eqn:Hfp.
  - (* the free list is empty: grow *)
    unfold alloc_new_prvt_pages. apply wp_bind. wp_step.
    set (g := List.hd no_memory (grow_script m)).
    assert (Hg : grow_fair g /\ Forall grow_fair (List.tl (grow_script m))).
    { subst g. destruct (grow_script m); simpl.
      - split; [| done]. intros Hk. discriminate Hk.
      - by apply Forall_cons_1 in Hgrow. }
    destruct Hg as [Hg Htl].
    do 2 wp_step.
    destruct (kzalloc_ok g) eqn:Hk; simpl.
    + wp_step.
      destruct (region g) as [start |] eqn:Hr.
      * wp_step.
        destruct (memremap_ok g) eqn:Hm; simpl.
        2: { assert (memremap_ok g = true) by (apply Hg; [done | rewrite Hr; eauto]).
             congruence. }
        do 4 wp_step.
        apply wp_bind_modify; [apply push_chunk_pages_trace |].
        set (c := {| range_start := start; range_end := start + DEVMEM_CHUNK_SIZE - 1 |}).
        set (n := Z.to_nat _). set (p0 := pfn_to_page _).
        match goal with |- wp _ (push_chunk_pages n p0 ?x) _ => set (m0 := x) end.
        destruct (push_chunk_pages_spec n p0 m0) as (H1 & H2 & H3 & H4 & H5 & H6).
        simpl in H1, H2, H3, H4, H5, H6.
        assert (Hlen : range_len c = DEVMEM_CHUNK_SIZE)
          by (subst c; unfold range_len; cbn [range_start range_end]; lia).
        assert (Hn : n <> O).
        { subst n. rewrite Hlen. pose proof (chunk_pages_pos HPS). lia. }
        wp_step. apply wp_ret. simpl. do 2 wp_step.
        rewrite push_chunk_pages_trace.
        destruct (free_pages (push_chunk_pages n p0 m0)) as [| q rest] eqn:Hq;
          [by apply H6 in Hn |].
        do 3 wp_step. apply wp_ret.
        exists (Some q). split; [done |].
        assert (Hin : forall x, In x (q :: rest) -> in_chunks m0 x).
        { intros x Hx. apply H5 in Hx. rewrite Hfp in Hx.
          destruct Hx as [[] | Hx].
          unfold in_chunks. simpl. apply orb_true_iff. left.
          unfold page_in_chunk. fold c. rewrite Hlen.
          subst n p0. unfold pfn_to_page in *. rewrite Hlen in Hx.
          rewrite Z2Nat.id in Hx by (pose proof (chunk_pages_pos HPS); lia).
          subst c. cbn [range_start].
          apply andb_true_iff. split; [apply Z.leb_le | apply Z.ltb_lt]; lia. }
        unfold pool_ok, pool_step, in_chunks in *. machine_simpl.
        rewrite ?H1, ?H2, ?H3, ?H4. simpl in *.
        repeat split; try done.
        -- apply List.Forall_forall. intros x Hx. apply (Hin x). by right.
        -- intros x Hx. apply orb_true_iff. by right.
        -- apply (Hin q). by left.
      * do 2 wp_step. apply wp_ret. simpl.
        do 2 wp_step. apply wp_ret.
        exists None. unfold pool_ok, pool_step, in_chunks. machine_simpl.
        rewrite Hfp. repeat split; try done.
    + wp_step. apply wp_ret. simpl.
      do 2 wp_step. apply wp_ret.
      exists None. unfold pool_ok, pool_step, in_chunks. machine_simpl.
      rewrite Hfp. repeat split; try done.
  - (* a free page is at hand *)
    apply wp_bind_ret. simpl. do 2 wp_step. rewrite Hfp.
    do 3 wp_step. apply wp_ret.
    exists (Some p). apply Forall_cons_1 in Hfree as [Hp Hrest].
    unfold pool_ok, pool_step, in_chunks in *. machine_simpl.
    repeat split; try done.
Qed.

End Pool.

(** ** Staging and its undoing, card direction *)

Lemma benign_no_failure t :
  Forall (fun e => benign e = true) t ->
  existsb alloc_failure t = false /\ existsb is_tlb_mapping t = false
  /\ forall p, ~ In (EvLockPage p) t.
Proof.
  induction 1 as [| e t He Ht IH]; simpl; [repeat split; auto |].
  destruct IH as (H1 & H2 & H3). apply benign_spec in He as (_ & Hm & Ha & Hl).
  rewrite Ha, Hm, H1, H2. repeat split; try done.
  intros p [He | Hp]; [subst e; discriminate Hl | by apply (H3 p)].
Qed.

Ltac splits := repeat match goal with |- _ /\ _ => split end.

Lemma staged_dst_nonzero s p : staged_dst s p <> 0.
Proof.
  unfold staged_dst. destruct (_ =? 0); intros H.
  - apply Z.lor_eq_0_iff in H as [_ H]. discriminate H.
  - apply Z.lor_eq_0_iff in H as [_ H]. discriminate H.
Qed.

Section Card.
Context `{K : hmm_defs} (k : kernel).
Context (HPS : 0 <= PAGE_SHIFT <= 28).

Lemma pool_step_trans m1 m2 m3 : pool_step m1 m2 -> pool_step m2 m3 -> pool_step m1 m3.
Proof. unfold pool_step. intros (? & ? & ?) (? & ? & ?). repeat split; try congruence. auto. Qed.

Lemma stage_post_step i st m st1 m1 t1 t2 t o m' :
  t = t1 ++ t2 ->
  pool_step m m1 ->
  length (dst st1) = length (dst st) ->
  (forall j, (j < i)%nat ->
     dst st1 !! j = dst st !! j /\ dpages st1 !! j = dpages st !! j) ->
  dpages_fail st1 = dpages_fail st || existsb alloc_failure t1 ->
  (forall p, In (EvLockPage p) t1 ->
     exists v, dpages st1 !! i = Some (Some p) /\ dst st1 !! i = Some v /\ v <> 0) ->
  stage_post (S i) st1 m1 o m' t2 ->
  stage_post i st m o m' t.
Proof.
  intros -> Hstep Hlen Hlow Hfail Hlock
    (st' & -> & Hpool & Hstep' & Hst & Hlen' & Hlow' & Hfail' & Hlock').
  exists st'.
  split; [done |]. split; [done |].
  split; [by eapply pool_step_trans |].
  split; [done |]. split; [congruence |].
  split; [| split].
  - intros j Hj. destruct (Hlow' j ltac:(lia)) as [-> ->]. by apply Hlow.
  - rewrite Hfail', Hfail, existsb_app. by rewrite orb_assoc.
  - intros p Hp. apply in_app_iff in Hp as [Hp | Hp].
    + destruct (Hlock p Hp) as (v & Hd & Hv & Hnz).
      destruct (Hlow' i ltac:(lia)) as [Hd' Hv'].
      exists i, v. rewrite Hd', Hv'. done.
    + destruct (Hlock' p Hp) as (j & v & Hj & ?). exists j, v. split; [lia | done].
Qed.

Lemma host_ptw_spec va hp m :
  wp (host_ptw k va hp) m (fun o m' t =>
    exists r, o = Done r /\ m' = set_trace (trace m ++ t) m
              /\ Forall (fun e => benign e = true) t).
Proof.
  unfold host_ptw. destruct (k_page_tables k va hp) as [p | l].
  - apply wp_ret. exists (Some p). rewrite app_nil_r. by destruct m.
  - apply wp_bind_emit, wp_ret. exists None. repeat split; try done.
    apply Forall_cons. split; [by destruct l | done].
Qed.

Lemma to_card_stage_spec args src n : forall i st m,
  pool_ok m -> staged_ok m st ->
  (i + n <= length src)%nat -> (i + n <= length (dst st))%nat ->
  (forall j v, (i <= j)%nat -> dst st !! j = Some v -> v = 0) ->
  wp (to_card_stage k n args src (Z.of_nat i) st) m (stage_post i st m).
Proof.
  induction n as [| n IH]; intros i st m Hpool Hst Hsrc Hdst Hzero; cbn [to_card_stage].
  - apply wp_ret. exists st. unfold pool_step. rewrite orb_false_r.
    splits; try done; auto.
  - destruct Hst as (Hls & Hld & Hst).
    destruct (lookup_lt_is_Some_2 src i ltac:(lia)) as [s Hs].
    eapply wp_bind_rd; [exact Hs |].
    replace (Z.of_nat i + 1) with (Z.of_nat (S i)) by lia.
    destruct (Z.land s MIGRATE_PFN_MIGRATE =? 0).
    + (* not movable: page table walk *)
      apply wp_bind. eapply wp_mono; [apply host_ptw_spec |].
      intros o m1 t1 (r & -> & -> & Hb). apply benign_no_failure in Hb as (Hf & _ & Hl).
      apply wp_bind_wr; [lia |].
      eapply wp_mono; [apply IH |]; cbn [dst spages dpages dpages_fail].
      * done.
      * repeat split; cbn [dst spages dpages]; rewrite ?length_insert; try done.
        intros j v Hj Hv. destruct (Hst j v Hj Hv) as (p & Hp & Hc).
        exists p. split; [| done]. rewrite list_lookup_insert_ne; [done |].
        intros <-. apply Hv. eapply Hzero; [| exact Hj]. lia.
      * lia.
      * simpl. lia.
      * intros j v Hj. apply Hzero. lia.
      * intros o m' t2 Hpost.
        eapply (stage_post_step i st m) with (t1 := t1) (7 := Hpost);
          [reflexivity | | | | | ]; cbn [dst spages dpages dpages_fail].
        -- done.
        -- done.
        -- intros j Hj. split; [done |]. apply list_lookup_insert_ne. lia.
        -- by rewrite Hf, orb_false_r.
        -- intros p Hp. by apply Hl in Hp.
    + (* movable: a device page is allocated *)
      apply wp_bind_wr; [lia |].
      apply wp_bind.
      eapply wp_mono;
        [apply wp_and;
           [apply (alloc_private_page_spec m HPS Hpool)
           | apply emits_wp, (alloc_private_page_emits (fun e => benign e = true)); auto] |].
      intros o m1 t1 [(r & -> & Hpool1 & Hstep1 & Hr) Hb].
      apply benign_no_failure in Hb as (Hf & _ & Hl).
      apply wp_bind_wr; [lia |].
      destruct r as [p |].
      * do 2 wp_step. apply wp_bind_wr; [lia |].
        eapply wp_mono; [apply IH |]; cbn [dst spages dpages dpages_fail].
        -- done.
        -- repeat split; cbn [dst spages dpages]; rewrite ?length_insert; try done.
           intros j v Hj Hv. destruct (decide (j = i)) as [-> | Hne].
           ++ exists p. split; [| done]. apply list_lookup_insert_eq. lia.
           ++ rewrite list_lookup_insert_ne in Hj by done.
              destruct (Hst j v Hj Hv) as (q & Hq & Hc). exists q.
              rewrite list_lookup_insert_ne by done. split; [done |].
              by apply Hstep1.
        -- lia.
        -- simpl. rewrite length_insert. lia.
        -- intros j v Hj. rewrite list_lookup_insert_ne by lia. apply Hzero. lia.
        -- intros o m' t2 Hpost.
           eapply (stage_post_step i st m) with
             (t1 := t1 ++ [EvGetPage p; EvLockPage p]) (7 := Hpost);
             [by rewrite <- app_assoc | | | | | ]; cbn [dst spages dpages dpages_fail].
           ++ done.
           ++ by rewrite length_insert.
           ++ intros j Hj. split; apply list_lookup_insert_ne; lia.
           ++ rewrite existsb_app, Hf. simpl. by rewrite orb_false_r.
           ++ intros q Hq. apply in_app_iff in Hq as [Hq | Hq]; [by apply Hl in Hq |].
              destruct Hq as [Hq | [Hq | []]]; [discriminate Hq |]. injection Hq as <-.
              exists (staged_dst s p). repeat split.
              ** apply list_lookup_insert_eq. lia.
              ** apply list_lookup_insert_eq. lia.
              ** apply staged_dst_nonzero.
      * wp_step.
        eapply wp_mono; [apply IH |]; cbn [dst spages dpages dpages_fail].
        -- done.
        -- repeat split; cbn [dst spages dpages]; rewrite ?length_insert; try done.
           intros j v Hj Hv. destruct (Hst j v Hj Hv) as (q & Hq & Hc).
           exists q. split; [| by apply Hstep1].
           rewrite list_lookup_insert_ne; [done |].
           intros <-. apply Hv. eapply Hzero; [| exact Hj]. lia.
        -- lia.
        -- simpl. lia.
        -- intros j v Hj. apply Hzero. lia.
        -- intros o m' t2 Hpost.
           eapply (stage_post_step i st m) with
             (t1 := t1 ++ [EvPrErr "failed to allocate a device private page"])
             (7 := Hpost);
             [by rewrite <- app_assoc | | | | | ]; cbn [dst spages dpages dpages_fail].
           ++ done.
           ++ done.
           ++ intros j Hj. split; [done |]. apply list_lookup_insert_ne. lia.
           ++ rewrite existsb_app. simpl. by rewrite !orb_true_r.
           ++ intros q Hq. apply in_app_iff in Hq as [Hq | Hq]; [by apply Hl in Hq |].
              destruct Hq as [Hq | []]. discriminate Hq.
Qed.

End Card.

Section Undo.
Context `{K : hmm_defs}.

Lemma undo_staging_spec dp n : forall i d m,
  length dp = length d -> (i + n <= length d)%nat ->
  (forall j v, d !! j = Some v -> v <> 0 ->
     exists p, dp !! j = Some (Some p) /\ in_chunks m p) ->
  wp (undo_staging n (Z.of_nat i) dp d) m (undo_post i n dp d m).
Proof.
  induction n as [| n IH]; intros i d m Hlen Hn Hst; cbn [undo_staging].
  - apply wp_ret. exists d. splits; try done; try (intros; lia).
    left. split; [done | intros; lia].
  - destruct (lookup_lt_is_Some_2 dp i ltac:(lia)) as [x Hx].
    destruct (lookup_lt_is_Some_2 d i ltac:(lia)) as [v Hv].
    eapply wp_bind_rd; [exact Hx |].
    replace (Z.of_nat i + 1) with (Z.of_nat (S i)) by lia.
    assert (Hskip : (x = None \/ v = 0) ->
      wp (undo_staging n (Z.of_nat (S i)) dp d) m (undo_post i (S n) dp d m)).
    { intros Hxv. eapply wp_mono; [apply (IH (S i) d m); [done | lia | done] |].
      intros o m' t (d' & -> & Hl & Hz & Hlow & Ht & Hs & Hu & Hf).
      assert (Hv0 : v = 0).
      { destruct Hxv as [-> | ->]; [| done].
        destruct (decide (v = 0)) as [| Hne]; [done |].
        destruct (Hst i v Hv Hne) as (p & Hp & _). congruence. }
      subst v. exists d'. splits; try done.
      - intros j Hj. destruct (decide (j = i)) as [-> | Hne].
        + rewrite Hlow by lia. done.
        + apply Hz. lia.
      - intros j Hj. apply Hlow. lia.
      - intros j p v Hj Hp Hd Hnz. destruct (decide (j = i)) as [-> | Hne].
        + congruence.
        + apply (Hu j p v); [lia | done..].
      - destruct Hf as [[Hf Hno] | Hf]; [left | by right].
        split; [done |]. intros j p v Hj Hp Hd.
        destruct (decide (j = i)) as [-> | Hne]; [congruence |].
        apply (Hno j p v); [lia | done..]. }
    destruct x as [pg |]; [| apply Hskip; by left].
    eapply wp_bind_rd; [exact Hv |].
    destruct (Z.eqb_spec v 0) as [-> | Hnz]; [apply Hskip; by right |].
    destruct (Hst i v Hv Hnz) as (p & Hp & Hc).
    assert (p = pg) by congruence. subst p.
    wp_step.
    eapply wp_bind_eq; [rewrite put_page_run; machine_simpl; unfold in_chunks in Hc;
                        rewrite Hc; reflexivity | by machine_simpl |].
    eapply wp_bind_eq; [apply cpu_free_private_page_run; exact Hc | by machine_simpl |].
    apply wp_bind_wr; [lia |].
    match goal with |- wp _ ?x _ => set (m1 := x) end.
    eapply wp_mono; [apply (IH (S i) (<[i := 0]> d) m1) |].
    + by rewrite length_insert.
    + rewrite length_insert. lia.
    + intros j w Hj Hw. destruct (decide (j = i)) as [-> | Hne].
      * rewrite list_lookup_insert_eq in Hj by lia. congruence.
      * rewrite list_lookup_insert_ne in Hj by done.
        destruct (Hst j w Hj Hw) as (p & ? & ?). exists p. done.
    + intros o m' t (d' & -> & Hl & Hz & Hlow & Ht & Hs & Hu & Hf).
      exists d'. splits.
      * done.
      * by rewrite Hl, length_insert.
      * intros j Hj. destruct (decide (j = i)) as [-> | Hne].
        -- rewrite Hlow by lia. apply list_lookup_insert_eq. lia.
        -- apply Hz. lia.
      * intros j Hj. rewrite Hlow by lia. apply list_lookup_insert_ne. lia.
      * done.
      * done.
      * intros j p w Hj Hpj Hd Hw. destruct (decide (j = i)) as [-> | Hne].
        -- assert (p = pg) by congruence. subst p. split; simpl; auto.
        -- destruct (Hu j p w) as (H1 & H2); [lia | done | | done |].
           ++ by rewrite list_lookup_insert_ne.
           ++ split; simpl; rewrite ?in_app_iff; simpl; auto 10.
      * right. destruct Hf as [[Hf _] | (q & Hq & Hf)].
        -- exists pg. split; [simpl; auto |]. rewrite Hf. subst m1. machine_simpl.
           cbn [chain_to]. by rewrite Z.eqb_refl.
        -- exists q. split; [| done]. simpl. rewrite ?in_app_iff. simpl. auto 10.
Qed.

End Undo.

(** ** A failed allocation aborts the migration to card *)

Lemma wp_self {A} (c : M A) m Q :
  wp c m Q -> wp c m (fun o m' t => Q o m' t /\ (o, m') = c m).
Proof.
  intros [t [Ht H]]. exists t. split; [done |]. split; [done |]. by destruct (c m).
Qed.

Lemma tlb_unmap_loop_tlb huge pg n hp fuel : forall i v m1 m2,
  tlb m1 = tlb m2 ->
  tlb (tlb_unmap_loop fuel huge pg n hp i v m1).2
  = tlb (tlb_unmap_loop fuel huge pg n hp i v m2).2.
Proof.
  induction fuel as [| fuel IH]; intros i v m1 m2 Ht; simpl;
    destruct (u32 i <? n); try done.
  unfold mbind, M_bind. simpl. apply IH. simpl. by rewrite Ht.
Qed.

Lemma tlb_invalidate_loop_tlb pg n hp fuel : forall i v m,
  tlb (tlb_invalidate_loop fuel pg n hp i v m).2 = tlb m.
Proof.
  induction fuel as [| fuel IH]; intros i v m; simpl;
    destruct (u32 i <? n); try done.
  unfold mbind, M_bind. simpl. by rewrite IH.
Qed.

Lemma tlb_unmap_hmm_tlb v n hp huge m1 m2 :
  bd_data m1 = bd_data m2 -> tlb m1 = tlb m2 ->
  tlb (tlb_unmap_hmm v n hp huge m1).2 = tlb (tlb_unmap_hmm v n hp huge m2).2.
Proof.
  intros Hbd Ht. unfold tlb_unmap_hmm, mbind, M_bind, gets. rewrite Hbd.
  set (f := tlb_unmap_loop _ _ _ _ _ _ _).
  pose proof (tlb_unmap_loop_tlb huge
    (u32 (if huge then n_pages_in_huge (bd_data m2) else 1))
    (u32 (if huge then Z.shiftr (u32 n) (dif_order_page_shift (bd_data m2)) else u32 n))
    hp
    (Z.to_nat (u32 (if huge then Z.shiftr (u32 n) (dif_order_page_shift (bd_data m2)) else u32 n)))
    0 (u64 v) m1 m2 Ht) as H.
  fold f in H.
  destruct (f m1) as [[[] | c1] m1'], (f m2) as [[[] | c2] m2']; simpl in *;
    rewrite ?tlb_invalidate_loop_tlb; done.
Qed.

Lemma existsb_false_Forall {A} (f : A -> bool) l :
  Forall (fun x => f x = false) l -> existsb f l = false.
Proof. induction 1 as [| x l Hx Hl IH]; simpl; [done |]. by rewrite Hx, IH. Qed.

Lemma lookup_zeroed {A} (z : A) n j v : zeroed z n !! j = Some v -> v = z.
Proof. unfold zeroed. intros H. apply lookup_replicate in H. tauto. Qed.

Lemma length_zeroed {A} (z : A) n : length (zeroed z n) = Z.to_nat n.
Proof. apply length_replicate. Qed.

Lemma benign_no_alloc_failure e : benign e = true -> alloc_failure e = false.
Proof. intros H. apply benign_spec in H. tauto. Qed.

Section CardAbort.
Context `{K : hmm_defs} (k : kernel).

#[local] Hint Resolve benign_no_alloc_failure tlb_map_hmm_emits : emits.
#[local] Hint Extern 2 (forall e, _ -> _ -> alloc_failure e = false) =>
  (intros; assumption) : emits.

Lemma pool_ok_same m m' : same_pool m m' -> pool_ok m -> pool_ok m'.
Proof.
  unfold same_pool, pool_ok, in_chunks. intros (-> & -> & -> & _). done.
Qed.

Lemma fpga_migrate_to_card_abort args m src cpages :
  0 <= PAGE_SHIFT <= 28 ->
  staging_ready k args MIGRATE_VMA_SELECT_SYSTEM src cpages ->
  tlb_walk_ok (bd_data m) (n_pages args) (hugepages args) ->
  pool_ok m ->
  wp (fpga_migrate_to_card k args) m (card_abort args m).
Proof.
  intros HPS (Hb1 & Hb2 & Hb3 & Hb4 & Hvma & Hsetup & Hlen) Hwalk Hpool.
  unfold fpga_migrate_to_card.
  rewrite Hb1, Hb2, Hb3, Hb4, Hvma, Hsetup. cbn [negb].
  wp_step. cbn [Z.eqb negb].
  apply wp_bind.
  eapply wp_mono;
    [apply wp_and;
       [apply wp_self, tlb_unmap_hmm_done; exact Hwalk
       | apply emits_wp, (tlb_unmap_hmm_emits (fun e => benign e = true)); auto] |].
  intros o m1 t1 [[[-> Hsame] Hrun] Hb1'].
  apply benign_no_failure in Hb1' as (Hf1 & Hm1 & Hl1).
  apply wp_bind.
  eapply wp_mono;
    [apply wp_and;
       [apply (to_card_stage_spec k HPS args src (Z.to_nat (n_pages args)) 0)
       | apply emits_wp,
           (to_card_stage_emits k (fun e => is_tlb_mapping e = false)); auto] |].
  - by apply (pool_ok_same _ m1) in Hpool.
  - unfold staged_ok. cbn [dst spages dpages]. rewrite !length_zeroed. splits; try done.
    intros j v Hj Hv. by apply lookup_zeroed in Hj.
  - lia.
  - cbn [dst]. rewrite length_zeroed. lia.
  - intros j v _ Hj. by apply lookup_zeroed in Hj.
  - intros o m2 t2 [(st & -> & Hpool2 & Hstep2 & Hst2 & Hlen2 & _ & Hfail & Hlock) Hm2].
    apply existsb_false_Forall in Hm2.
    cbn [dpages_fail orb dst] in Hfail, Hlen2. rewrite length_zeroed in Hlen2.
    destruct Hst2 as (_ & Hld & Hst2).
    destruct (dpages_fail st).
    + (* the undo block *)
      wp_step. apply wp_bind.
      eapply wp_mono;
        [apply wp_and;
           [apply (undo_staging_spec (dpages st) (Z.to_nat (n_pages args)) 0 (dst st));
              [done | lia | exact Hst2]
           | apply emits_wp, (undo_staging_emits (fun e => benign e = true)); auto] |].
      intros o m3 t3 [(d & -> & Hl & Hz & _ & Htlb & Hsec & Hun & Hfree) Hb3'].
      apply benign_no_failure in Hb3' as (Hf3 & Hm3 & Hl3).
      do 3 wp_step. apply wp_ret.
      intros Hex.
      lazymatch goal with
      | |- _ /\ existsb is_tlb_mapping ?T = false /\ _ =>
          assert (Hlk : forall p, In (EvLockPage p) T ->
                    exists j v, (j < Z.to_nat (n_pages args))%nat
                      /\ dpages st !! j = Some (Some p)
                      /\ dst st !! j = Some v /\ v <> 0)
      end.
      { intros p Hp. simpl in Hp. destruct Hp as [Hp | Hp]; [discriminate Hp |].
        apply in_app_iff in Hp as [Hp | Hp]; [by apply Hl1 in Hp |].
        apply in_app_iff in Hp as [Hp | Hp].
        - destruct (Hlock p Hp) as (j & v & _ & Hd & Hv & Hnz).
          apply lookup_lt_Some in Hd as Hj. exists j, v. split; [lia | done].
        - simpl in Hp. destruct Hp as [Hp | Hp]; [discriminate Hp |].
          apply in_app_iff in Hp as [Hp | Hp]; [by apply Hl3 in Hp |].
          simpl in Hp. by repeat (destruct Hp as [Hp | Hp]; [discriminate Hp |]). }
      splits.
      * done.
      * simpl. rewrite !existsb_app. simpl. rewrite !existsb_app. simpl.
        by rewrite Hm1, Hm2, Hm3.
      * machine_simpl. rewrite Htlb. machine_simpl. destruct Hstep2 as (-> & _).
        change m1 with ((Done (), m1).2). rewrite Hrun.
        by apply tlb_unmap_hmm_tlb.
      * intros p Hp. destruct (Hlk p Hp) as (j & v & Hj & Hd & Hv & Hnz).
        destruct (Hun j p v) as (H1 & H2); [lia | done..|].
        split; simpl; right;
          rewrite !in_app_iff; simpl; rewrite !in_app_iff; auto 10.
      * intros (p & Hp). destruct (Hlk p Hp) as (j & v & Hj & Hd & Hv & Hnz).
        destruct Hfree as [[_ Hno] | (q & Hq & Hfree)].
        -- exfalso. apply Hnz. apply (Hno j p v); [lia | done..].
        -- exists q. machine_simpl. split; [| done]. simpl. right.
           rewrite !in_app_iff; simpl; rewrite !in_app_iff; auto 10.
      * exists (EvMigrateVmaSetup (u64 (vaddr args))
                  (u64 (vaddr args + u64 (Z.shiftl (n_pages args) PAGE_SHIFT)))
                  MIGRATE_VMA_SELECT_SYSTEM
                :: t1 ++ t2 ++
                   EvPrErr "invalidating all destination page entries" :: t3), d.
        split.
        -- simpl. by rewrite <- !app_assoc.
        -- apply Forall_lookup. intros j x Hj.
           apply lookup_lt_Some in Hj as Hlt.
           rewrite Hz in Hj by lia. congruence.
    + (* no allocation failed: the hypothesis of the claim is absent *)
      eapply wp_mono;
        [apply (emits_wp (fun e => alloc_failure e = false)); unfold pr_err; emits_go |].
      intros o m' t3 H3 Hex. exfalso.
      apply existsb_false_Forall in H3.
      simpl in Hex. rewrite !existsb_app in Hex.
      rewrite Hf1, <- Hfail, H3 in Hex. discriminate Hex.
Qed.
End CardAbort.

(** ** Runs that may stop at any access *)

Lemma wp_bind_oops {A B} c (f : A -> M B) m Q :
  Q (Oops c) m [] -> wp (oops c ≫= f) m Q.
Proof. intros H. by apply wp_bind, wp_oops. Qed.

Lemma wp_bind_rd_any {A B} (a : list A) i (f : A -> M B) m Q :
  (forall v, wp (f v) m Q) -> Q (Oops OutOfBounds) m [] -> wp (rd a i ≫= f) m Q.
Proof.
  intros Hf Ho. unfold rd. destruct (i <? 0); [by apply wp_bind_oops |].
  destruct (a !! Z.to_nat i); [by apply wp_bind_ret | by apply wp_bind_oops].
Qed.

Lemma wp_bind_wr_any {A B} (a : list A) i v (f : list A -> M B) m Q :
  (forall a', wp (f a') m Q) -> Q (Oops OutOfBounds) m [] ->
  wp (wr a i v ≫= f) m Q.
Proof.
  intros Hf Ho. unfold wr.
  destruct (_ && _); [by apply wp_bind_ret | by apply wp_bind_oops].
Qed.


(** ** The host-fault loop *)

Lemma host_fault_loop_refines script start end_ pfns m r c pfns' m' :
  host_fault_loop script start end_ pfns m = (Done (r, c, pfns'), m') ->
  rtc (fault_step start end_)
    (FaultAndFence script pfns, trace m) (Leave r c pfns', trace m').
Proof.
  revert pfns m. induction script as [| e s IH]; intros pfns m; simpl.
  - discriminate.
  - destruct (fe_time_after e) eqn:Ht.
    + intros [= <- <- <- <-]. apply rtc_once. by constructor.
    + unfold mbind, M_bind, emit, modify, mret, M_ret. simpl. intros H.
      eapply rtc_l; [by apply step_fault |].
      rewrite <- app_assoc in H. simpl in H.
      destruct (Z.eqb_spec (fe_fault_ret e) 0) as [H0 | H0]; simpl in H.
      * destruct (fe_read_retry e) eqn:Hr.
        -- eapply rtc_l; [by apply step_stale |]. by apply IH in H.
        -- injection H as <- <- <- <-. apply rtc_once. by apply step_commit.
      * destruct (Z.eqb_spec (fe_fault_ret e) (- EBUSY)) as [Hb | Hb].
        -- eapply rtc_l; [by apply step_contention |]. by apply IH in H.
        -- injection H as <- <- <- <-. apply rtc_once. by apply step_error.
Qed.

Lemma host_fault_loop_bounded script start end_ pfns m :
  Exists (fun e => fe_time_after e = true) script ->
  exists r m', host_fault_loop script start end_ pfns m = (Done r, m').
Proof.
  intros H. revert pfns m. induction H as [e s He | e s He IH]; intros pfns m; simpl.
  - rewrite He. eauto.
  - destruct (fe_time_after e); [eauto |].
    unfold mbind, M_bind, emit, modify, mret, M_ret. simpl.
    destruct (Z.eqb_spec (fe_fault_ret e) 0); simpl.
    + destruct (fe_read_retry e); [apply IH | eauto].
    + destruct (Z.eqb_spec (fe_fault_ret e) (- EBUSY)); [apply IH | eauto].
Qed.

(** ** The cap of the install loop *)

Lemma emits_bind_rd P {A B} (a : list A) i (f : A -> M B) :
  (forall v, 0 <= i -> a !! Z.to_nat i = Some v -> emits P (f v)) ->
  emits P (rd a i ≫= f).
Proof.
  intros H m. unfold mbind, M_bind, rd.
  destruct (Z.ltb_spec i 0).
  { exists []. simpl. by rewrite app_nil_r. }
  destruct (a !! Z.to_nat i) as [v |] eqn:Hv.
  - exact (H v ltac:(lia) eq_refl m).
  - exists []. simpl. by rewrite app_nil_r.
Qed.

Lemma tlb_map_loop_capped `{K : hmm_defs} fuel huge pg n pa host ct hp :
  forall i v,
  emits (from_capped_slot pa) (tlb_map_loop fuel huge pg n pa host ct hp i v).
Proof.
  induction fuel as [| fuel IH]; intros i v; simpl.
  - destruct (_ && _); [apply emits_oops | apply emits_ret].
  - destruct (u32 i <? n); simpl; [| apply emits_ret].
    destruct (Z.ltb_spec i MAX_N_MAP_PAGES); [| apply emits_ret].
    apply emits_bind_rd. intros p Hi Hp.
    destruct (Z.eqb_spec p 0); [apply IH |].
    unfold create_tlb_mapping.
    apply emits_bind; [| intros; apply IH].
    apply emits_bind; [| intros; apply emits_modify; reflexivity].
    apply emits_emit. eexists i, _. split; [reflexivity |]. simpl. auto.
Qed.

Lemma tlb_map_hmm_capped `{K : hmm_defs} v pa n host ct hp huge :
  emits (from_capped_slot pa) (tlb_map_hmm v pa n host ct hp huge).
Proof.
  unfold tlb_map_hmm. apply emits_bind; [apply emits_gets |].
  intros bd. apply tlb_map_loop_capped.
Qed.

(** ** Removal in regular granularity *)

Lemma tlb_unmap_loop_walks n hp fuel : forall i v m,
  0 <= i <= n -> n < 2 ^ 31 -> n - i <= Z.of_nat fuel -> u64 v = v ->
  wp (tlb_unmap_loop fuel false 1 n hp i v) m
    (fun o _ t => o = Done tt
       /\ forall j, i <= j < n ->
            In (EvCreateTlbUnmapping false (u64 (v + (j - i))) hp) t).
Proof.
  induction fuel as [| fuel IH]; intros i v m Hi Hn Hf Hv; simpl;
    rewrite (u32_small i) by lia.
  - destruct (Z.ltb_spec i n); [lia |]. apply wp_ret. split; [done | intros; lia].
  - destruct (Z.ltb_spec i n); [| apply wp_ret; split; [done | intros; lia]].
    unfold create_tlb_unmapping. apply wp_bind, wp_bind_emit, wp_modify; [done |].
    simpl. rewrite s32_small by lia.
    eapply wp_mono; [apply IH; [lia | lia | lia |] |].
    { unfold u64. apply Z.mod_mod. lia. }
    simpl. intros o m' t [-> Hw].
    split; [done |]. intros j Hj.
    destruct (Z.eq_dec j i) as [-> | Hne].
    + left. by rewrite Z.sub_diag, Z.add_0_r, Hv.
    + right. specialize (Hw j ltac:(lia)).
      replace (u64 (u64 (v + 1) + (j - (i + 1)))) with (u64 (v + (j - i))) in Hw;
        [exact Hw |].
      unfold u64. rewrite Zplus_mod_idemp_l. f_equal. lia.
Qed.

Lemma tlb_unmap_hmm_regular_walks `{K : hmm_defs} v n hp m :
  0 <= n < 2 ^ 31 ->
  wp (tlb_unmap_hmm v n hp false) m
    (fun o _ t => o = Done tt
       /\ forall j, 0 <= j < n ->
            In (EvCreateTlbUnmapping false (u64 (v + j)) hp) t).
Proof.
  intros Hn. unfold tlb_unmap_hmm. apply wp_bind_gets.
  rewrite (u32_small 1), !(u32_small n) by lia.
  apply wp_bind.
  eapply wp_mono;
    [apply (tlb_unmap_loop_walks n hp _ 0 (u64 v)); try lia;
     unfold u64; apply Z.mod_mod; lia |].
  simpl. intros o m1 t [-> Hw].
  eapply wp_mono; [apply (tlb_invalidate_loop_done 1 n hp _ 0); lia |].
  simpl. intros o m2 t2 [-> _]. split; [done |].
  intros j Hj. apply in_or_app. left.
  specialize (Hw j Hj). rewrite Z.sub_0_r in Hw.
  replace (u64 (u64 v + j)) with (u64 (v + j)) in Hw; [exact Hw |].
  unfold u64. by rewrite Zplus_mod_idemp_l.
Qed.

(** ** The page lock of the device allocator *)

Lemma cpu_free_private_page_lock_balanced `{K : hmm_defs} p m :
  lock_balanced page_lock
    (new_events m (cpu_free_private_page p m).2) = true.
Proof.
  apply (wp_run (cpu_free_private_page p) m
           (fun _ _ t => lock_balanced page_lock t = true)).
  unfold cpu_free_private_page. apply wp_bind_gets.
  destruct (existsb _ _); [| by apply wp_oops].
  apply wp_bind_emit, wp_bind_modify; [done |]. by apply wp_emit.
Qed.

Lemma alloc_private_page_page_lock `{K : hmm_defs} m :
  wp alloc_private_page m
    (fun o _ t =>
       match o with
       | Done (Some _) => lock_balanced page_lock t = true
       | Done None => lock_balanced page_lock t = false
       | Oops _ => True
       end).
Proof.
  unfold alloc_private_page. apply wp_bind_gets.
  destruct (free_pages m) as [| p rest] eqn:Hfp.
  - apply wp_bind. unfold alloc_new_prvt_pages, pr_err.
    apply wp_bind_gets, wp_bind_modify; [done |]. apply wp_bind_emit.
    destruct (kzalloc_ok _); simpl.
    2: { apply wp_bind_emit, wp_ret. simpl.
         apply wp_bind_emit, wp_bind_emit, wp_ret. reflexivity. }
    apply wp_bind_emit. destruct (region _) as [start |].
    2: { do 2 apply wp_bind_emit. apply wp_ret. simpl.
         apply wp_bind_emit, wp_bind_emit, wp_ret. reflexivity. }
    apply wp_bind_emit. destruct (memremap_ok _); simpl.
    2: { do 3 apply wp_bind_emit. apply wp_ret. simpl.
         apply wp_bind_emit, wp_bind_gets. machine_simpl. rewrite Hfp.
         by apply wp_oops. }
    apply wp_bind_emit, wp_bind_modify; [done |].
    do 2 apply wp_bind_emit. apply wp_bind_modify; [apply push_chunk_pages_trace |].
    apply wp_bind_emit, wp_ret. simpl.
    apply wp_bind_emit, wp_bind_gets.
    match goal with
    | |- wp (match ?x with _ => _ end) _ _ => destruct x as [| q rest]
    end; [by apply wp_oops |].
    apply wp_bind_modify; [done |]. apply wp_bind_modify; [done |].
    apply wp_bind_emit, wp_ret. reflexivity.
  - apply wp_bind_ret. simpl.
    apply wp_bind_emit, wp_bind_gets. machine_simpl. rewrite Hfp.
    apply wp_bind_modify; [done |]. apply wp_bind_modify; [done |].
    apply wp_bind_emit, wp_ret. reflexivity.
Qed.

(** ** What pool growth returns *)

Lemma alloc_new_prvt_pages_returns `{K : hmm_defs} m :
  let g := List.hd no_memory (grow_script m) in
  (alloc_new_prvt_pages m).1
  = Done (if negb (kzalloc_ok g) then - ENOMEM
          else match region g with
               | None => - ENOMEM
               | Some _ => 0
               end).
Proof.
  unfold alloc_new_prvt_pages, pr_err, mbind, M_bind. simpl.
  destruct (kzalloc_ok _); simpl; [| reflexivity].
  destruct (region _); simpl; [| reflexivity].
  destruct (memremap_ok _); reflexivity.
Qed.

(** ** The page count of the fault handler *)

Lemma land_page_mask x s :
  0 <= x < 2 ^ 64 -> 0 <= s <= 64 ->
  Z.shiftr (Z.land x (2 ^ 64 - 2 ^ s)) s = Z.shiftr x s.
Proof.
  intros Hx Hs.
  replace (2 ^ 64 - 2 ^ s) with (Z.shiftl (Z.ones (64 - s)) s).
  2: { rewrite Z.shiftl_mul_pow2, Z.ones_equiv by lia.
       replace 64 with ((64 - s) + s) at 2 by lia.
       rewrite Z.pow_add_r by lia. lia. }
  rewrite Z.shiftr_land, Z.shiftr_shiftl_l, Z.sub_diag by lia.
  change (Z.shiftl (Z.ones (64 - s)) 0) with (Z.ones (64 - s)).
  rewrite Z.land_ones by lia. apply Z.mod_small.
  rewrite Z.shiftr_div_pow2 by lia. split.
  - apply Z.div_pos; [lia | apply Z.pow_pos_nonneg; lia].
  - apply Z.div_lt_upper_bound; [apply Z.pow_pos_nonneg; lia |].
    rewrite <- Z.pow_add_r by lia. replace (s + (64 - s)) with 64 by lia. lia.
Qed.

Lemma mmu_handler_args_regular `{K : hmm_defs} bd va len ct hp :
  0 < PAGE_SHIFT <= 64 ->
  page_mask (stlb_meta bd) = 2 ^ 64 - 2 ^ PAGE_SHIFT ->
  0 <= va -> 0 < len -> va + len <= 2 ^ 64 ->
  n_pages (mmu_handler_args bd va len ct hp false)
  = granule_page_count bd va len false.
Proof.
  intros HPS Hmask Hva Hlen Hend.
  unfold mmu_handler_args, granule_page_count, pages_spanned, tlb_meta_of.
  cbn [n_pages]. rewrite Hmask.
  assert (Hu : forall x, 0 <= x < 2 ^ 64 -> u64 x = x)
    by (intros x Hx; unfold u64; apply Z.mod_small; exact Hx).
  rewrite (Hu va), (Hu (va + len - 1)) by lia.
  rewrite !land_page_mask by lia.
  apply Hu.
  rewrite !Z.shiftr_div_pow2 by lia.
  assert (0 < 2 ^ PAGE_SHIFT) by (apply Z.pow_pos_nonneg; lia).
  assert (va / 2 ^ PAGE_SHIFT <= (va + len - 1) / 2 ^ PAGE_SHIFT)
    by (apply Z.div_le_mono; lia).
  assert (0 <= va / 2 ^ PAGE_SHIFT) by (apply Z.div_pos; lia).
  assert (2 ^ 1 <= 2 ^ PAGE_SHIFT) by (apply Z.pow_le_mono_r; lia).
  assert ((va + len - 1) / 2 ^ PAGE_SHIFT < 2 ^ 63).
  { apply Z.div_lt_upper_bound; [lia |]. nia. }
  lia.
Qed.

(** * Further properties of the code *)

(** ** The TLB walks *)

Lemma u64_idemp z : u64 (u64 z) = u64 z.
Proof. unfold u64. apply Z.mod_mod. lia. Qed.

Lemma u64_add_l a b : u64 (u64 a + b) = u64 (a + b).
Proof. unfold u64. by rewrite Zplus_mod_idemp_l. Qed.

Lemma tlb_map_loop_installs `{K : hmm_defs} n pa host ct hp v fuel :
  forall i m,
  0 <= i <= n -> n < 2 ^ 31 -> n <= MAX_N_MAP_PAGES ->
  n - i <= Z.of_nat fuel ->
  (forall j, 0 <= j < n -> exists p, pa !! Z.to_nat j = Some p /\ p <> 0) ->
  wp (tlb_map_loop fuel false 1 n pa host ct hp i (u64 (v + i))) m
    (fun o m' t =>
       o = Done tt
       /\ t = drop (Z.to_nat i)
                (tlb_installs false v host ct hp (take (Z.to_nat n) pa))
       /\ same_pool m m' /\ zone_device_data m' = zone_device_data m
       /\ migrated_pages m' = migrated_pages m).
Proof.
  assert (Hlen : forall l, length (tlb_installs false v host ct hp l) = length l)
    by (intros; apply length_imap).
  induction fuel as [| fuel IH]; intros i m Hi Hn Hcap Hf Hpa; simpl;
    rewrite (u32_small i) by lia.
  - destruct (Z.ltb_spec i n); [lia |]. simpl. apply wp_ret.
    split; [done |]. split; [| done].
    rewrite drop_ge; [done |]. rewrite Hlen, length_take. lia.
  - destruct (Z.ltb_spec i n); simpl.
    2: { apply wp_ret. split; [done |]. split; [| done].
         rewrite drop_ge; [done |]. rewrite Hlen, length_take. lia. }
    destruct (Z.ltb_spec i MAX_N_MAP_PAGES); [| lia].
    destruct (Hpa i ltac:(lia)) as (p & Hp & Hp0).
    replace i with (Z.of_nat (Z.to_nat i)) at 1 by lia.
    eapply wp_bind_rd; [exact Hp |].
    destruct (Z.eqb_spec p 0); [done |].
    unfold create_tlb_mapping. apply wp_bind, wp_bind_emit, wp_modify; [done |].
    simpl. rewrite s32_small, u64_add_l by lia.
    replace (v + i + 1) with (v + (i + 1)) by lia.
    eapply wp_mono; [apply IH; lia || done |]. simpl.
    intros o m' t (-> & -> & Hpool & Hzone & Hmig). split; [done |].
    split; [| done].
    replace (Z.to_nat (i + 1)) with (S (Z.to_nat i)) by lia.
    symmetry. apply drop_S. unfold tlb_installs.
    rewrite list_lookup_imap. rewrite lookup_take_lt by lia. rewrite Hp. simpl.
    rewrite Z2Nat.id by lia. reflexivity.
Qed.

Lemma tlb_map_hmm_regular_wp `{K : hmm_defs} v pa n host ct hp m :
  0 <= n < 2 ^ 31 -> n <= MAX_N_MAP_PAGES ->
  (forall j, 0 <= j < n -> exists p, pa !! Z.to_nat j = Some p /\ p <> 0) ->
  wp (tlb_map_hmm v pa n host ct hp false) m
    (fun o m' t =>
       o = Done tt
       /\ t = tlb_installs false v host ct hp (take (Z.to_nat n) pa)
       /\ same_pool m m' /\ zone_device_data m' = zone_device_data m
       /\ migrated_pages m' = migrated_pages m).
Proof.
  intros Hn Hcap Hpa. unfold tlb_map_hmm. apply wp_bind_gets.
  rewrite (u32_small 1), !(u32_small n) by lia.
  pose proof (tlb_map_loop_installs n pa host ct hp (u64 v) (Z.to_nat n) 0 m) as H.
  rewrite Z.add_0_r, u64_idemp in H.
  eapply wp_mono; [apply H; lia || done |]. simpl.
  intros o' m'' t (-> & -> & Hrest). split; [done |]. split; [| done].
  unfold tlb_installs. apply imap_ext. intros j p _. simpl.
  by rewrite u64_add_l.
Qed.

(** X1: in regular granularity, when the first [n] slots of [paddr] hold
    an address each and [n] is within the cap, [tlb_map_hmm] returns after
    installing slot [j] at virtual page [vaddr + j], for every [j < n], in
    order, and nothing else. *)
Theorem tlb_map_hmm_regular_installs `{K : hmm_defs} (v : Z) (pa : list Z)
    (n host ct hp : Z) (m : machine) :
  0 <= n < 2 ^ 31 -> n <= MAX_N_MAP_PAGES ->
  (forall j, 0 <= j < n -> exists p, pa !! Z.to_nat j = Some p /\ p <> 0) ->
  let '(o, m') := tlb_map_hmm v pa n host ct hp false m in
  o = Done tt
  /\ new_events m m' = tlb_installs false v host ct hp (take (Z.to_nat n) pa).
Proof.
  intros Hn Hcap Hpa.
  pose proof (wp_run _ m _ (tlb_map_hmm_regular_wp v pa n host ct hp m Hn Hcap Hpa))
    as H.
  destruct (tlb_map_hmm v pa n host ct hp false m) as [o m']. simpl in H.
  by destruct H as (-> & -> & _).
Qed.

Lemma tlb_map_hmm_regular_installs_witness :
  let '(o, m') :=
    tlb_map_hmm (K := x86_64) 0x100 [0x77; 0x78] 2 0 3 42 false machine0 in
  o = Done tt
  /\ new_events machine0 m'
     = tlb_installs false 0x100 0 3 42 (take (Z.to_nat 2) [0x77; 0x78]).
Proof.
  apply (tlb_map_hmm_regular_installs (K := x86_64) 0x100 [0x77; 0x78] 2 0 3 42 machine0).
  - lia.
  - simpl. lia.
  - intros j Hj.
    assert (j = 0 \/ j = 1) as [-> | ->] by lia; simpl; eexists; split;
      first [reflexivity | lia].
Defined.

(** X2: whatever the arguments, every TLB entry [tlb_map_hmm] installs
    stems from a slot of [paddr] below [MAX_N_MAP_PAGES] that holds a
    non-zero address; the install sends nothing else: slots at or beyond the
    cap and slots holding 0 are never installed. *)
Theorem tlb_map_hmm_installs_below_cap `{K : hmm_defs} (v : Z) (pa : list Z)
    (n host ct hp : Z) (huge : bool) (m : machine) :
  Forall (from_capped_slot pa)
    (new_events m (tlb_map_hmm v pa n host ct hp huge m).2).
Proof.
  destruct (tlb_map_hmm_capped v pa n host ct hp huge m) as [t [Ht HP]].
  by rewrite (new_events_app _ _ _ Ht).
Qed.

Lemma tlb_unmap_loop_trace n hp v fuel : forall i m,
  0 <= i <= n -> n < 2 ^ 31 -> n - i <= Z.of_nat fuel ->
  wp (tlb_unmap_loop fuel false 1 n hp i (u64 (v + i))) m
    (fun o m' t =>
       o = Done tt
       /\ t = (fun j => EvCreateTlbUnmapping false (u64 (v + j)) hp)
                <$> seqZ i (n - i)
       /\ same_pool m m' /\ zone_device_data m' = zone_device_data m
       /\ migrated_pages m' = migrated_pages m).
Proof.
  induction fuel as [| fuel IH]; intros i m Hi Hn Hf; simpl;
    rewrite (u32_small i) by lia.
  - destruct (Z.ltb_spec i n); [lia |]. apply wp_ret. split; [done |].
    by replace (n - i) with 0 by lia.
  - destruct (Z.ltb_spec i n).
    2: { apply wp_ret. split; [done |]. by replace (n - i) with 0 by lia. }
    unfold create_tlb_unmapping. apply wp_bind, wp_bind_emit, wp_modify; [done |].
    simpl. rewrite s32_small, u64_add_l by lia.
    replace (v + i + 1) with (v + (i + 1)) by lia.
    eapply wp_mono; [apply IH; lia |]. simpl.
    intros o m' t (-> & -> & Hp & Hz & Hg).
    split; [done |]. split; [| done].
    rewrite (seqZ_cons i) by lia. rewrite fmap_cons.
    replace (Z.succ i) with (i + 1) by lia.
    by replace (Z.pred (n - i)) with (n - (i + 1)) by lia.
Qed.

Lemma tlb_invalidate_loop_trace n hp v fuel : forall i m,
  0 <= i <= n -> n < 2 ^ 31 -> n - i <= Z.of_nat fuel ->
  wp (tlb_invalidate_loop fuel 1 n hp i (u64 (v + i))) m
    (fun o m' t =>
       o = Done tt /\ tlb m' = tlb m
       /\ t = (fun j => EvInvalidateTlbEntry (u64 (v + j)) 1 hp (j =? n - 1))
                <$> seqZ i (n - i)
       /\ same_pool m m' /\ zone_device_data m' = zone_device_data m
       /\ migrated_pages m' = migrated_pages m).
Proof.
  induction fuel as [| fuel IH]; intros i m Hi Hn Hf; simpl;
    rewrite (u32_small i) by lia.
  - destruct (Z.ltb_spec i n); [lia |]. apply wp_ret. split; [done |].
    split; [done |]. by replace (n - i) with 0 by lia.
  - destruct (Z.ltb_spec i n).
    2: { apply wp_ret. split; [done |]. split; [done |].
         by replace (n - i) with 0 by lia. }
    unfold invalidate_tlb_entry. apply wp_bind_emit.
    rewrite s32_small, u64_add_l by lia.
    replace (v + i + 1) with (v + (i + 1)) by lia.
    eapply wp_mono; [apply IH; lia |]. simpl.
    intros o m' t (-> & Ht & -> & Hp & Hz & Hg).
    split; [done |]. split; [done |]. split; [| done].
    rewrite (seqZ_cons i) by lia. rewrite fmap_cons.
    rewrite (u32_small (n - 1)) by lia.
    replace (Z.succ i) with (i + 1) by lia.
    by replace (Z.pred (n - i)) with (n - (i + 1)) by lia.
Qed.

Lemma tlb_unmap_hmm_regular_wp v n hp m :
  0 <= n < 2 ^ 31 ->
  wp (tlb_unmap_hmm v n hp false) m
    (fun o m' t =>
       o = Done tt /\ t = tlb_unmaps v n hp ++ tlb_invalidates v n hp
       /\ same_pool m m' /\ zone_device_data m' = zone_device_data m
       /\ migrated_pages m' = migrated_pages m).
Proof.
  intros Hn. unfold tlb_unmap_hmm. apply wp_bind_gets.
  rewrite (u32_small 1), !(u32_small n) by lia.
  apply wp_bind.
  pose proof (tlb_unmap_loop_trace n hp (u64 v) (Z.to_nat n) 0 m) as H.
  rewrite Z.add_0_r, u64_idemp in H.
  eapply wp_mono; [apply H; lia |]. simpl. clear H.
  intros o1 m1 t1 (-> & -> & Hp1 & Hz1 & Hg1).
  pose proof (tlb_invalidate_loop_trace n hp (u64 v) (Z.to_nat n) 0 m1) as H.
  rewrite Z.add_0_r, u64_idemp in H.
  eapply wp_mono; [apply H; lia |]. simpl. clear H.
  intros o2 m2 t2 (-> & _ & -> & Hp2 & Hz2 & Hg2). split; [done |].
  split.
  - rewrite Z.sub_0_r. unfold tlb_unmaps, tlb_invalidates.
    f_equal; apply list_fmap_ext; intros j x _; by rewrite u64_add_l.
  - unfold same_pool in *. intuition congruence.
Qed.

(** X3: a removal of [n] regular pages returns after sending, in this
    order, one unmapping for each page [vaddr], ..., [vaddr + n - 1] and
    then one invalidation for each of them, only the last one flagged as
    last; for [n = 0] it sends nothing. *)
Theorem tlb_unmap_hmm_regular_trace (v n hp : Z) (m : machine) :
  0 <= n < 2 ^ 31 ->
  let '(o, m') := tlb_unmap_hmm v n hp false m in
  o = Done tt
  /\ new_events m m' = tlb_unmaps v n hp ++ tlb_invalidates v n hp.
Proof.
  intros Hn.
  pose proof (wp_run _ m _ (tlb_unmap_hmm_regular_wp v n hp m Hn)) as H.
  destruct (tlb_unmap_hmm v n hp false m) as [o m']. simpl in H.
  by destruct H as (-> & -> & _).
Qed.

Lemma tlb_unmap_hmm_regular_trace_witness :
  let '(o, m') := tlb_unmap_hmm 0x20 3 42 false machine_exhausted in
  o = Done tt
  /\ new_events machine_exhausted m' = tlb_unmaps 0x20 3 42 ++ tlb_invalidates 0x20 3 42.
Proof.
  apply (tlb_unmap_hmm_regular_trace 0x20 3 42 machine_exhausted).
  lia.
Defined.

Lemma tlb_slot_spec huge va hp e :
  tlb_slot huge va hp e = true
  <-> te_huge e = huge /\ te_vaddr e = va /\ te_hpid e = hp.
Proof.
  unfold tlb_slot. rewrite !andb_true_iff, !Z.eqb_eq, Bool.eqb_true_iff. tauto.
Qed.

Lemma In_unmapped huge va hp l e :
  In e (List.filter (fun x => negb (tlb_slot huge va hp x)) l)
  <-> In e l /\ ~ (te_huge e = huge /\ te_vaddr e = va /\ te_hpid e = hp).
Proof.
  rewrite filter_In, negb_true_iff, <- tlb_slot_spec.
  destruct (tlb_slot huge va hp e); intuition congruence.
Qed.

Lemma tlb_unmap_loop_state n hp v fuel : forall i m,
  0 <= i <= n -> n < 2 ^ 31 -> n - i <= Z.of_nat fuel ->
  wp (tlb_unmap_loop fuel false 1 n hp i (u64 (v + i))) m
    (fun o m' _ =>
       o = Done tt
       /\ forall e, In e (tlb m') <->
            In e (tlb m)
            /\ ~ (te_huge e = false /\ te_hpid e = hp
                  /\ exists j, i <= j < n /\ te_vaddr e = u64 (v + j))).
Proof.
  induction fuel as [| fuel IH]; intros i m Hi Hn Hf; simpl;
    rewrite (u32_small i) by lia.
  - destruct (Z.ltb_spec i n); [lia |]. apply wp_ret. split; [done |].
    intros e. split; [| tauto]. intros He. split; [done |].
    intros (_ & _ & j & Hj & _). lia.
  - destruct (Z.ltb_spec i n).
    2: { apply wp_ret. split; [done |].
         intros e. split; [| tauto]. intros He. split; [done |].
         intros (_ & _ & j & Hj & _). lia. }
    unfold create_tlb_unmapping. apply wp_bind, wp_bind_emit, wp_modify; [done |].
    simpl. rewrite s32_small, u64_add_l by lia.
    replace (v + i + 1) with (v + (i + 1)) by lia.
    eapply wp_mono; [apply IH; lia |]. simpl. intros o m' t [-> Hst].
    split; [done |]. intros e. rewrite Hst. simpl. rewrite In_unmapped.
    split.
    + intros [[He Hi'] Hr]. split; [done |].
      intros (Hh & Hp & j & Hj & Hv).
      destruct (Z.eq_dec j i) as [-> | Hne]; [tauto |].
      apply Hr. repeat split; try done. exists j. split; [lia | done].
    + intros [He Hr]. split; [split; [done |] |].
      * intros (Hh & Hv & Hp). apply Hr. repeat split; try done.
        exists i. split; [lia | done].
      * intros (Hh & Hp & j & Hj & Hv). apply Hr. repeat split; try done.
        exists j. split; [lia | done].
Qed.

Lemma tlb_unmap_hmm_cleared v n hp m :
  0 <= n < 2 ^ 31 ->
  small_range_cleared v n hp (tlb m) (tlb (tlb_unmap_hmm v n hp false m).2).
Proof.
  intros Hn. unfold small_range_cleared.
  apply (wp_run (tlb_unmap_hmm v n hp false) m
    (fun _ m' _ => forall e, In e (tlb m') <->
                     In e (tlb m) /\ ~ in_small_range v n hp e)).
  unfold tlb_unmap_hmm. apply wp_bind_gets.
  rewrite (u32_small 1), !(u32_small n) by lia.
  apply wp_bind.
  pose proof (tlb_unmap_loop_state n hp (u64 v) (Z.to_nat n) 0 m) as H.
  rewrite Z.add_0_r, u64_idemp in H.
  eapply wp_mono; [apply H; lia |]. simpl. clear H.
  intros o1 m1 t1 [-> Hst].
  pose proof (tlb_invalidate_loop_trace n hp (u64 v) (Z.to_nat n) 0 m1) as H.
  rewrite Z.add_0_r, u64_idemp in H.
  eapply wp_mono; [apply H; lia |]. simpl. clear H.
  intros o2 m2 t2 (-> & Ht & _) e. rewrite Ht, Hst.
  unfold in_small_range.
  split; intros [He Hr]; (split; [done |]);
    intros (Hh & Hp & j & Hj & Hv); apply Hr; repeat split; try done;
    exists j; (split; [done |]); by rewrite Hv, ?u64_add_l.
Qed.

(** X5: after a removal of [n] regular pages, the TLB holds exactly the
    entries it held before that are not small-page entries of the host
    process inside [vaddr, vaddr + n). *)
Theorem tlb_unmap_hmm_regular_clears (v n hp : Z) (m : machine) :
  0 <= n < 2 ^ 31 ->
  small_range_cleared v n hp (tlb m) (tlb (tlb_unmap_hmm v n hp false m).2).
Proof. apply tlb_unmap_hmm_cleared. Qed.

Lemma tlb_unmap_hmm_regular_clears_witness :
  small_range_cleared 0x20 3 42 (tlb machine_exhausted)
    (tlb (tlb_unmap_hmm 0x20 3 42 false machine_exhausted).2).
Proof.
  apply (tlb_unmap_hmm_regular_clears 0x20 3 42 machine_exhausted). lia.
Defined.

(** ** The device-private page allocator *)

Lemma chain_to_app p l1 l2 :
  ~ In p l1 -> chain_to p (l1 ++ p :: l2) = l1 ++ [p].
Proof.
  induction l1 as [| x l1 IH]; simpl; intros H.
  - by rewrite Z.eqb_refl.
  - destruct (Z.eqb_spec x p) as [-> | _]; [tauto |]. f_equal. tauto.
Qed.

(** X6: a page of a registered chunk that is freed is the next page
    [alloc_private_page] hands out; the chunks and the TLB are as before
    and the page holds no zone data.  When the page was not on the free
    list, the free list is afterwards as it was.  When it was (the page is
    freed a second time), the chain is cut at the page: the pages that
    were behind it are off the list for good, and the page that was handed
    out is still on the list, as its last page. *)
Theorem free_then_alloc_returns_page `{K : hmm_defs} (p : page) (m : machine) :
  in_chunks m p ->
  let '(o1, m1) := cpu_free_private_page p m in
  let '(o2, m2) := alloc_private_page m1 in
  o1 = Done tt /\ o2 = Done (Some p)
  /\ mem_sections m2 = mem_sections m
  /\ tlb m2 = tlb m /\ zone_device_data m2 !! p = None
  /\ (~ In p (free_pages m) -> free_pages m2 = free_pages m)
  /\ (forall l1 l2, free_pages m = l1 ++ p :: l2 -> ~ In p l1 ->
        free_pages m2 = l1 ++ [p]).
Proof.
  unfold in_chunks. intros Hp.
  unfold cpu_free_private_page, alloc_private_page, mbind, M_bind, gets,
    emit, modify. simpl. rewrite Hp. simpl.
  repeat split.
  - apply lookup_delete_eq.
  - apply chain_to_fresh.
  - intros l1 l2 -> Hl1. by apply chain_to_app.
Qed.

Lemma free_then_alloc_returns_page_witness :
  let '(o1, m1) := cpu_free_private_page (K := x86_64) 0x100002 machine_exhausted in
  let '(o2, m2) := alloc_private_page (K := x86_64) m1 in
  o1 = Done tt /\ o2 = Done (Some 0x100002)
  /\ mem_sections m2 = mem_sections machine_exhausted
  /\ tlb m2 = tlb machine_exhausted /\ zone_device_data m2 !! 0x100002 = None
  /\ (~ In 0x100002 (free_pages machine_exhausted) ->
      free_pages m2 = free_pages machine_exhausted)
  /\ (forall l1 l2, free_pages machine_exhausted = l1 ++ 0x100002 :: l2 ->
        ~ In 0x100002 l1 -> free_pages m2 = l1 ++ [0x100002]).
Proof.
  apply (free_then_alloc_returns_page (K := x86_64) 0x100002 machine_exhausted).
  reflexivity.
Defined.

Lemma push_chunk_pages_free n : forall p m,
  Forall (fun q => q < p \/ p + Z.of_nat n <= q) (free_pages m) ->
  free_pages (push_chunk_pages n p m)
  = rev (seqZ p (Z.of_nat n)) ++ free_pages m.
Proof.
  induction n as [| n IH]; intros p m Hm; [done |].
  cbn [push_chunk_pages]. rewrite IH.
  - rewrite (seqZ_cons p) by lia. cbn [rev push_free_page free_pages set_free_pages].
    rewrite <- app_assoc. simpl.
    replace (Z.pred (Z.of_nat (S n))) with (Z.of_nat n) by lia.
    rewrite chain_to_fresh; [done |].
    intros Hp. rewrite List.Forall_forall in Hm. specialize (Hm p Hp). lia.
  - cbn [push_free_page free_pages set_free_pages].
    rewrite chain_to_fresh.
    + apply Forall_cons. split; [lia |].
      eapply Forall_impl; [exact Hm |]. simpl. intros q Hq. lia.
    + intros Hp. rewrite List.Forall_forall in Hm. specialize (Hm p Hp). lia.
Qed.

Lemma push_chunk_pages_fields n : forall p m,
  mem_sections (push_chunk_pages n p m) = mem_sections m
  /\ tlb (push_chunk_pages n p m) = tlb m
  /\ grow_script (push_chunk_pages n p m) = grow_script m
  /\ migrated_pages (push_chunk_pages n p m) = migrated_pages m.
Proof.
  induction n as [| n IH]; intros p m; [done |].
  cbn [push_chunk_pages]. destruct (IH (p + 1) (push_free_page p m)) as (-> & -> & -> & ->).
  done.
Qed.

Lemma chunk_pages_val `{K : hmm_defs} :
  0 <= PAGE_SHIFT <= 28 -> chunk_pages = 2 ^ (28 - PAGE_SHIFT).
Proof.
  intros H. unfold chunk_pages. rewrite Z.shiftr_div_pow2 by lia.
  change DEVMEM_CHUNK_SIZE with (2 ^ 28).
  replace 28 with ((28 - PAGE_SHIFT) + PAGE_SHIFT) at 1 by lia.
  rewrite Z.pow_add_r by lia. apply Z.div_mul.
  apply Z.pow_nonzero; lia.
Qed.

(** X7: with an empty free list and an attempt to grow the pool that goes
    through at [start], [alloc_private_page] registers the new chunk of
    [DEVMEM_CHUNK_SIZE] bytes, hands out its last page and leaves the other
    pages of the chunk on the free list, highest first. *)
Theorem alloc_private_page_grows `{K : hmm_defs} (m : machine) (g : grow_env)
    (s : list grow_env) (start : Z) :
  0 <= PAGE_SHIFT <= 28 ->
  free_pages m = [] -> grow_script m = g :: s -> grows_at g start ->
  let first := Z.shiftr start PAGE_SHIFT in
  let '(o, m') := alloc_private_page m in
  o = Done (Some (first + chunk_pages - 1))
  /\ mem_sections m'
     = {| range_start := start; range_end := start + DEVMEM_CHUNK_SIZE - 1 |}
       :: mem_sections m
  /\ free_pages m' = rev (seqZ first (chunk_pages - 1))
  /\ grow_script m' = s /\ tlb m' = tlb m.
Proof.
  intros HPS Hfree Hgrow (Hk & Hr & Hm). intros first.
  pose proof (chunk_pages_val HPS) as Hcp.
  assert (0 < chunk_pages) by (rewrite Hcp; apply Z.pow_pos_nonneg; lia).
  unfold alloc_private_page, alloc_new_prvt_pages, pr_err, mbind, M_bind, gets,
    emit, modify. cbn -[push_chunk_pages Z.shiftr Z.to_nat DEVMEM_CHUNK_SIZE].
  rewrite Hfree, Hgrow. cbn -[push_chunk_pages Z.shiftr Z.to_nat DEVMEM_CHUNK_SIZE].
  rewrite Hk, Hr, Hm. cbn -[push_chunk_pages Z.shiftr Z.to_nat DEVMEM_CHUNK_SIZE].
  unfold range_len, pfn_to_page. cbn [range_start range_end].
  replace (start + DEVMEM_CHUNK_SIZE - 1 - start + 1) with DEVMEM_CHUNK_SIZE by lia.
  fold chunk_pages. fold first.
  match goal with
  | |- context [push_chunk_pages ?n ?p ?m0] =>
      pose proof (push_chunk_pages_free n p m0) as Hf;
      pose proof (push_chunk_pages_fields n p m0) as (Hs & Ht & Hg & _);
      set (m1 := push_chunk_pages n p m0) in *
  end.
  cbn [free_pages mem_sections tlb grow_script set_trace set_mem_sections
       set_grow_script] in Hf, Hs, Ht, Hg.
  rewrite Hfree in Hf. specialize (Hf (Forall_nil_2 _)). rewrite app_nil_r in Hf.
  rewrite Z2Nat.id in Hf by lia.
  replace chunk_pages with ((chunk_pages - 1) + 1) in Hf at 1 by lia.
  rewrite seqZ_app in Hf by lia. rewrite rev_app_distr in Hf.
  rewrite (seqZ_cons (first + (chunk_pages - 1))) in Hf by lia.
  cbn [Z.pred] in Hf. simpl in Hf.
  rewrite Hf. cbn. rewrite Hs, Ht, Hg.
  repeat split. do 2 f_equal. lia.
Qed.

Lemma alloc_private_page_grows_witness :
  let g := {| kzalloc_ok := true; region := Some 0x100000000; memremap_ok := true |} in
  let m := set_grow_script [g] machine0 in
  let first := Z.shiftr 0x100000000 (PAGE_SHIFT (hmm_defs := x86_64)) in
  let '(o, m') := alloc_private_page (K := x86_64) m in
  o = Done (Some (first + chunk_pages (K := x86_64) - 1))
  /\ mem_sections m'
     = {| range_start := 0x100000000;
          range_end := 0x100000000 + DEVMEM_CHUNK_SIZE - 1 |} :: mem_sections m
  /\ free_pages m' = rev (seqZ first (chunk_pages (K := x86_64) - 1))
  /\ grow_script m' = [] /\ tlb m' = tlb m.
Proof.
  apply (alloc_private_page_grows (K := x86_64)
           (set_grow_script
              [{| kzalloc_ok := true; region := Some 0x100000000;
                  memremap_ok := true |}] machine0)
           {| kzalloc_ok := true; region := Some 0x100000000; memremap_ok := true |}
           [] 0x100000000).
  - simpl. lia.
  - reflexivity.
  - reflexivity.
  - repeat split.
Defined.

(** X8: while every free page belongs to a registered chunk and no attempt
    to grow the pool stops at the remap, [alloc_private_page] does not
    crash, keeps that invariant and leaves the TLB alone, and a page it
    returns belongs to a registered chunk. *)
Theorem alloc_private_page_keeps_pool `{K : hmm_defs} (m : machine) :
  0 <= PAGE_SHIFT <= 28 -> pool_ok m ->
  let '(o, m') := alloc_private_page m in
  pool_ok m' /\ tlb m' = tlb m
  /\ exists r, o = Done r
       /\ match r with Some p => in_chunks m' p | None => True end.
Proof.
  intros HPS Hok.
  pose proof (wp_run alloc_private_page m _ (alloc_private_page_spec m HPS Hok)) as H.
  destruct (alloc_private_page m) as [o m']. simpl in H.
  destruct H as (r & -> & Hok' & (Ht & _) & Hr). eauto.
Qed.

Lemma alloc_private_page_keeps_pool_witness :
  let '(o, m') := alloc_private_page (K := x86_64) machine_exhausted in
  pool_ok (K := x86_64) m' /\ tlb m' = tlb machine_exhausted
  /\ exists r, o = Done r
       /\ match r with Some p => in_chunks (K := x86_64) m' p | None => True end.
Proof.
  apply (alloc_private_page_keeps_pool (K := x86_64) machine_exhausted).
  - simpl. lia.
  - split; [| constructor].
    repeat constructor.
Defined.

(** X9: on every run of [alloc_private_page] that returns a page, with or
    without growing the pool on the way, the page lock is taken and
    released in matched pairs and is free at the end. *)
Theorem alloc_private_page_lock_log `{K : hmm_defs} (m : machine) :
  let '(o, m') := alloc_private_page m in
  match o with
  | Done (Some _) => lock_balanced page_lock (new_events m m') = true
  | _ => True
  end.
Proof.
  pose proof (wp_run alloc_private_page m _ (alloc_private_page_page_lock m)) as H.
  destruct (alloc_private_page m) as [[[p |] | c] m']; done.
Qed.

(** X10: an attempt to grow the pool that fails, at the management struct,
    at the region or at the remap, leaves the free list, the chunks, the
    zone data and the TLB as they were and gives back what it had taken:
    the struct is freed if it was allocated, and the region is released,
    with its start and the chunk size, if it was obtained. *)
Theorem alloc_new_prvt_pages_failure_undone `{K : hmm_defs} (m : machine) :
  let g := List.hd no_memory (grow_script m) in
  (forall start, ~ grows_at g start) ->
  let '(o, m') := alloc_new_prvt_pages m in
  same_device m m' /\ growth_undone g (new_events m m').
Proof.
  intros g Hg.
  pose proof (wp_run alloc_new_prvt_pages m
    (fun _ m' t => same_device m m' /\ growth_undone g t)) as H.
  destruct (alloc_new_prvt_pages m) as [o m']. apply H. clear H.
  unfold alloc_new_prvt_pages, pr_err.
  apply wp_bind_gets, wp_bind_modify; [done |]. fold g.
  apply wp_bind_emit.
  destruct (kzalloc_ok g) eqn:Hk; simpl.
  2: { apply wp_bind_emit, wp_ret. split; [by repeat split |].
       split; intros; congruence. }
  apply wp_bind_emit. destruct (region g) as [start |] eqn:Hr.
  2: { do 2 apply wp_bind_emit. apply wp_ret. split; [by repeat split |].
       split; [intros _; simpl; auto | intros; congruence]. }
  apply wp_bind_emit. destruct (memremap_ok g) eqn:Hm; simpl.
  { destruct (Hg start). done. }
  do 3 apply wp_bind_emit. apply wp_ret. split; [by repeat split |].
  split; [intros _; simpl; auto 10 |].
  intros s0 _ Hs0. rewrite Hr in Hs0. injection Hs0 as <-. unfold range_len. cbn [range_start range_end].
  replace (start + DEVMEM_CHUNK_SIZE - 1 - start + 1) with DEVMEM_CHUNK_SIZE by lia.
  simpl. auto 10.
Qed.

Lemma alloc_new_prvt_pages_failure_undone_witness :
  let m := set_grow_script [grow_no_remap] machine0 in
  let '(o, m') := alloc_new_prvt_pages (K := x86_64) m in
  same_device m m' /\ growth_undone grow_no_remap (new_events m m').
Proof.
  apply (alloc_new_prvt_pages_failure_undone (K := x86_64)
           (set_grow_script [grow_no_remap] machine0)).
  intros start (_ & _ & H). discriminate H.
Defined.

(** ** The notifier callback *)

Lemma tlb_unmap_hmm_removals v n hp huge :
  emits (fun e => is_tlb_removal e = true) (tlb_unmap_hmm v n hp huge).
Proof.
  assert (Hu : forall fuel pg nm i va,
    emits (fun e => is_tlb_removal e = true) (tlb_unmap_loop fuel huge pg nm hp i va)).
  { induction fuel as [| fuel IH]; intros; simpl; unfold create_tlb_unmapping;
      emits_go. }
  assert (Hi : forall fuel pg nm i va,
    emits (fun e => is_tlb_removal e = true) (tlb_invalidate_loop fuel pg nm hp i va)).
  { induction fuel as [| fuel IH]; intros; simpl; unfold invalidate_tlb_entry;
      emits_go. }
  unfold tlb_unmap_hmm. emits_go.
Qed.

Lemma removal_quiet e : is_tlb_removal e = true -> quiet e.
Proof. by destruct e. Qed.

(** X11: the initialisers of the callback run [is_thp] on [range->vma]:
    with no vma the callback faults before it has done anything.  When the
    page at the start of the range is pinned and let go, the callback
    answers true for an invalidation caused by a migration of the device
    itself, and it declines, with false and after the one failed trylock, a
    non-blockable invalidation when the migration lock is not free; in both
    cases it has called nothing but [is_thp] (and the trylock), so it holds
    no lock and the TLB is untouched. *)
Theorem cyt_interval_invalidate_skips `{K : hmm_defs} (k : kernel) (hp : Z)
    (range : mmu_notifier_range) (seq : Z) (m : machine) :
  let '(o, m') := cyt_interval_invalidate k hp range seq m in
  if negb (r_vma range) then o = Oops NullDeref /\ m' = m
  else
    match k_get_user_pages_remote k (r_start range) with
    | None =>
        o = Oops NullDeref
        /\ new_events m m' = [EvGetUserPagesRemote (r_start range) None]
    | Some p =>
        (own_migration range = true ->
         o = Done true /\ m' = after_is_thp m (r_start range) p)
        /\ (own_migration range = false -> r_blockable range = false ->
            k_mutex_trylock k mmu_lock = false ->
            o = Done false
            /\ new_events m m'
               = is_thp_calls m (r_start range) p ++ [EvMutexTrylock mmu_lock false]
            /\ tlb m' = tlb m)
    end.
Proof.
  destruct (cyt_interval_invalidate k hp range seq m) as [o m'] eqn:E.
  unfold cyt_interval_invalidate in E.
  unfold mbind at 1, M_bind at 1 in E. rewrite is_thp_run in E.
  destruct (r_vma range); cbn [negb] in *; [| by injection E as <- <-].
  destruct (k_get_user_pages_remote k (r_start range)) as [p |].
  2: { injection E as <- <-. split; [done |]. by apply new_events_app. }
  unfold own_migration, mbind, M_bind, gets in *.
  cbn [fst snd] in E. split.
  - intros Hown. rewrite Hown in E. by injection E as <- <-.
  - intros Hown Hb Hl. rewrite Hown, Hb, Hl in E. simpl in E.
    injection E as <- <-. split; [done |]. split.
    + apply new_events_app. simpl. by rewrite <- app_assoc.
    + apply after_is_thp_fields.
Qed.

(** X12: when the callback goes to work (the range has a vma and its page
    is pinned and let go, the invalidation is not the device's own and the
    migration lock is obtained), it takes the lock after [is_thp] has run,
    records the sequence number, sends only TLB removal commands, releases
    the lock and answers true; the lock log of a run that returns is
    balanced. *)
Theorem cyt_interval_invalidate_locks `{K : hmm_defs} (k : kernel) (hp : Z)
    (range : mmu_notifier_range) (seq : Z) (p : page) (m : machine) :
  r_vma range = true ->
  k_get_user_pages_remote k (r_start range) = Some p ->
  own_migration range = false ->
  r_blockable range || k_mutex_trylock k mmu_lock = true ->
  let '(o, m') := cyt_interval_invalidate k hp range seq m in
  exists t,
    Forall (fun e => is_tlb_removal e = true) t
    /\ new_events m m'
       = is_thp_calls m (r_start range) p
         ++ [lock_taken range; EvMmuIntervalSetSeq seq] ++ t ++
         match o with
         | Done _ => [EvMutexUnlock mmu_lock]
         | Oops _ => []
         end
    /\ match o with
       | Done r => r = true /\ lock_balanced mmu_lock (new_events m m') = true
       | Oops _ => True
       end.
Proof.
  unfold own_migration. intros Hvma Hgup Hown Hlock.
  unfold cyt_interval_invalidate. unfold mbind at 1, M_bind at 1.
  rewrite is_thp_run, Hvma, Hgup. cbn [negb].
  set (mt := after_is_thp m (r_start range) p).
  unfold mbind at 1, M_bind at 1, gets at 1.
  cbn [fst snd]. rewrite Hown.
  set (huge := k_is_transparent_hugepage k p).
  set (va := u64 (Z.shiftl _ PAGE_SHIFT)). set (n := u32 _).
  set (m0 := set_trace (trace mt ++ [lock_taken range; EvMmuIntervalSetSeq seq]) mt).
  assert (Hrun :
    (taken ← (if r_blockable range
              then emit (EvMutexLock mmu_lock) ;; mret true
              else emit (EvMutexTrylock mmu_lock (k_mutex_trylock k mmu_lock)) ;;
                   mret (k_mutex_trylock k mmu_lock));
     if negb taken then mret false
     else emit (EvMmuIntervalSetSeq seq) ;;
          tlb_unmap_hmm va n hp huge ;;
          emit (EvMutexUnlock mmu_lock) ;; mret true) mt
    = (tlb_unmap_hmm va n hp huge ;;
       emit (EvMutexUnlock mmu_lock) ;; mret true) m0).
  { unfold m0, lock_taken. destruct (r_blockable range); simpl in Hlock.
    - unfold mbind, M_bind, emit, modify. simpl. by rewrite <- app_assoc.
    - rewrite Hlock. unfold mbind, M_bind, emit, modify. simpl.
      by rewrite <- app_assoc. }
  rewrite Hrun. clear Hrun.
  destruct (tlb_unmap_hmm_removals va n hp huge m0) as [t [Ht HP]].
  assert (Hq : Forall quiet t)
    by (eapply Forall_impl; [exact HP | apply removal_quiet]).
  pose proof (is_thp_calls_quiet m (r_start range) p) as Hqc.
  unfold mbind, M_bind, emit, modify.
  destruct (tlb_unmap_hmm va n hp huge m0) as [[[] | c] m1]; simpl in *.
  - exists t. split; [done |].
    assert (Hev : new_events m
      (set_trace (trace m1 ++ [EvMutexUnlock mmu_lock]) m1)
      = is_thp_calls m (r_start range) p
        ++ [lock_taken range; EvMmuIntervalSetSeq seq] ++ t ++ [EvMutexUnlock mmu_lock]).
    { apply new_events_app. simpl. rewrite Ht, <- !app_assoc. reflexivity. }
    rewrite Hev. split; [done |]. split; [done |].
    unfold lock_balanced. rewrite lock_balanced_quiet by (done || lia).
    unfold lock_taken.
    destruct (r_blockable range); simpl;
      rewrite lock_balanced_quiet by (done || lia); reflexivity.
  - exists t. split; [done |]. split; [| done].
    apply new_events_app. rewrite Ht, app_nil_r, <- !app_assoc. reflexivity.
Qed.

Lemma cyt_interval_invalidate_locks_witness :
  let k := kernel_with [] 0 (fun _ => None) in
  let '(o, m') :=
    cyt_interval_invalidate (K := x86_64) k 42 range_one_page 7 machine_exhausted in
  exists t,
    Forall (fun e => is_tlb_removal e = true) t
    /\ new_events machine_exhausted m'
       = is_thp_calls (K := x86_64) machine_exhausted (r_start range_one_page) 0x55
         ++ [lock_taken range_one_page; EvMmuIntervalSetSeq 7] ++ t ++
         match o with
         | Done _ => [EvMutexUnlock mmu_lock]
         | Oops _ => []
         end
    /\ match o with
       | Done r => r = true
                   /\ lock_balanced mmu_lock (new_events machine_exhausted m') = true
       | Oops _ => True
       end.
Proof.
  apply (cyt_interval_invalidate_locks (K := x86_64)
           (kernel_with [] 0 (fun _ => None)) 42 range_one_page 7 0x55
           machine_exhausted);
    reflexivity.
Defined.

(** ** Host fault *)

Lemma tlb_map_hmm_mapping_for `{K : hmm_defs} v pa n host ct hp huge :
  emits (mapping_for host ct hp huge) (tlb_map_hmm v pa n host ct hp huge).
Proof.
  assert (Hl : forall fuel pg nm i va,
    emits (mapping_for host ct hp huge)
      (tlb_map_loop fuel huge pg nm pa host ct hp i va)).
  { induction fuel as [| fuel IH]; intros; simpl.
    - destruct (_ && _); [apply emits_oops | apply emits_ret].
    - destruct (_ && _); [| apply emits_ret].
      apply emits_bind; [apply rd_emits |]. intros p.
      destruct (p =? 0); [apply IH |].
      unfold create_tlb_mapping.
      apply emits_bind; [| intros; apply IH].
      apply emits_bind; [| intros; apply emits_modify; reflexivity].
      apply emits_emit. intros te [= <-]. done. }
  unfold tlb_map_hmm. apply emits_bind; [apply emits_gets |]. intros bd. apply Hl.
Qed.

Lemma host_fault_loop_no_mapping start end_ script : forall pfns m,
  wp (host_fault_loop script start end_ pfns) m
    (fun o m' t =>
       tlb m' = tlb m /\ existsb is_tlb_mapping t = false
       /\ match o with
          | Done (r, leave, _) =>
              if leave : bool then r = 0 /\ In (EvMmuIntervalReadRetry false) t
              else r <> 0
          | Oops _ => True
          end).
Proof.
  induction script as [| e script IH]; intros pfns m; simpl.
  - by apply wp_oops.
  - destruct (fe_time_after e).
    { apply wp_ret. repeat split. unfold EBUSY. lia. }
    do 2 apply wp_bind_emit.
    destruct (Z.eqb_spec (fe_fault_ret e) 0) as [H0 | H0]; simpl.
    + apply wp_bind_emit. destruct (fe_read_retry e).
      * eapply wp_mono; [apply IH |]. simpl. intros o m' t (Ht & Hm & Ho).
        split; [done |]. split; [done |].
        destruct o as [[[r leave] pf] |]; [| done].
        destruct leave; [| done]. destruct Ho as [-> Hin]. auto 10.
      * apply wp_ret. repeat split; simpl; auto.
    + destruct (fe_fault_ret e =? - EBUSY).
      * eapply wp_mono; [apply IH |]. simpl. intros o m' t (Ht & Hm & Ho).
        split; [done |]. split; [done |].
        destruct o as [[[r leave] pf] |]; [| done].
        destruct leave; [| done]. destruct Ho as [-> Hin]. auto 10.
      * apply wp_bind_emit, wp_ret. repeat split; simpl; auto.
Qed.

(** X13: a host fault that returns an error has not touched the TLB; it
    installs mappings only after a range fault that succeeded on a sequence
    number still current, it then returns 0, and every mapping it installs
    is a stream mapping of the context and host process of the request. *)
Theorem fpga_do_host_fault_maps_on_success `{K : hmm_defs} (k : kernel)
    (args : cyt_migrate) (m : machine) :
  let '(o, m') := fpga_do_host_fault k args m in
  let t := new_events m m' in
  Forall (mapping_for STRM_ACCESS (ctid args) (hpid args) (hugepages args)) t
  /\ forall r, o = Done r ->
       (r <> 0 -> tlb m' = tlb m /\ existsb is_tlb_mapping t = false)
       /\ (existsb is_tlb_mapping t = true ->
           r = 0 /\ In (EvMmuIntervalReadRetry false) t).
Proof.
  pose proof (wp_run (fpga_do_host_fault k args) m
    (fun o m' t =>
       Forall (mapping_for STRM_ACCESS (ctid args) (hpid args) (hugepages args)) t
       /\ forall r, o = Done r ->
            (r <> 0 -> tlb m' = tlb m /\ existsb is_tlb_mapping t = false)
            /\ (existsb is_tlb_mapping t = true ->
                r = 0 /\ In (EvMmuIntervalReadRetry false) t))) as H.
  destruct (fpga_do_host_fault k args m) as [o m']. apply H. clear H.
  unfold fpga_do_host_fault.
  destruct (k_notifier k (hpid args)); simpl.
  2: { apply wp_ret. split; [done |]. intros r _. split; [done |]. intros [=]. }
  destruct (k_vmalloc k BufPfns); simpl.
  2: { apply wp_ret. split; [done |]. intros r _. split; [done |]. intros [=]. }
  apply wp_bind_gets. apply wp_bind.
  eapply wp_mono; [apply host_fault_loop_no_mapping |]. simpl.
  intros o1 m1 t1 (Ht & Hm & Ho).
  assert (Hnm : Forall (mapping_for STRM_ACCESS (ctid args) (hpid args)
                          (hugepages args)) t1).
  { clear -Hm. induction t1 as [| e t1 IH]; [done |]. simpl in Hm.
    apply orb_false_elim in Hm as [He Hm]. constructor; [| auto].
    intros te ->. discriminate He. }
  destruct o1 as [[[r leave] pfns] | c].
  2: { split; [done |]. intros r [=]. }
  destruct leave.
  - destruct Ho as [-> Hin]. apply wp_bind.
    eapply wp_mono; [apply emits_wp, tlb_map_hmm_mapping_for |]. simpl.
    intros o2 m2 t2 Hf. destruct o2 as [[] | c].
    + apply wp_ret. rewrite app_nil_r. split; [by apply Forall_app |].
      intros r [= <-]. split; [done |]. intros _. split; [done |].
      apply in_or_app. auto.
    + split; [by apply Forall_app |]. intros r [=].
  - apply wp_ret. rewrite app_nil_r. split; [done |].
    intros r' [= <-]. split; [done |]. rewrite Hm. intros [=].
Qed.

(** ** What a migration calls *)

(** The steps shared by the migrations make plain calls only. *)
Section Plain.
Context `{K : hmm_defs} (k : kernel).
Context (P : event -> Prop) (HP : forall e, plain_event e = true -> P e).

#[local] Hint Extern 1 (P _) => (apply HP; reflexivity) : emits.
#[local] Hint Resolve rd_emits wr_emits zone_info_emits emits_modify
  push_chunk_pages_trace : emits.

Lemma host_ptw_plain va hp : emits P (host_ptw k va hp).
Proof. unfold host_ptw, pr_err. emits_go. Qed.

Lemma tlb_unmap_hmm_plain v n hp huge : emits P (tlb_unmap_hmm v n hp huge).
Proof.
  eapply emits_weaken; [| apply tlb_unmap_hmm_removals].
  intros e He. apply HP. by destruct e.
Qed.

Lemma cpu_free_private_page_plain p : emits P (cpu_free_private_page p).
Proof. unfold cpu_free_private_page. emits_go. Qed.

Lemma alloc_private_page_plain : emits P alloc_private_page.
Proof. unfold alloc_private_page, alloc_new_prvt_pages, pr_err. emits_go. Qed.

#[local] Hint Resolve host_ptw_plain tlb_unmap_hmm_plain
  cpu_free_private_page_plain alloc_private_page_plain : emits.

Lemma undo_staging_plain n : forall i dp d, emits P (undo_staging n i dp d).
Proof. induction n; intros; simpl; emits_go. Qed.

Lemma to_host_addresses_plain n : forall i st ha ca,
  emits P (to_host_addresses n i st ha ca).
Proof. induction n; intros; simpl; emits_go. Qed.

Lemma vacate_card_memory_plain n : forall i j sp c,
  emits P (vacate_card_memory n i j sp c).
Proof. induction n; intros; simpl; emits_go. Qed.

Lemma zone_seek_plain fuel : forall st i j, emits P (zone_seek fuel st i j).
Proof. induction fuel; intros; simpl; emits_go. Qed.

#[local] Hint Resolve zone_seek_plain : emits.

Lemma zone_setup_plain n : forall args st c i j,
  emits P (zone_setup k n args st c i j).
Proof. induction n; intros; simpl; emits_go. Qed.

Lemma to_card_addresses_plain n : forall i st ha ca,
  emits P (to_card_addresses n i st ha ca).
Proof. induction n; intros; simpl; emits_go. Qed.

Lemma to_host_huge_block_plain fuel : forall src n i tmp st,
  emits P (to_host_huge_block fuel src n i tmp st).
Proof. induction fuel; intros; simpl; emits_go. Qed.

#[local] Hint Resolve to_host_huge_block_plain : emits.

Lemma to_host_stage_plain fuel : forall args bd src npages pg i st,
  emits P (to_host_stage k fuel args bd src npages pg i st).
Proof. induction fuel; intros; simpl; emits_go. Qed.

Lemma to_card_stage_plain n : forall args src i st,
  emits P (to_card_stage k n args src i st).
Proof. induction n; intros; simpl; unfold pr_err; emits_go. Qed.

Lemma cpu_huge_block_plain n : forall src i tmp st,
  emits P (cpu_huge_block n src i tmp st).
Proof. induction n; intros; simpl; emits_go. Qed.

Lemma cpu_undo_staging_plain n : forall i dp d,
  emits P (cpu_undo_staging n i dp d).
Proof. induction n; intros; simpl; emits_go. Qed.

Lemma cpu_addresses_plain page_word n : forall i st ha ca,
  emits P (cpu_addresses page_word n i st ha ca).
Proof. induction n; intros; simpl; emits_go. Qed.

End Plain.

Lemma plain_in_migration e : plain_event e = true -> in_migration e.
Proof.
  unfold in_migration. destruct e; simpl; done.
Qed.

Section Alphabet.
Context `{K : hmm_defs} (k : kernel).

#[local] Hint Extern 1 (in_migration _) => reflexivity : emits.
#[local] Hint Resolve plain_in_migration : emits.
#[local] Hint Resolve rd_emits wr_emits zone_info_emits host_ptw_plain
  tlb_unmap_hmm_plain cpu_free_private_page_plain alloc_private_page_plain
  undo_staging_plain to_host_addresses_plain vacate_card_memory_plain
  zone_setup_plain to_card_addresses_plain to_host_stage_plain
  to_card_stage_plain cpu_huge_block_plain cpu_undo_staging_plain
  cpu_addresses_plain : emits.

Lemma tlb_map_hmm_alphabet v pa n host ct hp huge :
  emits in_migration (tlb_map_hmm v pa n host ct hp huge).
Proof.
  eapply emits_weaken; [| apply tlb_map_hmm_capped].
  intros e (i & te & -> & _). reflexivity.
Qed.

#[local] Hint Resolve tlb_map_hmm_alphabet : emits.

Lemma fpga_migrate_to_host_alphabet args :
  emits in_migration (fpga_migrate_to_host k args).
Proof. unfold fpga_migrate_to_host, pr_err. emits_go. Qed.

Lemma fpga_migrate_to_card_alphabet args :
  emits in_migration (fpga_migrate_to_card k args).
Proof. unfold fpga_migrate_to_card, pr_err. emits_go. Qed.

Lemma cpu_migrate_to_host_alphabet pid_array page_word vmf :
  emits in_migration (cpu_migrate_to_host k pid_array page_word vmf).
Proof. unfold cpu_migrate_to_host, pr_err. emits_go. Qed.

End Alphabet.

Lemma in_migration_quiet e : in_migration e -> quiet e.
Proof.
  unfold in_migration, quiet. destruct e; simpl; try done;
    destruct l; simpl; done.
Qed.

(** X14: the two migrations and the CPU fault handler make only the calls
    of a migration: none of them takes, tries or releases the migration
    lock, none takes a reference or the read lock on the mm, and none uses
    the range-fault API; whoever calls them has to hold what they need. *)
Theorem migrations_make_migration_calls_only `{K : hmm_defs} (k : kernel)
    (args : cyt_migrate) (pid_array : list Z) (page_word : page -> Z)
    (vmf : vm_fault) (m : machine) :
  Forall in_migration (new_events m (fpga_migrate_to_host k args m).2)
  /\ Forall in_migration (new_events m (fpga_migrate_to_card k args m).2)
  /\ Forall in_migration
       (new_events m (cpu_migrate_to_host k pid_array page_word vmf m).2).
Proof.
  repeat split.
  - destruct (fpga_migrate_to_host_alphabet k args m) as [t [Ht HP]].
    by rewrite (new_events_app _ _ _ Ht).
  - destruct (fpga_migrate_to_card_alphabet k args m) as [t [Ht HP]].
    by rewrite (new_events_app _ _ _ Ht).
  - destruct (cpu_migrate_to_host_alphabet k pid_array page_word vmf m)
      as [t [Ht HP]].
    by rewrite (new_events_app _ _ _ Ht).
Qed.

(** ** The callers of the migrations *)

(** The bracket of the fault handler around its migration [c]. *)
Lemma handler_bracket_run (P : event -> Prop) (c : M Z) (m : machine) :
  emits P c ->
  let m0 := set_trace (trace m ++ [EvMmget; EvMmapReadLock]) m in
  let '(o, m') :=
    (emit EvMmget ;; emit EvMmapReadLock ;;
     ret_val ← c;
     emit EvMmapReadUnlock ;; emit EvMmput ;;
     mret ret_val) m in
  exists t,
    Forall P t
    /\ trace m' =
         trace m ++ [EvMmget; EvMmapReadLock] ++ t ++
         match o with
         | Done _ => [EvMmapReadUnlock; EvMmput]
         | Oops _ => []
         end
    /\ o = (c m0).1 /\ tlb m' = tlb (c m0).2.
Proof.
  intros Hc m0.
  destruct (Hc m0) as [t [Ht HP]].
  unfold mbind, M_bind, emit, modify at 1 2. simpl.
  rewrite <- !app_assoc. simpl.
  change (c _) with (c m0).
  destruct (c m0) as [[r | e] m1] eqn:E; simpl in *.
  - exists t. split; [done |]. split; [| done].
    rewrite Ht, <- !app_assoc. reflexivity.
  - exists t. split; [done |]. split; [| done].
    rewrite Ht, app_nil_r, <- !app_assoc. reflexivity.
Qed.

(** X15: once its [args] struct is allocated and the task is found, the
    fault handler looks up the vma and runs [is_thp] before it takes any
    reference: with no vma at [vaddr] it faults there, with nothing done.
    When the page is pinned and let go, the handler takes a reference and
    the read lock on the mm, calls one migration, and gives both back in
    the reverse order on every return, the unsupported access included; it
    never takes the migration lock.  An access that is neither a host nor a
    card access is answered with [-EINVAL] and leaves the TLB alone. *)
Theorem mmu_handler_hmm_brackets `{K : hmm_defs} (k : kernel)
    (va len ct stream hp : Z) (m : machine) :
  k_vmalloc k BufArgs = true -> k_pid_task k hp = true ->
  let '(o, m') := mmu_handler_hmm k va len ct stream hp m in
  if negb (k_vma_lookup k va) then o = Oops NullDeref /\ m' = m
  else
    match k_get_user_pages_remote k va with
    | None => o = Oops NullDeref /\ new_events m m' = [EvGetUserPagesRemote va None]
    | Some p =>
        exists t,
          Forall in_migration t
          /\ new_events m m' =
               is_thp_calls m va p ++ [EvMmget; EvMmapReadLock] ++ t ++
               match o with
               | Done _ => [EvMmapReadUnlock; EvMmput]
               | Oops _ => []
               end
          /\ (stream <> HOST_ACCESS -> stream <> CARD_ACCESS ->
              o = Done (- EINVAL) /\ tlb m' = tlb m)
    end.
Proof.
  intros Ha Hp. unfold mmu_handler_hmm. rewrite Ha, Hp. cbn [negb].
  unfold mbind at 1, M_bind at 1, gets. cbn [fst snd].
  rewrite is_thp_bind_run.
  destruct (k_vma_lookup k va); cbn [negb]; [| done].
  destruct (k_get_user_pages_remote k va) as [p |];
    [| split; [done | by apply new_events_app]].
  set (mt := after_is_thp m va p).
  set (args := mmu_handler_args _ va len ct hp _).
  set (body := if stream =? HOST_ACCESS then fpga_migrate_to_host k args
               else if stream =? CARD_ACCESS then fpga_migrate_to_card k args
               else pr_err "access not supported, vFPGA %d" ;; mret (- EINVAL)).
  assert (Hbody : emits in_migration body).
  { unfold body. destruct (stream =? HOST_ACCESS);
      [apply fpga_migrate_to_host_alphabet |].
    destruct (stream =? CARD_ACCESS); [apply fpga_migrate_to_card_alphabet |].
    unfold pr_err. emits_go. }
  pose proof (handler_bracket_run in_migration body mt Hbody) as H.
  cbv zeta in H.
  set (m0 := set_trace (trace mt ++ [EvMmget; EvMmapReadLock]) mt) in *.
  assert (Hinv : stream <> HOST_ACCESS -> stream <> CARD_ACCESS ->
                 body m0 = (Done (- EINVAL),
                            set_trace (trace m0 ++ [EvPrErr "access not supported, vFPGA %d"]) m0)).
  { intros H1 H2. unfold body.
    destruct (Z.eqb_spec stream HOST_ACCESS); [done |].
    destruct (Z.eqb_spec stream CARD_ACCESS); [done |]. reflexivity. }
  match type of H with
  | let '(_, _) := ?x in _ => destruct x as [o m']
  end.
  destruct H as (t & HP & Ht & Ho & Htlb). exists t. split; [done |].
  subst mt. rewrite trace_after_is_thp, <- app_assoc in Ht.
  split; [by apply new_events_app |].
  intros H1 H2. rewrite (Hinv H1 H2) in Ho, Htlb. split; [done |].
  rewrite Htlb. apply after_is_thp_fields.
Qed.

Lemma mmu_handler_hmm_brackets_witness :
  let '(o, m') :=
    mmu_handler_hmm (K := x86_64) kernel_resident 0x10000 4096 3 7 42
      machine_resident in
  exists t,
    Forall in_migration t
    /\ new_events machine_resident m' =
         is_thp_calls (K := x86_64) machine_resident 0x10000 0x55
         ++ [EvMmget; EvMmapReadLock] ++ t ++
         match o with
         | Done _ => [EvMmapReadUnlock; EvMmput]
         | Oops _ => []
         end
    /\ (7 <> HOST_ACCESS (hmm_defs := x86_64) ->
        7 <> CARD_ACCESS (hmm_defs := x86_64) ->
        o = Done (- EINVAL) /\ tlb m' = tlb machine_resident).
Proof.
  apply (mmu_handler_hmm_brackets (K := x86_64) kernel_resident 0x10000 4096 3 7 42
           machine_resident); reflexivity.
Defined.

(** X16: in regular granularity, for a range that does not wrap around the
    address space, the fault handler asks the migration for exactly the
    pages the range [vaddr, vaddr + len) spans. *)
Theorem mmu_handler_hmm_regular_page_count `{K : hmm_defs}
    (bd : bus_driver_data) (va len ct hp : Z) :
  0 < PAGE_SHIFT <= 64 ->
  page_mask (stlb_meta bd) = 2 ^ 64 - 2 ^ PAGE_SHIFT ->
  0 <= va -> 0 < len -> va + len <= 2 ^ 64 ->
  n_pages (mmu_handler_args bd va len ct hp false)
  = pages_spanned PAGE_SHIFT va len.
Proof. intros. by apply mmu_handler_args_regular. Qed.

Lemma mmu_handler_hmm_regular_page_count_witness :
  n_pages (mmu_handler_args (K := x86_64) bd 0x1800 0x3000 3 42 false)
  = pages_spanned (PAGE_SHIFT (hmm_defs := x86_64)) 0x1800 0x3000.
Proof.
  apply (mmu_handler_hmm_regular_page_count (K := x86_64) bd 0x1800 0x3000 3 42).
  - simpl. lia.
  - reflexivity.
  - lia.
  - lia.
  - lia.
Defined.

(** The bracket of the two user migrations around their migration [c]. *)
Lemma user_bracket_run (P : event -> Prop) (c : M Z) (m : machine) :
  emits P c -> (forall e, P e -> quiet e) ->
  let '(o, m') :=
    (emit (EvMutexLock mmu_lock) ;; emit EvChangeTlbLock ;;
     emit EvMmget ;; emit EvMmapReadLock ;;
     ret_val ← c;
     emit EvMmapReadUnlock ;; emit EvMmput ;;
     emit EvChangeTlbLock ;; emit (EvMutexUnlock mmu_lock) ;;
     mret ret_val) m in
  exists t,
    Forall P t
    /\ trace m' =
         trace m ++
         [EvMutexLock mmu_lock; EvChangeTlbLock; EvMmget; EvMmapReadLock] ++ t ++
         match o with
         | Done _ => [EvMmapReadUnlock; EvMmput; EvChangeTlbLock;
                      EvMutexUnlock mmu_lock]
         | Oops _ => []
         end
    /\ forall d, 0 <= d ->
         waits_under_lock_from mmu_lock d
           ([EvMutexLock mmu_lock; EvChangeTlbLock; EvMmget; EvMmapReadLock] ++ t ++
            match o with
            | Done _ => [EvMmapReadUnlock; EvMmput; EvChangeTlbLock;
                         EvMutexUnlock mmu_lock]
            | Oops _ => []
            end) = true
         /\ match o with
            | Done _ =>
                lock_balanced_from mmu_lock d
                  ([EvMutexLock mmu_lock; EvChangeTlbLock; EvMmget; EvMmapReadLock]
                   ++ t ++ [EvMmapReadUnlock; EvMmput; EvChangeTlbLock;
                            EvMutexUnlock mmu_lock])
                = (d =? 0)
            | Oops _ => True
            end.
Proof.
  intros Hc HPq.
  set (m0 := set_trace (trace m ++ [EvMutexLock mmu_lock; EvChangeTlbLock;
                                    EvMmget; EvMmapReadLock]) m).
  destruct (Hc m0) as [t [Ht HP]].
  assert (Hq : Forall quiet t) by (eapply Forall_impl; [exact HP | exact HPq]).
  unfold mbind, M_bind, emit, modify at 1 2 3 4. simpl.
  rewrite <- !app_assoc. simpl.
  change (c _) with (c m0).
  destruct (c m0) as [[r | e] m1] eqn:E; simpl in *.
  - exists t. split; [done |]. split.
    + rewrite Ht, <- !app_assoc. reflexivity.
    + intros d Hd. split.
      * rewrite waits_under_lock_quiet by (done || lia). reflexivity.
      * rewrite lock_balanced_quiet by (done || lia). simpl.
        replace (d + 1 - 1) with d by lia.
        destruct (Z.leb_spec 0 (d + 1)), (Z.leb_spec 0 d); try lia;
          simpl; rewrite ?andb_true_r; done.
  - exists t. split; [done |]. split.
    + rewrite Ht, app_nil_r, <- !app_assoc. reflexivity.
    + intros d Hd. split; [| done].
      rewrite waits_under_lock_quiet by (done || lia). reflexivity.
Qed.

(** X17: a user migration to card runs [find_vma] and [is_thp] before it
    takes the migration lock: with no vma behind the address it faults
    there, with no lock taken.  When the page is pinned and let go, it takes
    the lock, the mm reference and the mm read lock, runs
    [fpga_migrate_to_card], which touches none of them, and gives them back
    in the reverse order when the migration returns; so the lock is held at
    every blocking wait of the call. *)
Theorem user_migrate_to_card_holds_mmu_lock `{K : hmm_defs} (k : kernel)
    (args : cyt_migrate) (m : machine) :
  let '(o, m') := user_migrate_to_card k args m in
  if negb (k_find_vma k (vaddr args)) then o = Oops NullDeref /\ m' = m
  else
    match k_get_user_pages_remote k (vaddr args) with
    | None =>
        o = Oops NullDeref
        /\ new_events m m' = [EvGetUserPagesRemote (vaddr args) None]
    | Some p =>
        exists t,
          Forall in_migration t
          /\ new_events m m' =
               is_thp_calls m (vaddr args) p
               ++ [EvMutexLock mmu_lock; EvChangeTlbLock; EvMmget; EvMmapReadLock]
               ++ t ++
               match o with
               | Done _ => [EvMmapReadUnlock; EvMmput; EvChangeTlbLock;
                            EvMutexUnlock mmu_lock]
               | Oops _ => []
               end
          /\ waits_under_lock mmu_lock (new_events m m') = true
          /\ match o with
             | Done _ => lock_balanced mmu_lock (new_events m m') = true
             | Oops _ => True
             end
    end.
Proof.
  unfold user_migrate_to_card. rewrite is_thp_bind_run.
  destruct (k_find_vma k (vaddr args)); cbn [negb]; [| done].
  destruct (k_get_user_pages_remote k (vaddr args)) as [p |];
    [| split; [done | by apply new_events_app]].
  set (args' := with_hugepages args _).
  pose proof (user_bracket_run in_migration (fpga_migrate_to_card k args')
                (after_is_thp m (vaddr args) p)
                (fpga_migrate_to_card_alphabet k args') in_migration_quiet) as H.
  match type of H with
  | let '(_, _) := ?x in _ => destruct x as [o m']
  end.
  destruct H as (t & HP & Ht & Hw). exists t. split; [done |].
  rewrite trace_after_is_thp, <- app_assoc in Ht.
  rewrite (new_events_app _ _ _ Ht).
  destruct (Hw 0 ltac:(lia)) as [Hw1 Hw2].
  split; [done |]. split.
  - unfold waits_under_lock. by rewrite is_thp_calls_waits.
  - destruct o; [| done]. unfold lock_balanced.
    rewrite lock_balanced_quiet by (apply is_thp_calls_quiet || lia). exact Hw2.
Qed.

(** ** The migrations *)

Section Denied.
Context `{K : hmm_defs} (k : kernel).

Ltac denied :=
  repeat wp_step; try apply wp_ret;
  (split; [eexists; split; [reflexivity | unfold ENOMEM, EFAULT; lia] |]);
  (split; [by repeat split |]); split; reflexivity.

Lemma fpga_migrate_to_host_denied args m :
  staging_denied k args MIGRATE_VMA_SELECT_DEVICE_PRIVATE ->
  wp (fpga_migrate_to_host k args) m (denied_post m).
Proof.
  unfold staging_denied, fpga_migrate_to_host. intros Hd. wp_step.
  destruct (k_vmalloc k BufSrc); cbn [negb]; [| denied].
  destruct (k_vmalloc k BufDst); cbn [negb]; [| denied].
  destruct (k_vmalloc k BufSpages); cbn [negb]; [| denied].
  destruct (k_vmalloc k BufDpages); cbn [negb]; [| denied].
  destruct (k_find_vma_intersection k _ _); cbn [negb]; [| denied].
  destruct (k_migrate_vma_setup k _ _ _) as [[[ret_val src] cpages] npages].
  cbn [fst] in Hd. wp_step.
  destruct (Z.eqb_spec ret_val 0) as [-> | Hne]; cbn [negb].
  { exfalso. intuition congruence. }
  wp_step. apply wp_ret.
  split; [by exists ret_val |]. split; [by repeat split |]. split; reflexivity.
Qed.

Lemma fpga_migrate_to_card_denied args m :
  staging_denied k args MIGRATE_VMA_SELECT_SYSTEM ->
  wp (fpga_migrate_to_card k args) m (denied_post m).
Proof.
  unfold staging_denied, fpga_migrate_to_card. intros Hd.
  destruct (k_vmalloc k BufSrc); cbn [negb]; [| denied].
  destruct (k_vmalloc k BufDst); cbn [negb]; [| denied].
  destruct (k_vmalloc k BufSpages); cbn [negb]; [| denied].
  destruct (k_vmalloc k BufDpages); cbn [negb]; [| denied].
  destruct (k_find_vma_intersection k _ _); cbn [negb]; [| denied].
  destruct (k_migrate_vma_setup k _ _ _) as [[[ret_val src] cpages] npages].
  cbn [fst] in Hd. wp_step.
  destruct (Z.eqb_spec ret_val 0) as [-> | Hne]; cbn [negb].
  { exfalso. intuition congruence. }
  wp_step. apply wp_ret.
  split; [by exists ret_val |]. split; [by repeat split |]. split; reflexivity.
Qed.

End Denied.

(** X18: a migration that the kernel stops before the invalidate step (an
    array cannot be allocated, the range has no vma, or [migrate_vma_setup]
    fails) returns an error without having sent any command to the TLB,
    and the free list, the chunks, the zone data, the residency list and
    the TLB are as before; this holds in both directions. *)
Theorem migration_denied_leaves_device `{K : hmm_defs} (k : kernel)
    (args : cyt_migrate) (m : machine) :
  (staging_denied k args MIGRATE_VMA_SELECT_DEVICE_PRIVATE ->
   let '(o, m') := fpga_migrate_to_host k args m in
   denied_post m o m' (new_events m m'))
  /\ (staging_denied k args MIGRATE_VMA_SELECT_SYSTEM ->
      let '(o, m') := fpga_migrate_to_card k args m in
      denied_post m o m' (new_events m m')).
Proof.
  split; intros Hd.
  - pose proof (wp_run _ m _ (fpga_migrate_to_host_denied k args m Hd)) as H.
    by destruct (fpga_migrate_to_host k args m).
  - pose proof (wp_run _ m _ (fpga_migrate_to_card_denied k args m Hd)) as H.
    by destruct (fpga_migrate_to_card k args m).
Qed.

Lemma migration_denied_leaves_device_witness :
  let k := {| k_vmalloc := fun _ => false;
              k_find_vma_intersection := fun _ _ => true;
              k_migrate_vma_setup := fun _ _ _ => (0, [], 0, 0);
              k_alloc_page_vma := fun _ => None;
              k_alloc_pages_vma := fun _ _ => None;
              k_page_tables := fun _ _ => PtwExit at_pte;
              k_alloc_card_memory := fun _ _ => None;
              k_find_vma := fun _ => true;
              k_vma_lookup := fun _ => true;
              k_get_user_pages_remote := fun _ => Some 0x55;
              k_is_transparent_hugepage := fun _ => false;
              k_pid_task := fun _ => true;
              k_mutex_trylock := fun _ => true;
              k_notifier := fun _ => true |} in
  let '(o, m') := fpga_migrate_to_card (K := x86_64) k args_three machine_exhausted in
  denied_post machine_exhausted o m' (new_events machine_exhausted m').
Proof.
  intros k.
  apply (proj2 (migration_denied_leaves_device (K := x86_64) k args_three
                  machine_exhausted)).
  left. reflexivity.
Defined.

Section Access.
Context `{K : hmm_defs} (k : kernel).

Lemma benign_mapping_for host ct hp huge e :
  benign e = true -> mapping_for host ct hp huge e.
Proof.
  intros H te ->. apply benign_spec in H as (_ & H & _). discriminate H.
Qed.

Lemma stage_mapping_for host ct hp huge e :
  on_lock mmu_lock e = false -> is_tlb_mapping e = false ->
  mapping_for host ct hp huge e.
Proof. intros _ H te ->. discriminate H. Qed.

#[local] Hint Resolve benign_mapping_for stage_mapping_for : emits.
#[local] Hint Extern 1 (mapping_for _ _ _ _ _) => (intros ? [=]) : emits.
#[local] Hint Resolve rd_emits wr_emits zone_info_emits host_ptw_emits
  tlb_unmap_hmm_emits cpu_free_private_page_emits alloc_private_page_emits
  put_page_emits undo_staging_emits to_host_addresses_emits vacate_card_memory_emits
  zone_seek_emits zone_setup_emits to_card_addresses_emits
  to_host_stage_emits to_card_stage_emits tlb_map_hmm_mapping_for : emits.

Lemma fpga_migrate_to_host_access args :
  emits (mapping_for STRM_ACCESS (ctid args) (hpid args) (hugepages args))
    (fpga_migrate_to_host k args).
Proof. unfold fpga_migrate_to_host, pr_err. emits_go. Qed.

Lemma fpga_migrate_to_card_access args :
  emits (mapping_for CARD_ACCESS (ctid args) (hpid args) (hugepages args))
    (fpga_migrate_to_card k args).
Proof. unfold fpga_migrate_to_card, pr_err. emits_go. Qed.

End Access.

(** X19: every TLB mapping a migration to card installs is a card-access
    mapping, and every one a migration to host installs is a stream
    mapping, each for the context, the host process and the page size of
    the request. *)
Theorem migrations_map_for_their_request `{K : hmm_defs} (k : kernel)
    (args : cyt_migrate) (m : machine) :
  Forall (mapping_for STRM_ACCESS (ctid args) (hpid args) (hugepages args))
    (new_events m (fpga_migrate_to_host k args m).2)
  /\ Forall (mapping_for CARD_ACCESS (ctid args) (hpid args) (hugepages args))
       (new_events m (fpga_migrate_to_card k args m).2).
Proof.
  split.
  - destruct (fpga_migrate_to_host_access k args m) as [t [Ht HP]].
    by rewrite (new_events_app _ _ _ Ht).
  - destruct (fpga_migrate_to_card_access k args m) as [t [Ht HP]].
    by rewrite (new_events_app _ _ _ Ht).
Qed.

Lemma wp_bind_nomap {A} (c : M A) (f : A -> M Z) m :
  emits (fun e => is_tlb_mapping e = false) c ->
  (forall a m1, wp (f a) m1 (fun o _ t => maps_only_on_success o t)) ->
  wp (c ≫= f) m (fun o _ t => maps_only_on_success o t).
Proof.
  intros Hc Hf. apply wp_bind.
  eapply wp_mono; [apply emits_wp, Hc |]. simpl.
  intros o m1 t1 H1. apply existsb_false_Forall in H1.
  destruct o as [a | c0]; [| by intros r [=]].
  eapply wp_mono; [apply Hf |]. simpl.
  intros o m2 t2 H2 r Hr Hex. rewrite existsb_app, H1 in Hex. by apply (H2 r).
Qed.

Lemma wp_map_then_ret {A} P (c : M A) (v : Z) m :
  emits P c -> v = 0 ->
  wp (c ;; mret v) m (fun o _ t => maps_only_on_success o t).
Proof.
  intros Hc ->. apply wp_bind.
  eapply wp_mono; [apply emits_wp, Hc |]. simpl.
  intros o m1 t1 _. destruct o as [a | c0]; [| by intros r [=]].
  apply wp_ret. by intros r [= <-].
Qed.

Section OnSuccess.
Context `{K : hmm_defs} (k : kernel).

Lemma benign_no_mapping e : benign e = true -> is_tlb_mapping e = false.
Proof. intros H. by apply benign_spec in H as (_ & H & _). Qed.

#[local] Hint Resolve benign_no_mapping : emits.
#[local] Hint Extern 2 (forall e, _ -> _ -> is_tlb_mapping e = false) =>
  (intros; assumption) : emits.
#[local] Hint Resolve rd_emits wr_emits zone_info_emits host_ptw_emits
  tlb_unmap_hmm_emits cpu_free_private_page_emits alloc_private_page_emits
  put_page_emits undo_staging_emits to_host_addresses_emits vacate_card_memory_emits
  zone_seek_emits zone_setup_emits to_card_addresses_emits
  to_host_stage_emits to_card_stage_emits : emits.

Ltac nomap_leaf :=
  lazymatch goal with
  | |- wp (mret _) _ _ => apply wp_ret; intros ? _ Hex; discriminate Hex
  | |- wp (oops _) _ _ => apply wp_oops; intros ? Hd; discriminate Hd
  end.

Ltac nomap_step :=
  lazymatch goal with
  | |- wp (mret _) _ _ => nomap_leaf
  | |- wp (oops _) _ _ => nomap_leaf
  | |- wp (if ?b then _ else _) _ _ => destruct b eqn:?
  | |- wp (match ?x with _ => _ end) _ _ => destruct x eqn:?
  | |- wp (mbind (fun _ => mret _) (tlb_map_hmm _ _ _ _ _ _ _)) _ _ =>
      eapply wp_map_then_ret; [apply tlb_map_hmm_capped |]
  | |- wp (mbind _ _) _ _ =>
      apply wp_bind_nomap; [solve [unfold pr_err; emits_go] | intros]
  end.

Ltac ret_is_0 :=
  match goal with
  | H : negb (?z =? 0) = false |- ?z = 0 =>
      apply negb_false_iff in H; by apply Z.eqb_eq
  end.

Lemma fpga_migrate_to_host_maps_on_success args m :
  wp (fpga_migrate_to_host k args) m (fun o _ t => maps_only_on_success o t).
Proof. unfold fpga_migrate_to_host. repeat nomap_step. ret_is_0. Qed.

Lemma fpga_migrate_to_card_maps_on_success args m :
  wp (fpga_migrate_to_card k args) m (fun o _ t => maps_only_on_success o t).
Proof. unfold fpga_migrate_to_card. repeat nomap_step. ret_is_0. Qed.

End OnSuccess.

(** X20: in both directions, a migration that returns an error has
    installed no TLB mapping: the entries are written only at the very
    end of a call that returns 0. *)
Theorem migrations_map_only_on_success `{K : hmm_defs} (k : kernel)
    (args : cyt_migrate) (m : machine) :
  (let '(o, m') := fpga_migrate_to_host k args m in
   maps_only_on_success o (new_events m m'))
  /\ (let '(o, m') := fpga_migrate_to_card k args m in
      maps_only_on_success o (new_events m m')).
Proof.
  split.
  - pose proof (wp_run _ m _ (fpga_migrate_to_host_maps_on_success k args m)) as H.
    by destruct (fpga_migrate_to_host k args m).
  - pose proof (wp_run _ m _ (fpga_migrate_to_card_maps_on_success k args m)) as H.
    by destruct (fpga_migrate_to_card k args m).
Qed.

(** ** The CPU fault handler *)

Section CpuHandler.
Context `{K : hmm_defs} (k : kernel) (pid_array : list Z) (page_word : page -> Z).

Lemma cpu_migrate_to_host_denied_wp vmf m zd hp :
  cpu_fault_ready pid_array vmf m zd hp -> cpu_fault_denied k m zd vmf ->
  wp (cpu_migrate_to_host k pid_array page_word vmf) m (cpu_denied_post m).
Proof.
  intros (Hz & Hc & Hp) Hd. unfold cpu_denied_post. unfold cpu_fault_denied, cpu_fault_end,
    cpu_fault_start in Hd. unfold cpu_migrate_to_host.
  unfold zone_info. apply wp_bind. apply wp_bind_gets. rewrite Hz.
  apply wp_ret. apply wp_bind_gets.
  replace (pi_ctid zd) with (Z.of_nat (Z.to_nat (pi_ctid zd))) at 1 by lia.
  eapply wp_bind_rd; [exact Hp |].
  destruct (k_vmalloc k BufSrc); cbn [negb];
    [| repeat wp_step; by repeat split].
  destruct (k_vmalloc k BufDst); cbn [negb];
    [| repeat wp_step; by repeat split].
  destruct (k_vmalloc k BufSpages); cbn [negb];
    [| repeat wp_step; by repeat split].
  destruct (k_vmalloc k BufDpages); cbn [negb];
    [| repeat wp_step; by repeat split].
  destruct (k_migrate_vma_setup k _ _ _) as [[[ret_val src] cpages] npages].
  cbn [fst] in Hd. wp_step.
  destruct (Z.eqb_spec ret_val 0) as [-> | Hne]; cbn [negb].
  { exfalso. intuition congruence. }
  repeat wp_step. by repeat split.
Qed.

Lemma tlb_unmap_hmm_regular_full v n hp m :
  0 <= n < 2 ^ 31 ->
  wp (tlb_unmap_hmm v n hp false) m
    (fun o m' t =>
       o = Done tt /\ t = tlb_unmaps v n hp ++ tlb_invalidates v n hp
       /\ same_pool m m' /\ zone_device_data m' = zone_device_data m
       /\ migrated_pages m' = migrated_pages m
       /\ small_range_cleared v n hp (tlb m) (tlb m')).
Proof.
  intros Hn.
  eapply wp_mono; [apply wp_self, tlb_unmap_hmm_regular_wp, Hn |]. simpl.
  intros o m' t [(-> & -> & Hp & Hz & Hg) Heq].
  do 5 (split; [done |]).
  pose proof (tlb_unmap_hmm_cleared v n hp m Hn) as Hc.
  rewrite <- Heq in Hc. exact Hc.
Qed.

Lemma wp_bind_rd0 {A B} (a : list A) v (f : A -> M B) m Q :
  a !! 0%nat = Some v -> wp (f v) m Q -> wp (rd a 0 ≫= f) m Q.
Proof. exact (wp_bind_rd a 0%nat v f m Q). Qed.

Lemma wp_bind_wr0 {A B} (a : list A) v (f : list A -> M B) m Q :
  (0 < length a)%nat -> wp (f (<[0%nat := v]> a)) m Q ->
  wp (wr a 0 v ≫= f) m Q.
Proof. exact (wp_bind_wr a 0%nat v f m Q). Qed.

Lemma wp_wr0 {A} (a : list A) v m Q :
  (0 < length a)%nat -> Q (Done (<[0%nat := v]> a)) m [] -> wp (wr a 0 v) m Q.
Proof.
  intros Hl HQ. unfold wr. destruct (Z.ltb_spec 0 (Z.of_nat (length a))); [| lia].
  simpl. by apply wp_ret.
Qed.

(** The handler up to its staging step, for a regular page. *)
Ltac cpu_prologue Hs :=
  destruct Hs as ((Hz & Hc & Hp) & Hh & Hb1 & Hb2 & Hb3 & Hb4 & Hset & Hn & Hs0);
  unfold cpu_fault_end, cpu_fault_start in Hset;
  unfold cpu_migrate_to_host, zone_info;
  apply wp_bind; apply wp_bind_gets; rewrite Hz; apply wp_ret;
  apply wp_bind_gets;
  match goal with
  | |- wp (mbind _ (rd _ (pi_ctid ?zd))) _ _ =>
      replace (pi_ctid zd) with (Z.of_nat (Z.to_nat (pi_ctid zd))) at 1 by lia
  end;
  eapply wp_bind_rd; [exact Hp |];
  rewrite Hb1, Hb2, Hb3, Hb4, Hset, Hh; cbn [negb Z.eqb];
  wp_step; apply wp_bind;
  eapply wp_mono; [apply tlb_unmap_hmm_regular_full; exact Hn |];
  cbn beta;
  intros ? m1 ? (-> & -> & Hpool & Hzone & Hmig & Htlb);
  machine_simpl;
  eapply wp_bind_rd0; [exact Hs0 |].

Lemma cpu_migrate_to_host_not_possible_wp vmf m zd hp s0 src cpages npages :
  cpu_fault_staged k pid_array vmf m zd hp s0 src cpages npages ->
  Z.land s0 MIGRATE_PFN_MIGRATE = 0 ->
  wp (cpu_migrate_to_host k pid_array page_word vmf) m
    (cpu_not_possible_post m zd vmf hp npages).
Proof.
  intros Hs Hm. unfold cpu_not_possible_post. cpu_prologue Hs.
  rewrite Hm. cbn [Z.eqb]. repeat wp_step.
  split; [done |]. split.
  { unfold cpu_fault_prologue, cpu_fault_end, cpu_fault_start.
    rewrite Hh. simpl. by rewrite <- ?app_assoc. }
  split; [unfold cpu_fault_start; rewrite Hh; exact Htlb |].
  split; [done |]. apply Hpool.
Qed.

Lemma cpu_migrate_to_host_alloc_fails_wp vmf m zd hp s0 src cpages npages :
  cpu_fault_staged k pid_array vmf m zd hp s0 src cpages npages ->
  Z.land s0 MIGRATE_PFN_MIGRATE <> 0 ->
  k_alloc_page_vma k (cpu_fault_start m zd vmf) = None ->
  wp (cpu_migrate_to_host k pid_array page_word vmf) m
    (cpu_alloc_fails_post m zd vmf hp npages).
Proof.
  intros Hs Hm Ha. unfold cpu_alloc_fails_post. unfold cpu_fault_start in Ha.
  cpu_prologue Hs.
  rewrite Hh in Ha.
  destruct (Z.eqb_spec (Z.land s0 MIGRATE_PFN_MIGRATE) 0) as [| _]; [done |].
  rewrite Ha. rewrite (u32_small 1) by lia.
  apply wp_bind. cbn [spages dpages dst zeroed Z.to_nat Pos.to_nat Pos.iter_op
                      replicate Nat.add].
  apply wp_bind_wr0; [simpl; lia |]. wp_step.
  apply wp_bind_wr0; [simpl; lia |]. wp_step.
  cbn [dpages_fail dpages dst]. repeat wp_step.
  cbn [cpu_undo_staging]. change 0 with (Z.of_nat 0) at 1.
  eapply wp_bind, wp_bind_rd0; [reflexivity |]. apply wp_ret.
  repeat wp_step.
  split; [done |]. split.
  { unfold cpu_fault_prologue, cpu_fault_end, cpu_fault_start.
    rewrite Hh. simpl. by rewrite <- ?app_assoc. }
  split; [unfold cpu_fault_start; rewrite Hh; exact Htlb |].
  split; [done |]. apply Hpool.
Qed.

Lemma cpu_migrate_to_host_moves_page_wp vmf m zd hp s0 src p sp info :
  cpu_fault_staged k pid_array vmf m zd hp s0 src 1 1 ->
  Z.land s0 MIGRATE_PFN_MIGRATE <> 0 ->
  k_alloc_page_vma k (cpu_fault_start m zd vmf) = Some p ->
  migrate_pfn_to_page s0 = Some sp ->
  zone_device_data m !! sp = Some info ->
  k_vmalloc k BufHostAddress = true -> k_vmalloc k BufCardAddress = true ->
  k_vmalloc k BufCalloc = true ->
  wp (cpu_migrate_to_host k pid_array page_word vmf) m
    (cpu_moved_post m zd vmf hp s0 p info).
Proof.
  intros Hs Hm Ha Hsp Hinfo Hb5 Hb6 Hb7. unfold cpu_moved_post.
  unfold cpu_fault_start in Ha.
  cpu_prologue Hs. rewrite Hh in Ha.
  destruct (Z.eqb_spec (Z.land s0 MIGRATE_PFN_MIGRATE) 0) as [| _]; [done |].
  rewrite Ha, Hsp, Hb5, Hb6, Hb7. rewrite (u32_small 1) by lia.
  apply wp_bind. cbn [spages dpages dst zeroed Z.to_nat Pos.to_nat Pos.iter_op
                      replicate Nat.add].
  apply wp_bind_wr0; [simpl; lia |]. wp_step.
  apply wp_bind_wr0; [simpl; lia |]. wp_step.
  apply wp_bind_wr0; [simpl; lia |]. apply wp_ret.
  cbn [dpages_fail dpages dst spages negb list_insert insert Z.ltb Z.compare].
  apply wp_bind. cbn [cpu_addresses].
  eapply wp_bind_rd0; [reflexivity |].
  apply wp_bind. apply wp_wr0; [simpl; lia |].
  eapply wp_bind_rd0; [reflexivity |].
  apply wp_bind. apply wp_wr0; [simpl; lia |].
  apply wp_ret. cbn [list_insert insert].
  apply wp_bind. apply wp_bind. cbn [vacate_card_memory].
  eapply wp_bind_rd0; [reflexivity |].
  unfold zone_info. apply wp_bind. apply wp_bind_gets. machine_simpl.
  rewrite Hzone. machine_simpl. rewrite Hinfo. apply wp_ret.
  apply wp_bind_wr0; [simpl; lia |]. repeat wp_step.
  split; [done |]. split.
  { exists [page_word sp], [page_to_pfn p].
    unfold cpu_fault_prologue, cpu_fault_end, cpu_fault_start.
    rewrite Hh. simpl. by rewrite <- ?app_assoc. }
  split; [unfold cpu_fault_start; rewrite Hh; exact Htlb |].
  by rewrite Hmig.
Qed.

End CpuHandler.

(** X21: when the kernel stops the CPU fault handler before the invalidate
    step (an array cannot be allocated or [migrate_vma_setup] fails), the
    handler returns [VM_FAULT_SIGBUS], has sent no command to the TLB and
    leaves the device's bookkeeping as it was. *)
Theorem cpu_migrate_to_host_denied `{K : hmm_defs} (k : kernel)
    (pid_array : list Z) (page_word : page -> Z) (vmf : vm_fault)
    (m : machine) (zd : hmm_prvt_info) (hp : Z) :
  cpu_fault_ready pid_array vmf m zd hp -> cpu_fault_denied k m zd vmf ->
  let '(o, m') := cpu_migrate_to_host k pid_array page_word vmf m in
  cpu_denied_post m o m' (new_events m m').
Proof.
  intros Hr Hd.
  pose proof (wp_run _ m _
    (cpu_migrate_to_host_denied_wp k pid_array page_word vmf m zd hp Hr Hd)) as H.
  by destruct (cpu_migrate_to_host k pid_array page_word vmf m).
Qed.

Lemma cpu_migrate_to_host_denied_witness :
  let k := {| k_vmalloc := fun b => match b with BufDpages => false | _ => true end;
              k_find_vma_intersection := fun _ _ => true;
              k_migrate_vma_setup := fun _ _ _ => (0, [], 0, 0);
              k_alloc_page_vma := fun _ => None;
              k_alloc_pages_vma := fun _ _ => None;
              k_page_tables := fun _ _ => PtwExit at_pte;
              k_alloc_card_memory := fun _ _ => None;
              k_find_vma := fun _ => true;
              k_vma_lookup := fun _ => true;
              k_get_user_pages_remote := fun _ => Some 0x55;
              k_is_transparent_hugepage := fun _ => false;
              k_pid_task := fun _ => true;
              k_mutex_trylock := fun _ => true;
              k_notifier := fun _ => true |} in
  let '(o, m') :=
    cpu_migrate_to_host (K := x86_64) k pid_array_sample (fun _ => 0) vmf_resident
      machine_resident in
  cpu_denied_post machine_resident o m' (new_events machine_resident m').
Proof.
  intros k.
  apply (cpu_migrate_to_host_denied (K := x86_64) k pid_array_sample (fun _ => 0)
           vmf_resident machine_resident resident_info 42).
  - repeat split. simpl. lia.
  - do 3 right. left. reflexivity.
Defined.

(** X22: when [migrate_vma_setup] succeeds for a regular page but does not
    mark [src[0]] for migration, the handler has already removed the TLB
    entries of the range; it then logs "migration not possible" and
    returns 0, without calling [migrate_vma_pages] or
    [migrate_vma_finalize] for the migration it has set up. *)
Theorem cpu_migrate_to_host_not_possible `{K : hmm_defs} (k : kernel)
    (pid_array : list Z) (page_word : page -> Z) (vmf : vm_fault)
    (m : machine) (zd : hmm_prvt_info) (hp s0 : Z) (src : list Z)
    (cpages npages : Z) :
  cpu_fault_staged k pid_array vmf m zd hp s0 src cpages npages ->
  Z.land s0 MIGRATE_PFN_MIGRATE = 0 ->
  let '(o, m') := cpu_migrate_to_host k pid_array page_word vmf m in
  cpu_not_possible_post m zd vmf hp npages o m' (new_events m m').
Proof.
  intros Hs Hm.
  pose proof (wp_run _ m _
    (cpu_migrate_to_host_not_possible_wp k pid_array page_word vmf m zd hp s0
       src cpages npages Hs Hm)) as H.
  by destruct (cpu_migrate_to_host k pid_array page_word vmf m).
Qed.

Lemma cpu_migrate_to_host_not_possible_witness :
  let k := kernel_with [migrate_pfn 0x900] 0 (fun _ => None) in
  let '(o, m') :=
    cpu_migrate_to_host (K := x86_64) k pid_array_sample (fun _ => 0) vmf_resident
      machine_resident in
  cpu_not_possible_post (K := x86_64) machine_resident resident_info vmf_resident
    42 1 o m' (new_events machine_resident m').
Proof.
  intros k.
  apply (cpu_migrate_to_host_not_possible (K := x86_64) k pid_array_sample
           (fun _ => 0) vmf_resident machine_resident resident_info 42
           (migrate_pfn 0x900) [migrate_pfn 0x900] 0 1).
  - repeat split; simpl; lia.
  - reflexivity.
Defined.

(** X23: when the host page for a regular page cannot be allocated, the
    handler, having removed the TLB entries of the range, finishes the
    migration with [cpages = 0] and a cleared [dst], so that no page
    moves, and returns [-ENOMEM] as a [vm_fault_t]; the residency list and
    the free list are as before. *)
Theorem cpu_migrate_to_host_alloc_fails `{K : hmm_defs} (k : kernel)
    (pid_array : list Z) (page_word : page -> Z) (vmf : vm_fault)
    (m : machine) (zd : hmm_prvt_info) (hp s0 : Z) (src : list Z)
    (cpages npages : Z) :
  cpu_fault_staged k pid_array vmf m zd hp s0 src cpages npages ->
  Z.land s0 MIGRATE_PFN_MIGRATE <> 0 ->
  k_alloc_page_vma k (cpu_fault_start m zd vmf) = None ->
  let '(o, m') := cpu_migrate_to_host k pid_array page_word vmf m in
  cpu_alloc_fails_post m zd vmf hp npages o m' (new_events m m').
Proof.
  intros Hs Hm Ha.
  pose proof (wp_run _ m _
    (cpu_migrate_to_host_alloc_fails_wp k pid_array page_word vmf m zd hp s0
       src cpages npages Hs Hm Ha)) as H.
  by destruct (cpu_migrate_to_host k pid_array page_word vmf m).
Qed.

Lemma cpu_migrate_to_host_alloc_fails_witness :
  let k := kernel_with [movable 0x900] 1 (fun _ => None) in
  let '(o, m') :=
    cpu_migrate_to_host (K := x86_64) k pid_array_sample (fun _ => 0) vmf_resident
      machine_resident in
  cpu_alloc_fails_post (K := x86_64) machine_resident resident_info vmf_resident
    42 1 o m' (new_events machine_resident m').
Proof.
  intros k.
  apply (cpu_migrate_to_host_alloc_fails (K := x86_64) k pid_array_sample
           (fun _ => 0) vmf_resident machine_resident resident_info 42
           (movable 0x900) [movable 0x900] 1 1).
  - repeat split; simpl; lia.
  - discriminate.
  - reflexivity.
Defined.

(** X24: a CPU fault on a resident regular page that goes through removes
    the TLB entries of the page, allocates and locks a host page, unlinks
    the residency entry and frees its card memory, waits for the
    invalidation, runs the DMA between taking and releasing the sync lock,
    finishes the migration and returns 0.  It installs no TLB mapping.
    (These are the calls of the handler; the device page that was left is
    released by the kernel inside [migrate_vma_finalize].) *)
Theorem cpu_migrate_to_host_moves_page `{K : hmm_defs} (k : kernel)
    (pid_array : list Z) (page_word : page -> Z) (vmf : vm_fault)
    (m : machine) (zd : hmm_prvt_info) (hp s0 : Z) (src : list Z)
    (p sp : page) (info : hmm_prvt_info) :
  cpu_fault_staged k pid_array vmf m zd hp s0 src 1 1 ->
  Z.land s0 MIGRATE_PFN_MIGRATE <> 0 ->
  k_alloc_page_vma k (cpu_fault_start m zd vmf) = Some p ->
  migrate_pfn_to_page s0 = Some sp ->
  zone_device_data m !! sp = Some info ->
  k_vmalloc k BufHostAddress = true -> k_vmalloc k BufCardAddress = true ->
  k_vmalloc k BufCalloc = true ->
  let '(o, m') := cpu_migrate_to_host k pid_array page_word vmf m in
  cpu_moved_post m zd vmf hp s0 p info o m' (new_events m m').
Proof.
  intros Hs Hm Ha Hsp Hi H5 H6 H7.
  pose proof (wp_run _ m _
    (cpu_migrate_to_host_moves_page_wp k pid_array page_word vmf m zd hp s0
       src p sp info Hs Hm Ha Hsp Hi H5 H6 H7)) as H.
  by destruct (cpu_migrate_to_host k pid_array page_word vmf m).
Qed.

Lemma cpu_migrate_to_host_moves_page_witness :
  let '(o, m') :=
    cpu_migrate_to_host (K := x86_64) kernel_resident pid_array_sample
      (fun _ => 0) vmf_resident machine_resident in
  cpu_moved_post (K := x86_64) machine_resident resident_info
    vmf_resident 42 (movable 0x900) 0x77 resident_info o m'
    (new_events machine_resident m').
Proof.
  apply (cpu_migrate_to_host_moves_page (K := x86_64) kernel_resident
           pid_array_sample (fun _ => 0) vmf_resident machine_resident
           resident_info 42 (movable 0x900) [movable 0x900] 0x77 0x900
           resident_info); try reflexivity.
  - repeat split; simpl; lia.
  - discriminate.
Defined.

(** ** Teardown *)

Lemma list_del_app_fresh (f : hmm_prvt_info -> bool) pre x l :
  Forall (fun y => f y = false) pre -> f x = true ->
  list_del x (pre ++ x :: l) = pre ++ l.
Proof.
  intros Hpre Hx. induction Hpre as [| y pre Hy Hpre IH]; simpl.
  - by destruct (decide (x = x)).
  - destruct (decide (y = x)) as [-> | _]; [congruence |]. by rewrite IH.
Qed.

Lemma free_card_entries_spec ct l : forall pre m,
  Forall (fun y => of_ctid ct y = false) pre ->
  migrated_pages m = pre ++ l ->
  wp (free_card_entries (List.filter (of_ctid ct) l)) m
    (fun o m' t =>
       o = Done tt
       /\ migrated_pages m' = pre ++ List.filter (fun y => negb (of_ctid ct y)) l
       /\ t = flat_map card_entry_freed (List.filter (of_ctid ct) l)
       /\ tlb m' = tlb m /\ zone_device_data m' = zone_device_data m
       /\ free_pages m' = free_pages m /\ mem_sections m' = mem_sections m).
Proof.
  induction l as [| x l IH]; intros pre m Hpre Hm; simpl.
  - apply wp_ret. by rewrite Hm.
  - destruct (of_ctid ct x) eqn:Hx; simpl.
    + do 2 apply wp_bind_emit. apply wp_bind_modify; [done |].
      eapply wp_mono; [apply (IH pre) |]; [done | |].
      { simpl. rewrite Hm. by apply (list_del_app_fresh (of_ctid ct)). }
      simpl. intros o m' t (-> & -> & -> & Ht & Hz & Hf & Hs). done.
    + eapply wp_mono; [apply (IH (pre ++ [x])) |].
      * apply Forall_app. split; [done |]. by constructor.
      * by rewrite <- app_assoc.
      * simpl. intros o m' t (-> & -> & -> & Ht & Hz & Hf & Hs).
        by rewrite <- app_assoc.
Qed.

(** X25: [free_card_mem] of a context frees the card memory of each of
    its residency entries, one page per call and newest entry first, and
    unlinks each of them: afterwards the residency list holds no entry of
    the context and every entry of the other contexts, in their order.  It
    leaves the TLB, the free list, the chunks and the zone data alone: the
    device pages of the context are not handed back to the pool by it. *)
Theorem free_card_mem_empties_context (ct : Z) (m : machine) :
  let '(o, m') := free_card_mem ct m in
  o = Done tt
  /\ migrated_pages m'
     = List.filter (fun y => negb (of_ctid ct y)) (migrated_pages m)
  /\ new_events m m'
     = flat_map card_entry_freed (List.filter (of_ctid ct) (migrated_pages m))
  /\ tlb m' = tlb m /\ zone_device_data m' = zone_device_data m
  /\ free_pages m' = free_pages m /\ mem_sections m' = mem_sections m.
Proof.
  pose proof (wp_run (free_card_mem ct) m
    (fun o m' t =>
       o = Done tt
       /\ migrated_pages m'
          = List.filter (fun y => negb (of_ctid ct y)) (migrated_pages m)
       /\ t = flat_map card_entry_freed
                (List.filter (of_ctid ct) (migrated_pages m))
       /\ tlb m' = tlb m /\ zone_device_data m' = zone_device_data m
       /\ free_pages m' = free_pages m /\ mem_sections m' = mem_sections m)) as H.
  destruct (free_card_mem ct m) as [o m']. apply H. clear H.
  unfold free_card_mem. apply wp_bind_gets.
  apply (free_card_entries_spec ct (migrated_pages m) [] m); done.
Qed.

Lemma free_dev_sections_spec secs : forall d,
  free_dev_sections secs (set_mem_sections secs d)
  = (flat_map chunk_freed secs, without_chunks d).
Proof.
  induction secs as [| c secs IH]; intros d; [done |].
  cbn [free_dev_sections flat_map].
  change (set_mem_sections secs (set_mem_sections (c :: secs) d))
    with (set_mem_sections secs d).
  by rewrite IH.
Qed.

Lemma free_dev_sections_dev d :
  free_dev_sections (mem_sections d) d = (chunks_freed d, without_chunks d).
Proof.
  unfold chunks_freed. rewrite <- (free_dev_sections_spec (mem_sections d) d).
  by destruct d.
Qed.

Lemma free_mem_regions_from_spec n : forall i devs,
  (i + n <= length devs)%nat ->
  free_mem_regions_from n (Z.of_nat i) devs
  = (Done (take i devs ++ (without_chunks <$> take n (drop i devs))
           ++ drop (i + n) devs),
     flat_map chunks_freed (take n (drop i devs))).
Proof.
  induction n as [| n IH]; intros i devs Hlen.
  - simpl. rewrite Nat.add_0_r. by rewrite take_drop.
  - cbn [free_mem_regions_from].
    destruct (Z.ltb_spec (Z.of_nat i) 0); [lia |]. rewrite Nat2Z.id.
    destruct (lookup_lt_is_Some_2 devs i ltac:(lia)) as [d Hd].
    rewrite Hd, free_dev_sections_dev.
    replace (Z.of_nat i + 1) with (Z.of_nat (S i)) by lia.
    rewrite IH by (rewrite length_insert; lia).
    rewrite !drop_insert_lt by lia.
    rewrite take_insert_lt, (take_S_r devs i d Hd) by lia.
    rewrite insert_app_r_alt by (rewrite length_take; lia).
    rewrite length_take, Nat.min_l, Nat.sub_diag by lia.
    rewrite (drop_S devs d i Hd).
    replace (S i + n)%nat with (i + S n)%nat by lia.
    cbn [take fmap list_fmap flat_map insert list_insert].
    by rewrite <- !app_assoc.
Qed.

(** X26: [free_mem_regions] over the devices of the driver unmaps every
    chunk of every device, releases its region with the start and the
    length the chunk records, and frees it, device by device and newest
    chunk first; afterwards no device has a chunk.  Nothing else of a
    device changes: the pages on its free list stay there, though they
    belong to no chunk any more. *)
Theorem free_mem_regions_releases_all (devs : list machine) :
  free_mem_regions (Z.of_nat (length devs)) devs
  = (Done (without_chunks <$> devs), flat_map chunks_freed devs).
Proof.
  unfold free_mem_regions. rewrite Nat2Z.id.
  change 0 with (Z.of_nat 0).
  rewrite (free_mem_regions_from_spec (length devs) 0 devs) by lia.
  cbn [Nat.add]. rewrite drop_0, take_0, firstn_all, drop_all, app_nil_r. done.
Qed.

(** ** A migration to card that goes through *)

Lemma fpga_migrate_to_card_moves_page_wp `{K : hmm_defs} k args m s0 p sp c rest :
  card_move_ready k args m s0 p sp c rest ->
  wp (fpga_migrate_to_card k args) m (card_moved_post args m s0 p sp c rest).
Proof.
  intros ((Hb1 & Hb2 & Hb3 & Hb4 & Hvma & Hset & Hlen) & Hh & Hm & Hsp & Hfree
          & Hb5 & Hb6 & Hb7 & Hb8 & Hcard & Hc & Hmax).
  assert (Hn1 : n_pages args = 1) by (simpl in Hlen; lia).
  unfold card_moved_post, fpga_migrate_to_card.
  rewrite Hb1, Hb2, Hb3, Hb4, Hvma, Hset, Hh, Hn1. cbn [negb Z.eqb].
  change (Z.to_nat 1) with 1%nat.
  wp_step. apply wp_bind.
  eapply wp_mono; [apply tlb_unmap_hmm_regular_full; lia |]. cbn beta.
  intros ? m1 ? (-> & -> & Hpool & Hzone & Hmig & Htlb). machine_simpl.
  change (Z.to_nat 1) with 1%nat.
  apply wp_bind. cbn [to_card_stage zeroed replicate spages dpages dst dpages_fail].
  change (Z.to_nat 1) with 1%nat. cbn [replicate].
  eapply wp_bind_rd0; [reflexivity |].
  destruct (Z.eqb_spec (Z.land s0 MIGRATE_PFN_MIGRATE) 0) as [| _]; [done |].
  apply wp_bind_wr0; [simpl; lia |].
  apply wp_bind. unfold alloc_private_page. apply wp_bind_gets.
  destruct Hpool as (Hfp & Hsec & Hgs & Hbd). cbn [free_pages set_trace] in Hfp.
  rewrite Hfp, Hfree. apply wp_bind_ret. cbn [Z.eqb negb].
  wp_step. apply wp_bind_gets. machine_simpl. rewrite Hfp, Hfree.
  repeat wp_step.
  apply wp_bind_wr0; [simpl; lia |]. do 2 wp_step.
  apply wp_bind_wr0; [simpl; lia |]. apply wp_ret.
  cbn [dpages_fail spages dpages dst list_insert insert].
  rewrite Hb5, Hb6, Hb7, Hcard. cbn [negb Z.ltb Z.compare].
  apply wp_bind. wp_step. apply wp_ret.
  apply wp_bind. cbn [zone_setup]. rewrite Hb8. cbn [negb].
  eapply wp_bind_rd0; [reflexivity |].
  apply wp_bind. cbn [zone_seek length dpages dst].
  eapply wp_bind_rd0; [reflexivity |].
  eapply wp_bind_rd0; [reflexivity |].
  destruct (Z.eqb_spec (staged_dst s0 p) 0) as [He | _];
    [by apply staged_dst_nonzero in He |].
  apply wp_ret. repeat wp_step.
  apply wp_bind. cbn [to_card_addresses zeroed replicate spages dpages].
  change (Z.to_nat 1) with 1%nat. cbn [replicate list_insert insert].
  eapply wp_bind_rd0; [reflexivity |]. rewrite Hsp.
  apply wp_bind. apply wp_wr0; [simpl; lia |].
  eapply wp_bind_rd0; [reflexivity |].
  apply wp_bind. apply wp_bind. unfold zone_info. apply wp_bind_gets.
  machine_simpl. rewrite lookup_insert_eq. apply wp_ret.
  apply wp_wr0; [simpl; lia |]. apply wp_ret. cbn [list_insert insert card_address].
  wp_step. apply wp_bind. repeat wp_step.
  apply wp_bind. cbn [zeroed replicate list_insert insert].
  change (Z.to_nat 1) with 1%nat. cbn [zeroed replicate list_insert insert].
  eapply wp_mono;
    [apply (tlb_map_hmm_regular_wp _ [c] 1); [lia | lia |] |].
  { intros j Hj. assert (j = 0) as -> by lia. exists c. done. }
  cbn beta. intros ? m2 ? (-> & -> & Hpool2 & Hzone2 & Hmig2). apply wp_ret.
  split; [done |]. split.
  { simpl. rewrite <- ?app_assoc. simpl. rewrite ?app_nil_r. reflexivity. }
  destruct Hpool2 as (Hfp2 & _). rewrite Hfp2, Hzone2, Hmig2. machine_simpl.
  rewrite Hzone, Hmig. done.
Qed.



(** ** The DMA and its lock *)

Lemma off_lock_step l e d : on_lock l e = false -> lock_step l e d = d.
Proof.
  destruct e; simpl; try done;
    try (case_bool_decide; [done |]; case_decide; done).
  destruct taken; case_bool_decide; try done; case_decide; done.
Qed.

Lemma dma_under_lock_free l t1 : forall d t2,
  Forall (dma_free l) t1 ->
  dma_under_lock_from l d (t1 ++ t2) = dma_under_lock_from l d t2.
Proof.
  induction t1 as [| e t1 IH]; intros d t2 H; [done |].
  apply Forall_cons_1 in H as [[Hl Hd] H]. simpl.
  by rewrite Hd, (off_lock_step _ _ _ Hl), IH.
Qed.

Lemma lock_balanced_free l t1 : forall d t2,
  Forall (dma_free l) t1 -> 0 <= d ->
  lock_balanced_from l d (t1 ++ t2) = lock_balanced_from l d t2.
Proof.
  induction t1 as [| e t1 IH]; intros d t2 H Hd; [done |].
  apply Forall_cons_1 in H as [[Hl _] H]. simpl.
  rewrite (off_lock_step _ _ _ Hl), IH by done.
  destruct (Z.leb_spec 0 d); [done | lia].
Qed.

Lemma wp_assoc {A B C} (c : M A) (g : A -> M B) (f : B -> M C) m Q :
  wp (c ≫= fun a => g a ≫= f) m Q -> wp ((c ≫= g) ≫= f) m Q.
Proof.
  unfold wp, mbind, M_bind. by destruct (c m) as [[a | e] m1].
Qed.

Section DmaLock.
Context (l : lock).

Lemma wp_dma_free {A} (c : M A) (f : A -> M Z) d m :
  0 <= d -> emits (dma_free l) c ->
  (forall a m1, wp (f a) m1 (fun o _ t => dma_locked_from l d o t)) ->
  wp (c ≫= f) m (fun o _ t => dma_locked_from l d o t).
Proof.
  intros Hd Hc Hf. apply wp_bind.
  eapply wp_mono; [apply emits_wp, Hc |]. simpl.
  intros o m1 t1 H1. destruct o as [a | c0].
  - eapply wp_mono; [apply Hf |]. simpl. intros o m2 t2 [H2 H3].
    split; [by rewrite dma_under_lock_free |].
    intros r Hr. rewrite lock_balanced_free by done. by apply (H3 r).
  - split; [| by intros r [=]].
    rewrite <- (app_nil_r t1). by rewrite dma_under_lock_free.
Qed.

Lemma wp_dma_lock (f : unit -> M Z) d m :
  0 <= d ->
  (forall m1, wp (f tt) m1 (fun o _ t => dma_locked_from l (d + 1) o t)) ->
  wp (emit (EvMutexLock l) ≫= f) m (fun o _ t => dma_locked_from l d o t).
Proof.
  intros Hd Hf. apply wp_bind_emit.
  eapply wp_mono; [apply Hf |]. simpl. intros o m2 t2 [H2 H3].
  unfold dma_locked_from. simpl. destruct (decide (l = l)); [| done].
  split; [done |]. intros r Hr. rewrite (H3 r Hr).
  destruct (Z.leb_spec 0 (d + 1)); [done | lia].
Qed.

Lemma wp_dma_unlock (f : unit -> M Z) d m :
  1 <= d ->
  (forall m1, wp (f tt) m1 (fun o _ t => dma_locked_from l (d - 1) o t)) ->
  wp (emit (EvMutexUnlock l) ≫= f) m (fun o _ t => dma_locked_from l d o t).
Proof.
  intros Hd Hf. apply wp_bind_emit.
  eapply wp_mono; [apply Hf |]. simpl. intros o m2 t2 [H2 H3].
  unfold dma_locked_from. simpl. destruct (decide (l = l)); [| done].
  split; [done |]. intros r Hr. rewrite (H3 r Hr).
  destruct (Z.leb_spec 0 (d - 1)); [done | lia].
Qed.

Lemma wp_dma_call e (f : unit -> M Z) d m :
  1 <= d -> on_lock l e = false ->
  (forall m1, wp (f tt) m1 (fun o _ t => dma_locked_from l d o t)) ->
  wp (emit e ≫= f) m (fun o _ t => dma_locked_from l d o t).
Proof.
  intros Hd He Hf. apply wp_bind_emit.
  eapply wp_mono; [apply Hf |]. simpl. intros o m2 t2 [H2 H3].
  unfold dma_locked_from. simpl. rewrite (off_lock_step _ _ _ He), H2.
  split.
  - destruct (is_dma e); [| done]. destruct (Z.leb_spec 1 d); [done | lia].
  - intros r Hr. rewrite (H3 r Hr). destruct (Z.leb_spec 0 d); [done | lia].
Qed.

Lemma dma_locked_ret r m :
  wp (mret r) m (fun o _ t => dma_locked_from l 0 o t).
Proof. apply wp_ret. split; [done |]. by intros. Qed.

Lemma dma_locked_oops c d m :
  wp (@oops Z c) m (fun o _ t => dma_locked_from l d o t).
Proof. apply wp_oops. split; [done |]. by intros r [=]. Qed.

End DmaLock.

Lemma plain_dma_free l e :
  l = sync_lock \/ l = offload_lock -> plain_event e = true -> dma_free l e.
Proof.
  intros Hl He. split.
  - destruct e; simpl in *; try done;
      destruct l0, Hl as [-> | ->]; done.
  - destruct e; simpl in *; try done. by destruct q.
Qed.

Lemma tlb_map_hmm_dma_free `{K : hmm_defs} l v pa n host ct hp huge :
  emits (dma_free l) (tlb_map_hmm v pa n host ct hp huge).
Proof.
  eapply emits_weaken; [| apply tlb_map_hmm_capped].
  intros e (i & te & -> & _). by split.
Qed.

Section Discipline.
Context `{K : hmm_defs} (k : kernel).

#[local] Hint Resolve rd_emits wr_emits zone_info_emits host_ptw_plain
  tlb_unmap_hmm_plain cpu_free_private_page_plain alloc_private_page_plain
  undo_staging_plain to_host_addresses_plain vacate_card_memory_plain
  zone_setup_plain to_card_addresses_plain to_host_stage_plain
  to_card_stage_plain cpu_huge_block_plain cpu_undo_staging_plain
  cpu_addresses_plain tlb_map_hmm_dma_free : emits.
#[local] Hint Extern 1 (forall e, plain_event e = true -> dma_free _ e) =>
  (intros; apply plain_dma_free; [auto | assumption]) : emits.
#[local] Hint Extern 1 (dma_free _ _) => (split; reflexivity) : emits.

Ltac dma_step :=
  lazymatch goal with
  | |- wp (mret _) _ _ => apply dma_locked_ret
  | |- wp (oops _) _ _ => apply dma_locked_oops
  | |- wp (if ?b then _ else _) _ _ => destruct b eqn:?
  | |- wp (match ?x with _ => _ end) _ _ => destruct x eqn:?
  | |- wp (mbind _ (if ?b then _ else _)) _ _ => destruct b eqn:?
  | |- wp (mbind _ (match ?x with _ => _ end)) _ _ => destruct x eqn:?
  | |- wp (mbind _ (mbind _ _)) _ _ => apply wp_assoc
  | |- wp (mbind _ (mret _)) _ _ => apply wp_bind_ret
  | |- wp (mbind _ (oops _)) _ _ => apply wp_bind_oops; split; [done | by intros ? [=]]
  | |- wp (mbind _ (gets _)) _ _ => apply wp_bind_gets
  | |- wp (mbind _ (emit (EvMutexLock ?l))) _ (fun o _ t => dma_locked_from ?l _ o t) =>
      apply wp_dma_lock; [lia | intros]
  | |- wp (mbind _ (emit (EvMutexUnlock ?l))) _ (fun o _ t => dma_locked_from ?l _ o t) =>
      apply wp_dma_unlock; [lia | intros]
  | |- wp (mbind _ (emit ?e)) _ _ =>
      first [ apply wp_dma_free; [lia | apply emits_emit; split; reflexivity | intros]
            | apply wp_dma_call; [lia | reflexivity | intros] ]
  | |- wp (mbind _ (pr_err _)) _ _ =>
      apply wp_dma_free; [lia | apply emits_emit; split; reflexivity | intros]
  | |- wp (mbind _ _) _ _ =>
      apply wp_dma_free; [lia | solve [auto 4 with emits nocore] | intros]
  end.

Lemma fpga_migrate_to_host_dma args m :
  wp (fpga_migrate_to_host k args) m
     (fun o _ t => dma_locked_from sync_lock 0 o t).
Proof. unfold fpga_migrate_to_host. repeat dma_step. Qed.

Lemma fpga_migrate_to_card_dma args m :
  wp (fpga_migrate_to_card k args) m
     (fun o _ t => dma_locked_from offload_lock 0 o t).
Proof. unfold fpga_migrate_to_card. repeat dma_step. Qed.

Lemma cpu_migrate_to_host_dma pid_array page_word vmf m :
  wp (cpu_migrate_to_host k pid_array page_word vmf) m
     (fun o _ t => dma_locked_from sync_lock 0 o t).
Proof. unfold cpu_migrate_to_host. repeat dma_step. Qed.

End Discipline.

(** X28: the DMA of a migration runs under its lock.  Every DMA trigger and
    every wait for a DMA completion that [fpga_migrate_to_host] and
    [cpu_migrate_to_host] make happens while the call holds [sync_lock], and
    every one [fpga_migrate_to_card] makes while it holds [offload_lock]; a
    call that returns has released that lock as often as it took it. *)
Theorem migrations_dma_under_lock `{K : hmm_defs} (k : kernel)
    (pid_array : list Z) (page_word : page -> Z) (args : cyt_migrate)
    (vmf : vm_fault) (m : machine) :
  (let '(o, m') := fpga_migrate_to_host k args m in
   dma_locked sync_lock o (new_events m m'))
  /\ (let '(o, m') := fpga_migrate_to_card k args m in
      dma_locked offload_lock o (new_events m m'))
  /\ (let '(o, m') := cpu_migrate_to_host k pid_array page_word vmf m in
      dma_locked sync_lock o (new_events m m')).
Proof.
  repeat split.
  - pose proof (wp_run _ _ _ (fpga_migrate_to_host_dma k args m)) as H.
    simpl in H. by destruct (fpga_migrate_to_host k args m).
  - pose proof (wp_run _ _ _ (fpga_migrate_to_card_dma k args m)) as H.
    simpl in H. by destruct (fpga_migrate_to_card k args m).
  - pose proof (wp_run _ _ _
      (cpu_migrate_to_host_dma k pid_array page_word vmf m)) as H.
    simpl in H. by destruct (cpu_migrate_to_host k pid_array page_word vmf m).
Qed.

(** ** A migration to card whose allocation fails *)

(** X29: when the allocation of a device page fails in a migration to card
    that has reached its staging loop (the TLB walk ends, the pool is in
    order), the call returns [-ENOMEM]; it has installed no TLB mapping and
    leaves the TLB as the invalidate step left it, so the entries removed
    there are not restored; every page it locked has been unlocked and
    released; it ends by finishing the staged migration with [cpages = 0]
    and a cleared [dst].  The undo block pushes each staged page on the
    free list twice, through the release callback under [put_page] and
    through the call of [cpu_free_private_page] after it: when the call had
    locked a page, the free list it leaves is one released page that links
    to itself, and whatever else was on the list is lost. *)
Theorem fpga_migrate_to_card_alloc_failure `{K : hmm_defs} (k : kernel)
    (args : cyt_migrate) (m : machine) (src : list Z) (cpages : Z) :
  0 <= PAGE_SHIFT <= 28 ->
  staging_ready k args MIGRATE_VMA_SELECT_SYSTEM src cpages ->
  tlb_walk_ok (bd_data m) (n_pages args) (hugepages args) ->
  pool_ok m ->
  let '(o, m') := fpga_migrate_to_card k args m in
  card_abort args m o m' (new_events m m').
Proof.
  intros HPS Hready Hwalk Hpool.
  pose proof (wp_run _ _ _
    (fpga_migrate_to_card_abort k args m src cpages HPS Hready Hwalk Hpool)) as H.
  destruct (fpga_migrate_to_card k args m) as [o m']. exact H.
Qed.

Lemma fpga_migrate_to_card_alloc_failure_witness :
  let '(o, m') := fpga_migrate_to_card (K := x86_64) kernel_three args_three
                    machine_exhausted in
  card_abort (K := x86_64) args_three machine_exhausted o m'
    (new_events machine_exhausted m')
  /\ existsb alloc_failure (new_events machine_exhausted m') = true
  /\ tlb m' = [] /\ free_pages m' = [0x100001; 0x100001].
Proof.
  pose proof (fpga_migrate_to_card_alloc_failure (K := x86_64) kernel_three
                args_three machine_exhausted
                [movable 0x300; movable 0x301; movable 0x302] 3) as H.
  assert (H1 : 0 <= PAGE_SHIFT (hmm_defs := x86_64) <= 28)
    by (vm_compute; split; discriminate).
  assert (H2 : staging_ready (K := x86_64) kernel_three args_three
                 MIGRATE_VMA_SELECT_SYSTEM
                 [movable 0x300; movable 0x301; movable 0x302] 3)
    by (vm_compute; repeat split; reflexivity).
  assert (H3 : tlb_walk_ok (bd_data machine_exhausted) (n_pages args_three)
                 (hugepages args_three))
    by (vm_compute; split; discriminate).
  assert (H4 : pool_ok (K := x86_64) machine_exhausted)
    by (split; repeat constructor).
  specialize (H H1 H2 H3 H4).
  destruct (fpga_migrate_to_card (K := x86_64) kernel_three args_three
              machine_exhausted) as [o m'] eqn:E.
  split; [exact H |].
  vm_compute in E. injection E as <- <-. repeat split.
Defined.

(** * The claims *)

(** ** The host-fault loop at the level of the function *)

Lemma host_fault_loop_timeout start end_ e s2 s1 : forall pfns m,
  Forall retries s1 -> fe_time_after e = true ->
  exists pfns',
    (host_fault_loop (s1 ++ e :: s2) start end_ pfns m).1
    = Done (- EBUSY, false, pfns').
Proof.
  induction s1 as [| x s1 IH]; intros pfns m Hs He; simpl.
  - rewrite He. eauto.
  - apply Forall_cons_1 in Hs as [[Hx Hr] Hs]. rewrite Hx.
    unfold mbind, M_bind, emit, modify. simpl.
    destruct Hr as [Hr | [Hr Hst]]; rewrite Hr; simpl.
    + by apply IH.
    + rewrite Hst. by apply IH.
Qed.

Lemma fpga_do_host_fault_run `{K : hmm_defs} k args m :
  k_notifier k (hpid args) = true -> k_vmalloc k BufPfns = true ->
  fpga_do_host_fault k args m
  = match host_fault_loop (fault_script m) (u64 (vaddr args)) (host_fault_end args)
            (zeroed 0 (u32 (n_pages args))) m with
    | (Done (r, true, pfns), m1) =>
        (tlb_map_hmm (host_fault_vpage args) pfns (u32 (n_pages args)) STRM_ACCESS
           (ctid args) (hpid args) (hugepages args) ;; mret r) m1
    | (Done (r, false, pfns), m1) => (Done r, m1)
    | (Oops c, m1) => (Oops c, m1)
    end.
Proof.
  intros Hn Hv. unfold fpga_do_host_fault, host_fault_end, host_fault_vpage.
  rewrite Hn, Hv. cbn [negb].
  unfold mbind at 1, M_bind at 1, gets. cbn [fst snd].
  unfold mbind at 1, M_bind at 1.
  destruct (host_fault_loop _ _ _ _ m) as [[[[r leave] pfns] | c] m1]; [| done].
  by destruct leave.
Qed.




(** C8, as amended: [user_migrate_to_host] first runs [find_vma] and
    [is_thp], with no lock held: with no vma behind the address it faults
    there.  When the page is pinned and let go, it takes the migration lock
    before the migration and releases it after [fpga_migrate_to_host] has
    returned; the migration itself never takes or releases it.  The lock is
    therefore held at every blocking wait of the call (for the invalidation
    and for the DMA), and a call that returns has released it. *)
Theorem user_migrate_to_host_holds_mmu_lock `{K : hmm_defs} (k : kernel)
    (args : cyt_migrate) (m : machine) :
  let '(o, m') := user_migrate_to_host k args m in
  if negb (k_find_vma k (vaddr args)) then o = Oops NullDeref /\ m' = m
  else
    match k_get_user_pages_remote k (vaddr args) with
    | None =>
        o = Oops NullDeref
        /\ new_events m m' = [EvGetUserPagesRemote (vaddr args) None]
    | Some p =>
        exists t,
          Forall quiet t
          /\ new_events m m' =
               is_thp_calls m (vaddr args) p
               ++ [EvMutexLock mmu_lock; EvChangeTlbLock; EvMmget; EvMmapReadLock]
               ++ t ++
               match o with
               | Done _ => [EvMmapReadUnlock; EvMmput; EvChangeTlbLock;
                            EvMutexUnlock mmu_lock]
               | Oops _ => []
               end
          /\ waits_under_lock mmu_lock (new_events m m') = true
          /\ match o with
             | Done _ => lock_balanced mmu_lock (new_events m m') = true
             | Oops _ => True
             end
    end.
Proof.
  unfold user_migrate_to_host. rewrite is_thp_bind_run.
  destruct (k_find_vma k (vaddr args)); cbn [negb]; [| done].
  destruct (k_get_user_pages_remote k (vaddr args)) as [p |];
    [| split; [done | by apply new_events_app]].
  set (args' := with_hugepages args _).
  pose proof (user_bracket_run quiet (fpga_migrate_to_host k args')
                (after_is_thp m (vaddr args) p)
                (fpga_migrate_to_host_quiet k args') (fun e H => H)) as H.
  match type of H with
  | let '(_, _) := ?x in _ => destruct x as [o m']
  end.
  destruct H as (t & HP & Ht & Hw). exists t. split; [done |].
  rewrite trace_after_is_thp, <- app_assoc in Ht.
  rewrite (new_events_app _ _ _ Ht).
  destruct (Hw 0 ltac:(lia)) as [Hw1 Hw2].
  split; [done |]. split.
  - unfold waits_under_lock. by rewrite is_thp_calls_waits.
  - destruct o; [| done]. unfold lock_balanced.
    rewrite lock_balanced_quiet by (apply is_thp_calls_quiet || lia). exact Hw2.
Qed.

(** C8, the claim as stated fails: in a user migration of one resident
    page, both waits (for the invalidation and for the DMA) happen between
    [mutex_lock] and [mutex_unlock] of the migration lock. *)
Lemma user_migrate_to_host_waits_with_mmu_lock :
  let '(o, m') := user_migrate_to_host (K := x86_64) kernel_resident args_resident
                    machine_resident in
  o = Done 0
  /\ In (EvWaitEvent waitqueue_sync) (trace m')
  /\ waits_outside_lock mmu_lock (trace m') = false.
Proof. vm_compute. auto 30. Qed.

(** ** Evaluations on the sample platform *)

(** C1: after a successful migration to host of one device-resident page,
    the TLB entry installed for its virtual page holds the card address the
    page has just left (0x5000), which the code stores in [host_address],
    while the pfn of the freshly allocated host page (0x77) goes to
    [card_address]; the direction is STRM_ACCESS. *)
Theorem fpga_migrate_to_host_maps_vacated_card_address :
  let '(o, m') := fpga_migrate_to_host (K := x86_64) kernel_resident
                    args_resident machine_resident in
  o = Done 0
  /\ tlb m' = [small_entry 0x10 (card_address resident_info) (STRM_ACCESS (hmm_defs := x86_64))]
  /\ In (EvAllocPageVma 0x10000 (Some 0x77)) (trace m')
  /\ In (EvTriggerDmaSync [0x5000] [0x77] 1 false) (trace m')
  /\ ~ In (EvCreateTlbMapping (small_entry 0x10 0x77 0)) (trace m').
Proof.
  vm_compute. repeat split; auto 20.
  intros H. repeat (destruct H as [H | H]; [discriminate H |]). exact H.
Qed.

(** C2: a migration to host of two device-resident pages for which the
    kernel has one host page.  The allocation for the second page fails, and
    the undo block, having unlocked and released the host page staged for
    the first, hands it to [cpu_free_private_page], the free function of
    the device allocator: the page is of no chunk and the [container_of] on
    its [pgmap] walks off.  The call does not return [-ENOMEM], the staged
    migration is never finished, and the two TLB entries the invalidate step
    removed stay removed. *)
Theorem fpga_migrate_to_host_undo_frees_host_page :
  let m := machine_two_resident in
  let '(o, m') := fpga_migrate_to_host (K := x86_64) kernel_one_host_page
                    args_two m in
  o = Oops NullDeref
  /\ trace m' = [EvMigrateVmaSetup 0x10000 0x12000 MIGRATE_VMA_SELECT_DEVICE_PRIVATE;
                 EvCreateTlbUnmapping false 0x10 42;
                 EvCreateTlbUnmapping false 0x11 42;
                 EvInvalidateTlbEntry 0x10 1 42 false;
                 EvInvalidateTlbEntry 0x11 1 42 true;
                 EvAllocPageVma 0x10000 (Some 0x77); EvLockPage 0x77;
                 EvAllocPageVma 0x10001 None;
                 EvPrErr "invalidating all destination page entries";
                 EvUnlockPage 0x77; EvPutPage 0x77]
  /\ existsb (page_in_chunk (K := x86_64) 0x77) (mem_sections m) = false
  /\ ~ In EvMigrateVmaFinalize (trace m')
  /\ tlb m = [small_entry 0x10 0x5000 1; small_entry 0x11 0x6000 1]
  /\ tlb m' = [].
Proof.
  vm_compute. repeat split; auto.
  intros H. repeat (destruct H as [H | H]; [discriminate H |]). exact H.
Qed.

(** C3: an invalidation of the range [0x1000, 0x2000) (virtual page 1) that
    takes the lock leaves the TLB entry of page 1 in place and removes the
    entry of page 0x1000000: the callback passes [start << PAGE_SHIFT] to
    [tlb_unmap_hmm], which counts in pages. *)
Theorem cyt_interval_invalidate_unmaps_shifted_address :
  let m := set_tlb [small_entry 1 0x300 0; small_entry 0x1000000 0x301 0] machine0 in
  let '(o, m') := cyt_interval_invalidate (K := x86_64) kernel_resident 42
                    range_one_page 7 m in
  o = Done true
  /\ tlb m' = [small_entry 1 0x300 0]
  /\ trace m' = [EvGetUserPagesRemote 0x1000 (Some 0x55); EvPutPage 0x55;
                 EvMutexLock mmu_lock; EvMmuIntervalSetSeq 7;
                 EvCreateTlbUnmapping false 0x1000000 42;
                 EvInvalidateTlbEntry 0x1000000 1 42 true;
                 EvMutexUnlock mmu_lock].
Proof. vm_compute. auto. Qed.

(** C4: with the first of two slots absent, the second slot is installed at
    the base virtual page 0x100, not at 0x101: the skip leaves [tmp_vaddr]
    where it was. *)
Theorem tlb_map_hmm_skip_keeps_vaddr :
  let '(o, m') := tlb_map_hmm (K := x86_64) 0x100 [0; 0x77] 2 0 3 42 false machine0 in
  o = Done tt
  /\ tlb m' = [small_entry 0x100 0x77 0]
  /\ tlb m' <> [small_entry 0x101 0x77 0].
Proof. vm_compute. repeat split; auto. discriminate. Qed.

(** C6: when [memremap_pages] fails, [alloc_new_prvt_pages] releases the
    region and the management struct, adds no page and records no chunk,
    and returns 0, the value of success. *)
Theorem alloc_new_prvt_pages_remap_failure_returns_0 :
  let '(o, m') := alloc_new_prvt_pages (K := x86_64)
                    (set_grow_script [grow_no_remap] machine0) in
  o = Done 0
  /\ free_pages m' = [] /\ mem_sections m' = []
  /\ trace m' = [EvKzallocDevmem true; EvRequestFreeMemRegion (Some 0x100000000);
                 EvMemremapPages false; EvPrErr "cannot remap private pages";
                 EvReleaseMemRegion 0x100000000 DEVMEM_CHUNK_SIZE; EvKfreeDevmem].
Proof. vm_compute. auto. Qed.

(** C7: for a range of two huge pages (4 MiB at 0) the handler computes
    262656 pages, (512 + 1) * 512, where two huge pages hold 1024 regular
    pages: [first] and [last] are shifted by PAGE_SHIFT, not by the shift of
    the huge page. *)
Theorem mmu_handler_args_two_huge_pages :
  n_pages (mmu_handler_args (K := x86_64) bd 0 (4 * 1024 * 1024) 3 42 true) = 262656
  /\ granule_page_count (K := x86_64) bd 0 (4 * 1024 * 1024) true = 1024.
Proof. vm_compute. auto. Qed.

(** C9: asked to remove 1024 regular pages of huge granularity (two huge
    pages, at 0 and at 512), [tlb_unmap_hmm] removes the first only: the
    loop bound counts huge pages and the loop index steps in regular
    pages. *)
Theorem tlb_unmap_hmm_huge_stops_short :
  let m := set_tlb [huge_entry 0 0x300 0; huge_entry 512 0x301 0] machine0 in
  let '(o, m') := tlb_unmap_hmm 0 1024 42 true m in
  o = Done tt
  /\ tlb m' = [huge_entry 512 0x301 0]
  /\ trace m' = [EvCreateTlbUnmapping true 0 42; EvInvalidateTlbEntry 0 512 42 false].
Proof. vm_compute. auto. Qed.

(** C10: with an empty free list and a pool that cannot grow,
    [alloc_private_page] returns NULL after a [spin_unlock] of the page
    lock it never took. *)
Theorem alloc_private_page_unlocks_untaken_lock :
  let '(o, m') := alloc_private_page (K := x86_64) machine0 in
  o = Done None
  /\ trace m' = [EvKzallocDevmem false; EvPrErr "Cannot allocate devmem mngmt struct";
                 EvSpinUnlock page_lock;
                 EvPrErr "cannot allocate additional device private pages"]
  /\ lock_balanced page_lock (trace m') = false.
Proof. vm_compute. auto. Qed.
